(** * Draupnir MCP server: path sandbox, brace-aware glob matcher,
      Cilium policy validator, posture checklist and template generator.

    A shallow embedding of [src/draupnir_mcp_server/server.py].  Python
    strings are [string]s, Python lists are [list]s, exceptions are the
    [Raise] case of [outcome], and the library calls the server relies on
    ([pathlib], [fnmatch], [yaml]) are modelled next to the functions that
    call them. *)

From Stdlib Require Import String Ascii List Bool Arith ZArith Lia.
From Stdlib Require Import DecimalString.
Import ListNotations.

Open Scope string_scope.
Open Scope list_scope.

(** ** Python strings *)

Module PyStr.

Fixpoint has_char (c : ascii) (s : string) : bool :=
  match s with
  | EmptyString => false
  | String d s' => Ascii.eqb c d || has_char c s'
  end.

(** [s.startswith(p)] *)
Fixpoint startswith (p s : string) : bool :=
  match p, s with
  | EmptyString, _ => true
  | String a p', String b s' => Ascii.eqb a b && startswith p' s'
  | String _ _, EmptyString => false
  end.

(** [needle in hay] *)
Fixpoint contains (needle hay : string) : bool :=
  startswith needle hay ||
  match hay with
  | EmptyString => false
  | String _ hay' => contains needle hay'
  end.

(** [s[n:]] *)
Fixpoint drop (n : nat) (s : string) : string :=
  match n, s with
  | O, _ => s
  | S _, EmptyString => EmptyString
  | S n', String _ s' => drop n' s'
  end.

(** [s.partition(sep)] for a one-character separator: the text before the
    first occurrence, whether the separator was found, the text after. *)
Fixpoint partition (sep : ascii) (s : string) : string * bool * string :=
  match s with
  | EmptyString => (EmptyString, false, EmptyString)
  | String c s' =>
      if Ascii.eqb c sep then (EmptyString, true, s')
      else let '(a, found, b) := partition sep s' in (String c a, found, b)
  end.

(** [s.split(sep)] for a one-character separator; never the empty list. *)
Fixpoint split (sep : ascii) (s : string) : list string :=
  match s with
  | EmptyString => [EmptyString]
  | String c s' =>
      if Ascii.eqb c sep then EmptyString :: split sep s'
      else match split sep s' with
           | [] => [String c EmptyString]
           | w :: ws => String c w :: ws
           end
  end.

(** [sep.join(parts)] *)
Fixpoint join (sep : string) (parts : list string) : string :=
  match parts with
  | [] => EmptyString
  | [w] => w
  | w :: ws => w ++ sep ++ join sep ws
  end.

Fixpoint chars (s : string) : list ascii :=
  match s with
  | EmptyString => []
  | String c s' => c :: chars s'
  end.

Fixpoint last_char (s : string) : option ascii :=
  match s with
  | EmptyString => None
  | String c EmptyString => Some c
  | String _ s' => last_char s'
  end.

Fixpoint drop_last (s : string) : string :=
  match s with
  | EmptyString => EmptyString
  | String _ EmptyString => EmptyString
  | String c s' => String c (drop_last s')
  end.

Definition first_char (s : string) : option ascii :=
  match s with
  | EmptyString => None
  | String c _ => Some c
  end.

(** ASCII [str.lower()] *)
Definition lower_char (c : ascii) : ascii :=
  let n := nat_of_ascii c in
  if ((65 <=? n) && (n <=? 90))%nat then ascii_of_nat (n + 32) else c.

Fixpoint lower (s : string) : string :=
  match s with
  | EmptyString => EmptyString
  | String c s' => String (lower_char c) (lower s')
  end.

Definition is_empty (s : string) : bool :=
  match s with EmptyString => true | _ => false end.

End PyStr.

(** ** pathlib.PurePosixPath *)

Module Posix.

(** A parsed path: the root ([""], ["/"] or ["//"]) and the components
    after it.  Empty components and ["."] are dropped by the parser;
    [".."] is kept. *)
Record PurePosixPath : Type := mkPath { root : string; tail : list string }.

Fixpoint lstrip_slash (s : string) : string :=
  match s with
  | String "/" s' => lstrip_slash s'
  | _ => s
  end.

(** [_PosixFlavour.splitroot] *)
Definition splitroot (part : string) : string * string :=
  match part with
  | String "/" _ =>
      let stripped := lstrip_slash part in
      if Nat.eqb (String.length part - String.length stripped) 2
      then ("//", stripped) else ("/", stripped)
  | _ => ("", part)
  end.

Definition keep_component (x : string) : bool :=
  negb (PyStr.is_empty x) && negb (String.eqb x ".").

(** [parse_parts] on a single string *)
Definition parse (s : string) : PurePosixPath :=
  let '(r, rel) := splitroot s in
  mkPath r (filter keep_component (PyStr.split "/" rel)).

(** [_parts] / [_cparts]: the root, when there is one, is the first part. *)
Definition parts (p : PurePosixPath) : list string :=
  if PyStr.is_empty (root p) then tail p else root p :: tail p.

(** [as_posix()] *)
Definition as_posix (p : PurePosixPath) : string :=
  match tail p with
  | [] => if PyStr.is_empty (root p) then "." else root p
  | _ => root p ++ PyStr.join "/" (tail p)
  end.

(** [self / key] for a string key: an absolute key replaces the path. *)
Definition joinpath (p : PurePosixPath) (key : string) : PurePosixPath :=
  let k := parse key in
  if PyStr.is_empty (root k) then mkPath (root p) (tail p ++ tail k) else k.

Fixpoint list_eqb (a b : list string) : bool :=
  match a, b with
  | [], [] => true
  | x :: a', y :: b' => String.eqb x y && list_eqb a' b'
  | _, _ => false
  end.

Definition abs_parts (p : PurePosixPath) : list string :=
  if PyStr.is_empty (root p) then tail p else "" :: root p :: tail p.

(** [self.relative_to(other)]: [None] stands for the [ValueError]. *)
Definition relative_to (p other : PurePosixPath) : option (list string) :=
  let to_abs := abs_parts other in
  let n := List.length to_abs in
  let bad :=
    if Nat.eqb n 0 then negb (PyStr.is_empty (root p))
    else negb (list_eqb (firstn n (abs_parts p)) to_abs) in
  if bad then None else Some (skipn n (abs_parts p)).

(** [self.name] and [self.suffix] *)
Definition name (p : PurePosixPath) : string := last (tail p) "".

Fixpoint rfind_dot (s : string) : option nat :=
  match s with
  | EmptyString => None
  | String c s' =>
      match rfind_dot s' with
      | Some i => Some (S i)
      | None => if Ascii.eqb c "." then Some 0 else None
      end
  end.

Definition suffix (p : PurePosixPath) : string :=
  let nm := name p in
  match rfind_dot nm with
  | Some i =>
      if ((0 <? i) && (i <? String.length nm - 1))%nat then PyStr.drop i nm else ""
  | None => ""
  end.

End Posix.

(** ** Exceptions and results *)

(** What [Path.read_text] can raise, in the spec's taxonomy: the file is
    absent, or it cannot be read or decoded (this includes a refusal by the
    operating system). *)
Inductive read_error : Type :=
| NotFound
| ReadError.

Inductive exn : Type :=
| AccessDenied (resolved : Posix.PurePosixPath)
    (* PermissionError("Access outside data dir is not allowed: ...") *)
| ReadFailed (e : read_error)
| ParseError                      (* yaml.YAMLError *)
| ValueError (msg : string)
| TypeError
| AttributeError.

Inductive outcome (A : Type) : Type :=
| Ok (a : A)
| Raise (e : exn).
Arguments Ok {A} a.
Arguments Raise {A} e.

Definition obind {A B : Type} (m : outcome A) (k : A -> outcome B) : outcome B :=
  match m with
  | Ok a => k a
  | Raise e => Raise e
  end.

Declare Scope outcome_scope.
Delimit Scope outcome_scope with out.
Notation "x <- m ;; k" := (obind m (fun x => k))
  (at level 61, m at next level, right associativity) : outcome_scope.


(** ** fnmatch.fnmatchcase *)

Module Fnmatch.

(** The pieces [fnmatch.translate] turns a pattern into. *)
Inductive item : Type :=
| Star                                   (* [*] *)
| AnyChar                                (* [?], and the negated empty class *)
| Never                                  (* the empty class *)
| Lit (c : ascii)
| Class (negated : bool) (chunks : list string).

Fixpoint find_char (c : ascii) (s : string) : option nat :=
  match s with
  | EmptyString => None
  | String d s' =>
      if Ascii.eqb c d then Some 0
      else match find_char c s' with Some i => Some (S i) | None => None end
  end.

(** [s.find(c, k)] *)
Definition find_from (c : ascii) (s : string) (k : nat) : option nat :=
  match find_char c (PyStr.drop k s) with
  | Some i => Some (k + i)
  | None => None
  end.

(** [s[a:b]] *)
Definition slice (s : string) (a b : nat) : string := substring a (b - a) s.

(** Position of the [']'] closing a class, relative to the text after the
    ['[']: a leading ['!'] and a [']'] right after it are skipped. *)
Definition find_close (rest : string) : option nat :=
  let j0 := if PyStr.startswith "!" rest then 1 else 0 in
  let j1 := if PyStr.startswith "]" (PyStr.drop j0 rest) then j0 + 1 else j0 in
  find_from "]" rest j1.

(** The [while True] loop that cuts the class body at the hyphens which
    make ranges; the last element is the final chunk, possibly empty. *)
Fixpoint range_chunks (fuel : nat) (stuff : string) (start k : nat) : list string :=
  match fuel with
  | O => [PyStr.drop start stuff]
  | S fuel' =>
      match find_from "-" stuff k with
      | None => [PyStr.drop start stuff]
      | Some k' => slice stuff start k' :: range_chunks fuel' stuff (k' + 1) (k' + 3)
      end
  end.

(** [if chunk: chunks.append(chunk) else: chunks[-1] += '-'] *)
Fixpoint close_chunks (chunks : list string) : list string :=
  match chunks with
  | [] => []
  | [c] => [c]
  | [c; EmptyString] => [(c ++ "-")%string]
  | c :: rest => c :: close_chunks rest
  end.

Definition char_ltb (a b : ascii) : bool := (nat_of_ascii a <? nat_of_ascii b)%nat.
Definition char_leb (a b : ascii) : bool := (nat_of_ascii a <=? nat_of_ascii b)%nat.

(** Removal of the empty ranges, from the right. *)
Fixpoint merge_empty_ranges (chunks : list string) : list string :=
  match chunks with
  | [] => []
  | c :: rest =>
      match merge_empty_ranges rest with
      | [] => [c]
      | d :: ds =>
          match PyStr.last_char c, PyStr.first_char d with
          | Some lo, Some hi =>
              if char_ltb hi lo then (PyStr.drop_last c ++ PyStr.drop 1 d)%string :: ds
              else c :: d :: ds
          | _, _ => c :: d :: ds
          end
      end
  end.

Definition class_chunks (stuff : string) : list string :=
  if PyStr.has_char "-" stuff then
    let k := if PyStr.startswith "!" stuff then 2 else 1 in
    merge_empty_ranges
      (close_chunks (range_chunks (S (String.length stuff)) stuff 0 k))
  else [stuff].

Definition class_item (stuff : string) : item :=
  match class_chunks stuff with
  | [EmptyString] => Never
  | [String "!" EmptyString] => AnyChar
  | String "!" c0 :: cs => Class true (c0 :: cs)
  | cs => Class false cs
  end.

Fixpoint translate_aux (fuel : nat) (pat : string) (after_star : bool) : list item :=
  match fuel with
  | O => []
  | S fuel' =>
      match pat with
      | EmptyString => []
      | String c rest =>
          if Ascii.eqb c "*" then
            if after_star then translate_aux fuel' rest true
            else Star :: translate_aux fuel' rest true
          else if Ascii.eqb c "?" then AnyChar :: translate_aux fuel' rest false
          else if Ascii.eqb c "[" then
            match find_close rest with
            | None => Lit "[" :: translate_aux fuel' rest false
            | Some j =>
                class_item (slice rest 0 j)
                  :: translate_aux fuel' (PyStr.drop (S j) rest) false
            end
          else Lit c :: translate_aux fuel' rest false
      end
  end.

Definition translate (pat : string) : list item :=
  translate_aux (String.length pat) pat false.

Fixpoint in_ranges (x : ascii) (chunks : list string) : bool :=
  match chunks with
  | a :: rest =>
      match rest with
      | b :: _ =>
          match PyStr.last_char a, PyStr.first_char b with
          | Some lo, Some hi => char_leb lo x && char_leb x hi
          | _, _ => false
          end || in_ranges x rest
      | [] => false
      end
  | [] => false
  end.

Definition in_class (x : ascii) (chunks : list string) : bool :=
  existsb (PyStr.has_char x) chunks || in_ranges x chunks.

(** One character against a piece that is not [Star]. *)
Definition accepts (it : item) (x : ascii) : bool :=
  match it with
  | Star => false
  | AnyChar => true
  | Never => false
  | Lit c => Ascii.eqb c x
  | Class neg chunks => if neg then negb (in_class x chunks) else in_class x chunks
  end.

(** The compiled pattern must match the whole name; [Star] is [.*]. *)
Fixpoint match_items (its : list item) (s : string) : bool :=
  match its with
  | [] => PyStr.is_empty s
  | Star :: its' =>
      (fix star (s : string) : bool :=
         match_items its' s ||
         match s with
         | EmptyString => false
         | String _ s' => star s'
         end) s
  | it :: its' =>
      match s with
      | EmptyString => false
      | String c s' => accepts it c && match_items its' s'
      end
  end.

Definition fnmatchcase (name pat : string) : bool :=
  match_items (translate pat) name.

End Fnmatch.

(** [PurePosixPath(path).match(path_pattern)], CPython 3.11: the pattern is
    parsed like a path; a pattern without parts is rejected; a relative
    pattern is compared with the last parts of the path, an anchored one
    with all of them; each part is compared by [fnmatchcase], so [**] is an
    ordinary [*] within one part. *)
Module PathMatch.

Import Posix.

Fixpoint zip_all (xs ps : list string) : bool :=
  match xs, ps with
  | x :: xs', p :: ps' => Fnmatch.fnmatchcase x p && zip_all xs' ps'
  | _, _ => true
  end.

Definition match_ (path path_pattern : string) : outcome bool :=
  let pp := parse path_pattern in
  let xp := parse path in
  let pat_parts := parts pp in
  match pat_parts with
  | [] => Raise (ValueError "empty pattern")
  | _ :: pat_tail =>
      if negb (PyStr.is_empty (root pp)) && negb (String.eqb (root pp) (root xp))
      then Ok false
      else
        let xparts := parts xp in
        if negb (PyStr.is_empty (root pp)) then
          if negb (Nat.eqb (List.length pat_parts) (List.length xparts)) then Ok false
          else Ok (zip_all (rev xparts) (rev pat_tail))
        else if (List.length xparts <? List.length pat_parts)%nat then Ok false
        else Ok (zip_all (rev xparts) (rev pat_parts))
  end.

End PathMatch.

(** ** The glob matcher of the server *)

Definition _expand_brace_patterns (pattern : string) : list string :=
  if negb (PyStr.has_char "{" pattern) || negb (PyStr.has_char "}" pattern)
  then [pattern]
  else
    let '(pre, _, rest) := PyStr.partition "{" pattern in
    let '(inner, sep, post) := PyStr.partition "}" rest in
    if negb sep then [pattern]
    else map (fun opt => (pre ++ opt ++ post)%string) (PyStr.split "," inner).

Definition _normalize_patterns (pattern : string) : list string :=
  flat_map
    (fun pat => if PyStr.startswith "**/" pat then [pat; PyStr.drop 3 pat] else [pat])
    (_expand_brace_patterns pattern).

(** The [for] loop of [_matches]: the first pattern that matches ends the
    loop, and so does the first one [match] rejects with an exception. *)
Fixpoint first_match (path : string) (pats : list string) : outcome bool :=
  match pats with
  | [] => Ok false
  | pat :: rest =>
      match PathMatch.match_ path pat with
      | Raise e => Raise e
      | Ok true => Ok true
      | Ok false => first_match path rest
      end
  end.

Definition _matches (path pattern : string) : outcome bool :=
  first_match path (_normalize_patterns pattern).

(** The glob semantics as the specification words it, for comparison with
    [PathMatch.match_]: the candidate is matched as a whole, [*] matches
    any run of characters other than ['/'], [**] matches any run of
    characters, every other character matches itself. *)
Module SpecGlob.

Inductive piece : Type :=
| Run                (* [*]: no separator inside *)
| DeepRun            (* [**]: may cross separators *)
| Exactly (c : ascii).

Fixpoint pieces (pat : string) : list piece :=
  match pat with
  | EmptyString => []
  | String "*" (String "*" rest) => DeepRun :: pieces rest
  | String "*" rest => Run :: pieces rest
  | String c rest => Exactly c :: pieces rest
  end.

Fixpoint match_pieces (ps : list piece) (s : string) : bool :=
  match ps with
  | [] => PyStr.is_empty s
  | Run :: ps' =>
      (fix run (s : string) : bool :=
         match_pieces ps' s ||
         match s with
         | EmptyString => false
         | String c s' => negb (Ascii.eqb c "/") && run s'
         end) s
  | DeepRun :: ps' =>
      (fix run (s : string) : bool :=
         match_pieces ps' s ||
         match s with
         | EmptyString => false
         | String _ s' => run s'
         end) s
  | Exactly c :: ps' =>
      match s with
      | EmptyString => false
      | String d s' => Ascii.eqb c d && match_pieces ps' s'
      end
  end.

Definition glob (candidate pat : string) : bool :=
  match_pieces (pieces pat) candidate.

(** Step 3 of the specification's algorithm: any pattern of the set. *)
Definition matches (candidate pattern : string) : bool :=
  existsb (glob candidate) (_normalize_patterns pattern).

End SpecGlob.

(** ** Parsed documents *)

(** What [yaml.safe_load] returns for the documents the server inspects:
    null, booleans, integers, strings, sequences and mappings with string
    keys.  A mapping keeps the order of its keys, as a Python [dict] does. *)
#[warnings="-register-all"]
Inductive yaml : Type :=
| YNull
| YBool (b : bool)
| YInt (z : Z)
| YStr (s : string)
| YSeq (items : list yaml)
| YMap (entries : list (string * yaml)).

(** ** The Python operations applied to parsed documents *)

Module Py.

(** [bool(v)] *)
Definition truthy (v : yaml) : bool :=
  match v with
  | YNull => false
  | YBool b => b
  | YInt z => negb (Z.eqb z 0)
  | YStr s => negb (PyStr.is_empty s)
  | YSeq l => match l with [] => false | _ => true end
  | YMap m => match m with [] => false | _ => true end
  end.

Fixpoint lookup (k : string) (m : list (string * yaml)) : option yaml :=
  match m with
  | [] => None
  | (k', v) :: m' => if String.eqb k k' then Some v else lookup k m'
  end.

(** [v.get(k, default)]: only a [dict] has [get]. *)
Definition get_or (v : yaml) (k : string) (default : yaml) : outcome yaml :=
  match v with
  | YMap m => Ok (match lookup k m with Some x => x | None => default end)
  | _ => Raise AttributeError
  end.

(** [v.get(k)] *)
Definition get (v : yaml) (k : string) : outcome yaml := get_or v k YNull.

(** [a or b] *)
Definition or_ (a b : yaml) : yaml := if truthy a then a else b.

(** The elements a [for] loop over [v] visits. *)
Definition iter (v : yaml) : outcome (list yaml) :=
  match v with
  | YSeq l => Ok l
  | YMap m => Ok (map (fun kv => YStr (fst kv)) m)
  | YStr s => Ok (map (fun c => YStr (String c EmptyString)) (PyStr.chars s))
  | _ => Raise TypeError
  end.

Definition as_int (v : yaml) : option Z :=
  match v with
  | YInt z => Some z
  | YBool b => Some (if b then 1%Z else 0%Z)
  | _ => None
  end.

(** [a + b] *)
Definition add (a b : yaml) : outcome yaml :=
  match a, b with
  | YSeq l1, YSeq l2 => Ok (YSeq (l1 ++ l2))
  | YStr s1, YStr s2 => Ok (YStr (s1 ++ s2))
  | _, _ =>
      match as_int a, as_int b with
      | Some x, Some y => Ok (YInt (x + y))
      | _, _ => Raise TypeError
      end
  end.

Definition is_str (k : string) (v : yaml) : bool :=
  match v with YStr s => String.eqb k s | _ => false end.

(** [k in v] for a string [k] *)
Definition str_in (k : string) (v : yaml) : outcome bool :=
  match v with
  | YMap m => Ok (match lookup k m with Some _ => true | None => false end)
  | YSeq l => Ok (existsb (is_str k) l)
  | YStr s => Ok (PyStr.contains k s)
  | _ => Raise TypeError
  end.

End Py.

(** ** yaml.safe_dump *)

(** PyYAML's [safe_dump] on the documents above, with its defaults: block
    style, two spaces of indentation, lines folded after column 80, no
    character outside printable ASCII left unescaped, keys sorted unless
    [sort_keys] is off.  [Yaml] follows [yaml/resolver.py] (which plain
    texts would be read back as another type) and the scalar analysis of
    [yaml/emitter.py]; [Emitter] follows the writers and the states of
    [yaml/emitter.py], whose names are kept. *)
Module Yaml.

Definition dquote : ascii := ascii_of_nat 34.
Definition newline_char : ascii := ascii_of_nat 10.
Definition nel_char : ascii := ascii_of_nat 133.

Definition string_of_Z (z : Z) : string := NilZero.string_of_int (Z.to_int z).

Fixpoint all_chars (p : ascii -> bool) (s : string) : bool :=
  match s with
  | EmptyString => true
  | String c s' => p c && all_chars p s'
  end.

Fixpoint some_char (p : ascii -> bool) (s : string) : bool :=
  match s with
  | EmptyString => false
  | String c s' => p c || some_char p s'
  end.

Definition between (lo hi : nat) (c : ascii) : bool :=
  let n := nat_of_ascii c in ((lo <=? n) && (n <=? hi))%nat.

Definition one_of (set : string) (c : ascii) : bool := PyStr.has_char c set.

(** *** Regular expressions, matched by derivatives *)

Inductive regex : Type :=
| Never
| Empty
| Class (p : ascii -> bool)
| Cat (a b : regex)
| Alt (a b : regex)
| Star (a : regex).

Fixpoint nullable (r : regex) : bool :=
  match r with
  | Never => false
  | Empty => true
  | Class _ => false
  | Cat a b => nullable a && nullable b
  | Alt a b => nullable a || nullable b
  | Star _ => true
  end.

Definition cat (a b : regex) : regex :=
  match a, b with
  | Never, _ => Never
  | _, Never => Never
  | Empty, _ => b
  | _, _ => Cat a b
  end.

Definition alt (a b : regex) : regex :=
  match a, b with
  | Never, _ => b
  | _, Never => a
  | _, _ => Alt a b
  end.

Fixpoint deriv (c : ascii) (r : regex) : regex :=
  match r with
  | Never => Never
  | Empty => Never
  | Class p => if p c then Empty else Never
  | Cat a b => alt (cat (deriv c a) b) (if nullable a then deriv c b else Never)
  | Alt a b => alt (deriv c a) (deriv c b)
  | Star a => cat (deriv c a) (Star a)
  end.

Fixpoint full_match (r : regex) (s : string) : bool :=
  match s with
  | EmptyString => nullable r
  | String c s' => full_match (deriv c r) s'
  end.

(** [re.compile("^(?:r)$").match(s)]: [$] matches at the end and before a
    final newline. *)
Definition re_match (r : regex) (s : string) : bool :=
  full_match r s
  || match PyStr.last_char s with
     | Some c => Ascii.eqb c newline_char && full_match r (PyStr.drop_last s)
     | None => false
     end.

Fixpoint lit (s : string) : regex :=
  match s with
  | EmptyString => Empty
  | String c s' => Cat (Class (Ascii.eqb c)) (lit s')
  end.

Definition cats (rs : list regex) : regex := fold_right Cat Empty rs.
Definition alts (rs : list regex) : regex := fold_right Alt Never rs.
Definition words (ws : list string) : regex := alts (map lit ws).
Definition opt (r : regex) : regex := Alt r Empty.
Definition plus (r : regex) : regex := Cat r (Star r).
Definition chars (set : string) : regex := Class (one_of set).

Definition digit : regex := Class (between 48 57).                      (* [0-9] *)
Definition digit_us : regex := Class (fun c => between 48 57 c || Ascii.eqb c "_").
Definition sign : regex := opt (chars "-+").                            (* [-+]? *)
Definition blank : regex := Class (fun c => Ascii.eqb c " " || Ascii.eqb c (ascii_of_nat 9)).

Definition exponent : regex :=                       (* (?:[eE][-+][0-9]+)? *)
  opt (cats [chars "eE"; chars "-+"; plus digit]).

Definition sexagesimal : regex :=                    (* (?::[0-5]?[0-9])+ *)
  plus (cats [lit ":"; opt (Class (between 48 53)); digit]).

Definition bool_regex : regex :=
  words ["yes"; "Yes"; "YES"; "no"; "No"; "NO"; "true"; "True"; "TRUE";
         "false"; "False"; "FALSE"; "on"; "On"; "ON"; "off"; "Off"; "OFF"].

Definition float_regex : regex :=
  alts [cats [sign; digit; Star digit_us; lit "."; Star digit_us; exponent];
        cats [lit "."; digit; Star digit_us; exponent];
        cats [sign; digit; Star digit_us; sexagesimal; lit "."; Star digit_us];
        cats [sign; lit "."; words ["inf"; "Inf"; "INF"]];
        cats [lit "."; words ["nan"; "NaN"; "NAN"]]].

Definition int_regex : regex :=
  alts [cats [sign; lit "0b"; plus (chars "01_")];
        cats [sign; lit "0"; plus (chars "01234567_")];
        cats [sign; Alt (lit "0") (Cat (Class (between 49 57)) (Star digit_us))];
        cats [sign; lit "0x";
              plus (Class (fun c => between 48 57 c || between 97 102 c || between 65 70 c
                                    || Ascii.eqb c "_"))];
        cats [sign; Class (between 49 57); Star digit_us; sexagesimal]].

Definition merge_regex : regex := lit "<<".

Definition null_regex : regex := words ["~"; "null"; "Null"; "NULL"; ""].

Definition timestamp_regex : regex :=
  alts [cats [digit; digit; digit; digit; lit "-"; digit; digit; lit "-"; digit; digit];
        cats [digit; digit; digit; digit; lit "-"; digit; opt digit; lit "-"; digit; opt digit;
              Alt (chars "Tt") (plus blank); digit; opt digit;
              lit ":"; digit; digit; lit ":"; digit; digit;
              opt (Cat (lit ".") (Star digit));
              opt (Cat (Star blank)
                       (Alt (lit "Z")
                            (cats [chars "-+"; digit; opt digit;
                                   opt (cats [lit ":"; digit; digit])])))]].

Definition value_regex : regex := lit "=".

Definition yaml_regex : regex := words ["!"; "&"; "*"].

Inductive tag : Type :=
| BoolTag | FloatTag | IntTag | MergeTag | NullTag | TimestampTag | ValueTag | YamlTag | StrTag.

Definition tag_eqb (a b : tag) : bool :=
  match a, b with
  | BoolTag, BoolTag | FloatTag, FloatTag | IntTag, IntTag | MergeTag, MergeTag
  | NullTag, NullTag | TimestampTag, TimestampTag | ValueTag, ValueTag
  | YamlTag, YamlTag | StrTag, StrTag => true
  | _, _ => false
  end.

(** An implicit resolver: its tag, its expression, the first characters it
    is registered for, and whether it is registered for the empty text. *)
Record resolver : Type := mkResolver {
  r_tag : tag; r_regex : regex; r_first : string; r_for_empty : bool
}.

(** The resolvers, in the order [resolver.py] adds them. *)
Definition implicit_resolvers : list resolver :=
  [mkResolver BoolTag bool_regex "yYnNtTfFoO" false;
   mkResolver FloatTag float_regex "-+0123456789." false;
   mkResolver IntTag int_regex "-+0123456789" false;
   mkResolver MergeTag merge_regex "<" false;
   mkResolver NullTag null_regex "~nN" true;
   mkResolver TimestampTag timestamp_regex "0123456789" false;
   mkResolver ValueTag value_regex "=" false;
   mkResolver YamlTag yaml_regex "!&*" false].

Definition registered_for (value : string) (r : resolver) : bool :=
  match value with
  | EmptyString => r_for_empty r
  | String c _ => PyStr.has_char c (r_first r)
  end.

(** [resolve(ScalarNode, value, (True, False))]: the tag a plain scalar
    with this text is read back with. *)
Definition resolve (value : string) : tag :=
  match filter (fun r => registered_for value r && re_match (r_regex r) value)
               implicit_resolvers with
  | r :: _ => r_tag r
  | [] => StrTag
  end.

(** *** The analysis of a scalar *)

(** A line break of the emitter, among the characters below 256. *)
Definition is_break (c : ascii) : bool := Ascii.eqb c newline_char || Ascii.eqb c nel_char.

(** The white space that may precede or follow an indicator:
    NUL, space, tab, CR, LF, NEL. *)
Definition is_space (c : ascii) : bool :=
  existsb (Ascii.eqb c) [ascii_of_nat 0; " "%char; ascii_of_nat 9; ascii_of_nat 13;
                         newline_char; nel_char].

Definition followed_by_whitespace (rest : string) : bool :=
  match rest with
  | EmptyString => true
  | String c _ => is_space c
  end.

Definition printable (c : ascii) : bool := between 32 126 c.

(** Without [allow_unicode] every character other than a line feed and
    printable ASCII is special. *)
Definition special (c : ascii) : bool := negb (Ascii.eqb c newline_char || printable c).

(** Block indicators after the first character: [": "] and [" #"]. *)
Fixpoint inner_indicator (prev : ascii) (s : string) : bool :=
  match s with
  | EmptyString => false
  | String c rest =>
      (Ascii.eqb c ":" && followed_by_whitespace rest)
      || (Ascii.eqb c "#" && is_space prev)
      || inner_indicator c rest
  end.

Definition block_indicators (s : string) : bool :=
  PyStr.startswith "---" s || PyStr.startswith "..." s
  || match s with
     | EmptyString => false
     | String c rest =>
         one_of "#,[]{}&*!|>'%@`" c || Ascii.eqb c dquote
         || ((one_of "?:" c || Ascii.eqb c "-") && followed_by_whitespace rest)
         || inner_indicator c rest
     end.

(** [prev] directly before [next] somewhere in the text. *)
Fixpoint adjacent (prev next : ascii -> bool) (s : string) : bool :=
  match s with
  | String c ((String d _) as rest) => (prev c && next d) || adjacent prev next rest
  | _ => false
  end.

Definition is_blank (c : ascii) : bool := Ascii.eqb c " ".

Definition first_is (p : ascii -> bool) (s : string) : bool :=
  match PyStr.first_char s with Some c => p c | None => false end.

Definition last_is (p : ascii -> bool) (s : string) : bool :=
  match PyStr.last_char s with Some c => p c | None => false end.

Record analysis : Type := mkAnalysis {
  empty : bool;
  multiline : bool;
  allow_block_plain : bool;
  allow_single_quoted : bool
}.

(** [analyze_scalar], for what a block-style document asks of it. *)
Definition analyze_scalar (scalar : string) : analysis :=
  if PyStr.is_empty scalar then mkAnalysis true false true true
  else
    let line_breaks := some_char is_break scalar in
    let special_characters := some_char special scalar in
    let leading_space := first_is is_blank scalar in
    let leading_break := first_is is_break scalar in
    let trailing_space := last_is is_blank scalar in
    let trailing_break := last_is is_break scalar in
    let break_space := adjacent is_break is_blank scalar in
    let space_break := adjacent is_blank is_break scalar in
    mkAnalysis false line_breaks
      (negb (leading_space || leading_break || trailing_space || trailing_break)
       && negb break_space
       && negb (space_break || special_characters)
       && negb line_breaks
       && negb (block_indicators scalar))
      (negb break_space && negb (space_break || special_characters)).

Inductive style : Type := Plain | SingleQuoted | DoubleQuoted.

(** [choose_scalar_style] outside flow collections; [implicit] says that
    the plain text would be read back with the tag of the node. *)
Definition choose_scalar_style (a : analysis) (implicit simple_key : bool) : style :=
  if implicit && negb (simple_key && (empty a || multiline a)) && allow_block_plain a
  then Plain
  else if allow_single_quoted a && negb (simple_key && multiline a)
  then SingleQuoted
  else DoubleQuoted.

Definition hex_digit (n : nat) : ascii :=
  if (n <? 10)%nat then ascii_of_nat (48 + n) else ascii_of_nat (55 + n).

(** [ESCAPE_REPLACEMENTS], among the characters below 256. *)
Definition escape_replacement (c : ascii) : option ascii :=
  match nat_of_ascii c with
  | 0 => Some "0"%char
  | 7 => Some "a"%char
  | 8 => Some "b"%char
  | 9 => Some "t"%char
  | 10 => Some "n"%char
  | 11 => Some "v"%char
  | 12 => Some "f"%char
  | 13 => Some "r"%char
  | 27 => Some "e"%char
  | 34 => Some dquote
  | 92 => Some "\"%char
  | 133 => Some "N"%char
  | 160 => Some "_"%char
  | _ => None
  end.

(** What the double-quoted writer puts for a character it does not copy. *)
Definition escape (c : ascii) : string :=
  match escape_replacement c with
  | Some r => String "\" (String r EmptyString)
  | None =>
      String "\" (String "x"
        (String (hex_digit (nat_of_ascii c / 16))
           (String (hex_digit (nat_of_ascii c mod 16)) EmptyString)))
  end.

(** The characters the double-quoted writer does not copy. *)
Definition escaped (c : ascii) : bool :=
  Ascii.eqb c dquote || Ascii.eqb c "\" || Ascii.eqb c nel_char || negb (printable c).

End Yaml.

Module Emitter.

Definition best_indent : nat := 2.
Definition best_width : nat := 80.

(** What the emitter remembers of the text written so far. *)
Record state : Type := mkState {
  column : nat;
  whitespace : bool;
  indention : bool;
  open_ended : bool
}.

(** A step of the emitter: the text it writes and the state it leaves. *)
Definition writer : Type := state -> string * state.

Definition skip : writer := fun st => (EmptyString, st).

Definition andthen (m k : writer) : writer :=
  fun st =>
    let r := m st in
    let r' := k (snd r) in
    ((fst r ++ fst r')%string, snd r').

Definition run (steps : list writer) : writer := fold_right andthen skip steps.

(** [self.column += len(data); self.stream.write(data)] *)
Definition write (data : string) : writer :=
  fun st =>
    (data, mkState (column st + String.length data) (whitespace st) (indention st)
                   (open_ended st)).

Definition set_flags (ws ind : bool) : writer :=
  fun st => (EmptyString, mkState (column st) ws ind (open_ended st)).

Definition set_open_ended (b : bool) : writer :=
  fun st => (EmptyString, mkState (column st) (whitespace st) (indention st) b).

Definition write_indicator (indicator : string) (need_whitespace ws ind : bool) : writer :=
  fun st =>
    let data :=
      if whitespace st || negb need_whitespace then indicator
      else (" " ++ indicator)%string in
    (data, mkState (column st + String.length data) ws (indention st && ind) false).

Definition write_line_break (data : string) : writer :=
  fun st => (data, mkState 0 true true (open_ended st)).

Definition line_feed : string := String Yaml.newline_char EmptyString.

Fixpoint blanks (n : nat) : string :=
  match n with
  | O => EmptyString
  | S n' => String " " (blanks n')
  end.

(** [write_indent], with [indent] for [self.indent or 0]. *)
Definition write_indent (indent : nat) : writer :=
  fun st =>
    let r :=
      if negb (indention st) || (indent <? column st)%nat
         || ((column st =? indent)%nat && negb (whitespace st))
      then write_line_break line_feed st
      else skip st in
    let st1 := snd r in
    if (column st1 <? indent)%nat
    then ((fst r ++ blanks (indent - column st1))%string,
          mkState indent true (indention st1) (open_ended st1))
    else r.

(** [text[start:end]] *)
Definition slice (text : string) (start end_ : nat) : string :=
  String.substring start (end_ - start) text.

Definition is_char (c : ascii) (ch : option ascii) : bool :=
  match ch with Some d => Ascii.eqb c d | None => false end.

Definition is_break_char (ch : option ascii) : bool :=
  match ch with Some d => Yaml.is_break d | None => false end.

(** One turn of a writer's loop over [end]: the text written, the state,
    and the new value of [start]. *)
Definition turn : Type := state -> string * state * nat.

Definition keep (start : nat) : turn := fun st => (EmptyString, st, start).

Definition moving (w : writer) (start : nat) : turn :=
  fun st => let r := w st in (fst r, snd r, start).

(** The loop of [write_plain]; a plain scalar has no line break. *)
Fixpoint plain_loop (n : nat) (text : string) (split : bool) (indent : nat)
    (spaces : bool) (start end_ : nat) : writer :=
  match n with
  | O => skip
  | S n' =>
      fun st =>
        let ch := String.get end_ text in
        let t : turn :=
          if spaces then
            if negb (is_char " " ch) then
              if (start + 1 =? end_)%nat && (best_width <? column st)%nat && split
              then moving (run [write_indent indent; set_flags false false]) end_
              else moving (write (slice text start end_)) end_
            else keep start
          else
            match ch with
            | Some c =>
                if Ascii.eqb c " " || Yaml.is_break c
                then moving (write (slice text start end_)) end_
                else keep start
            | None => moving (write (slice text start end_)) end_
            end in
        let '(out, st1, start1) := t st in
        let r := plain_loop n' text split indent (is_char " " ch) start1 (S end_) st1 in
        ((out ++ fst r)%string, snd r)
  end.

Definition write_plain (text : string) (split root : bool) (indent : nat) : writer :=
  run [(if root then set_open_ended true else skip);
       (if PyStr.is_empty text then skip
        else run [(fun st => if whitespace st then skip st else write " " st);
                  set_flags false false;
                  plain_loop (S (String.length text)) text split indent false 0 0])].

Fixpoint break_each (brs : string) : writer :=
  match brs with
  | EmptyString => skip
  | String br rest =>
      andthen (if Ascii.eqb br Yaml.newline_char then write_line_break line_feed
               else write_line_break (String br EmptyString))
              (break_each rest)
  end.

Definition quote : string := "'".

(** The loop of [write_single_quoted]. *)
Fixpoint single_quoted_loop (n : nat) (text : string) (split : bool) (indent : nat)
    (spaces breaks : bool) (start end_ : nat) : writer :=
  match n with
  | O => skip
  | S n' =>
      fun st =>
        let ch := String.get end_ text in
        let t : turn :=
          if spaces then
            if negb (is_char " " ch) then
              if (start + 1 =? end_)%nat && (best_width <? column st)%nat && split
                 && negb (start =? 0)%nat && negb (end_ =? String.length text)%nat
              then moving (write_indent indent) end_
              else moving (write (slice text start end_)) end_
            else keep start
          else if breaks then
            if negb (is_break_char ch) then
              moving (run [(if is_char Yaml.newline_char (String.get start text)
                            then write_line_break line_feed else skip);
                           break_each (slice text start end_);
                           write_indent indent]) end_
            else keep start
          else
            if match ch with
               | Some c => Ascii.eqb c " " || Yaml.is_break c || Ascii.eqb c "'"
               | None => true
               end
            then if (start <? end_)%nat then moving (write (slice text start end_)) end_
                 else keep start
            else keep start in
        let '(out, st1, start1) := t st in
        let '(out2, st2, start2) :=
          if is_char "'" ch then moving (write (quote ++ quote)) (S end_) st1
          else keep start1 st1 in
        let r := single_quoted_loop n' text split indent
                   (is_char " " ch) (is_break_char ch) start2 (S end_) st2 in
        ((out ++ out2 ++ fst r)%string, snd r)
  end.

Definition write_single_quoted (text : string) (split : bool) (indent : nat) : writer :=
  run [write_indicator quote true false false;
       single_quoted_loop (S (String.length text)) text split indent false false 0 0;
       write_indicator quote false false false].

Definition backslash : string := "\".

(** The loop of [write_double_quoted]. *)
Fixpoint double_quoted_loop (n : nat) (text : string) (split : bool) (indent : nat)
    (start end_ : nat) : writer :=
  match n with
  | O => skip
  | S n' =>
      fun st =>
        let ch := String.get end_ text in
        let t : turn :=
          if match ch with Some c => Yaml.escaped c | None => true end then
            fun st =>
              let '(out, st1, start1) :=
                if (start <? end_)%nat then moving (write (slice text start end_)) end_ st
                else keep start st in
              match ch with
              | Some c =>
                  let r := write (Yaml.escape c) st1 in
                  ((out ++ fst r)%string, snd r, S end_)
              | None => (out, st1, start1)
              end
          else keep start in
        let '(out, st1, start1) := t st in
        let '(out2, st2, start2) :=
          if (0 <? end_)%nat && (S end_ <? String.length text)%nat
             && (is_char " " ch || (end_ <=? start1)%nat)
             && (best_width + start1 <? column st1 + end_)%nat && split
          then
            let start2 := if (start1 <? end_)%nat then end_ else start1 in
            moving (run [write (slice text start1 end_ ++ backslash);
                         write_indent indent;
                         set_flags false false;
                         (if is_char " " (String.get start2 text) then write backslash
                          else skip)])
                   start2 st1
          else keep start1 st1 in
        let r := double_quoted_loop n' text split indent start2 (S end_) st2 in
        ((out ++ out2 ++ fst r)%string, snd r)
  end.

Definition write_double_quoted (text : string) (split : bool) (indent : nat) : writer :=
  run [write_indicator (String Yaml.dquote EmptyString) true false false;
       double_quoted_loop (S (String.length text)) text split indent 0 0;
       write_indicator (String Yaml.dquote EmptyString) false false false].

(** [expect_scalar]: the scalar is written one level deeper than the
    collection it is in. *)
Definition expect_scalar (value : string) (node_tag : Yaml.tag)
    (indent : option nat) (root simple_key : bool) : writer :=
  let indent := match indent with None => best_indent | Some n => n + best_indent end in
  let implicit := Yaml.tag_eqb (Yaml.resolve value) node_tag in
  let split := negb simple_key in
  match Yaml.choose_scalar_style (Yaml.analyze_scalar value) implicit simple_key with
  | Yaml.Plain => write_plain value split root indent
  | Yaml.SingleQuoted => write_single_quoted value split indent
  | Yaml.DoubleQuoted => write_double_quoted value split indent
  end.

(** [check_simple_key] for a string key: the tag [!!str] counts in. *)
Definition check_simple_key (key : string) : bool :=
  let a := Yaml.analyze_scalar key in
  (String.length "!!str" + String.length key <? 128)%nat
  && negb (Yaml.empty a) && negb (Yaml.multiline a).

Section Sorting.

Context {A : Type}.

Fixpoint insert_by_key (e : string * A) (l : list (string * A)) : list (string * A) :=
  match l with
  | [] => [e]
  | x :: l' => if String.leb (fst e) (fst x) then e :: l else x :: insert_by_key e l'
  end.

Definition sort_by_key (l : list (string * A)) : list (string * A) :=
  fold_right insert_by_key [] l.

End Sorting.

(** An empty collection is written in flow style. *)
Definition expect_flow_empty (opening closing : string) : writer :=
  run [write_indicator opening true true false; write_indicator closing false false false].

(** One entry of a block mapping, its value given by its writer. *)
Definition expect_block_mapping_entry (indent : nat) (key : string) (value : writer) : writer :=
  if check_simple_key key then
    run [write_indent indent;
         expect_scalar key Yaml.StrTag (Some indent) false true;
         write_indicator ":" false false false;
         value]
  else
    run [write_indent indent;
         write_indicator "?" true false true;
         expect_scalar key Yaml.StrTag (Some indent) false false;
         write_indent indent;
         write_indicator ":" true false true;
         value].

(** [expect_node]: [indent] is [self.indent], [root] and [mapping] are
    [self.root_context] and [self.mapping_context]. *)
Fixpoint expect_node (sort_keys : bool) (v : yaml)
    (indent : option nat) (root mapping : bool) : writer :=
  match v with
  | YNull => expect_scalar "null" Yaml.NullTag indent root false
  | YBool b => expect_scalar (if b then "true" else "false") Yaml.BoolTag indent root false
  | YInt z => expect_scalar (Yaml.string_of_Z z) Yaml.IntTag indent root false
  | YStr s => expect_scalar s Yaml.StrTag indent root false
  | YSeq [] => expect_flow_empty "[" "]"
  | YSeq items =>
      fun st =>
        let indentless := mapping && negb (indention st) in
        let indent :=
          match indent with
          | None => 0
          | Some n => if indentless then n else n + best_indent
          end in
        fold_right
          (fun item rest =>
             run [write_indent indent;
                  write_indicator "-" true false true;
                  expect_node sort_keys item (Some indent) false false;
                  rest])
          skip items st
  | YMap [] => expect_flow_empty "{" "}"
  | YMap entries =>
      let indent := match indent with None => 0 | Some n => n + best_indent end in
      let values :=
        map (fun kv => (fst kv, expect_node sort_keys (snd kv) (Some indent) false true))
            entries in
      fold_right
        (fun kv rest => andthen (expect_block_mapping_entry indent (fst kv) (snd kv)) rest)
        skip (if sort_keys then sort_by_key values else values)
  end.

Definition start : state := mkState 0 true true false.

(** The document: its root node, the end of the document, and the
    document end marker when the root was a plain scalar. *)
Definition document (sort_keys : bool) (v : yaml) : writer :=
  run [expect_node sort_keys v None true false;
       write_indent 0;
       (fun st =>
          if open_ended st
          then run [write_indicator "..." true false false; write_indent 0] st
          else skip st)].

(** [yaml.safe_dump(v, sort_keys=...)] *)
Definition dump (sort_keys : bool) (v : yaml) : string := fst (document sort_keys v start).

End Emitter.

(** [yaml.safe_dump(v)] *)
Definition safe_dump (v : yaml) : string := Emitter.dump true v.

(** ** The environment of the server *)

(** What the server takes from its surroundings: the data directory (an
    absolute, resolved path), [Path.resolve] (which consults the file
    system for symbolic links), [Path.read_text], [yaml.safe_load] ([None]
    for a [YAMLError]) and the regular files [_iter_files] yields. *)
Record World : Type := mkWorld {
  DEFAULT_DATA_DIR : Posix.PurePosixPath;
  resolve : Posix.PurePosixPath -> Posix.PurePosixPath;
  read_text_file : Posix.PurePosixPath -> read_error + string;
  safe_load : string -> option yaml;
  _iter_files : list Posix.PurePosixPath
}.

(** Computations that read files: the log lists the files read so far, in
    order; an exception leaves the log as it was when it was raised. *)
Definition io (A : Type) : Type :=
  list Posix.PurePosixPath -> outcome A * list Posix.PurePosixPath.

Definition io_ret {A : Type} (a : A) : io A := fun log => (Ok a, log).

Definition io_bind {A B : Type} (m : io A) (k : A -> io B) : io B :=
  fun log =>
    match m log with
    | (Ok a, log') => k a log'
    | (Raise e, log') => (Raise e, log')
    end.

Definition io_lift {A : Type} (o : outcome A) : io A := fun log => (o, log).

(** [try: ... except Exception: continue] *)
Definition io_try {A : Type} (m : io A) : io (option A) :=
  fun log =>
    match m log with
    | (Ok a, log') => (Ok (Some a), log')
    | (Raise _, log') => (Ok None, log')
    end.

Declare Scope io_scope.
Delimit Scope io_scope with io.
Notation "x <- m ;; k" := (io_bind m (fun x => k))
  (at level 61, m at next level, right associativity) : io_scope.

Definition fp_read_text (w : World) (fp : Posix.PurePosixPath) : io string :=
  fun log =>
    (match read_text_file w fp with
     | inl e => Raise (ReadFailed e)
     | inr text => Ok text
     end, log ++ [fp]).

Definition yaml_safe_load (w : World) (text : string) : outcome yaml :=
  match safe_load w text with
  | Some data => Ok data
  | None => Raise ParseError
  end.

(** ** Generic tools *)

Definition _enforce_under (path base : Posix.PurePosixPath) : outcome unit :=
  match Posix.relative_to path base with
  | Some _ => Ok tt
  | None => Raise (AccessDenied path)
  end.

Definition read_text (w : World) (path : string) : io string :=
  (let fp := resolve w (Posix.joinpath (DEFAULT_DATA_DIR w) path) in
   _ <- io_lift (_enforce_under fp (DEFAULT_DATA_DIR w)) ;;
   fp_read_text w fp)%io.

(** ** Cilium tools *)

Definition CILIUM_KINDS : list string :=
  ["CiliumNetworkPolicy"; "CiliumClusterwideNetworkPolicy"].

(** [kind in CILIUM_KINDS]: a list or a mapping cannot be hashed. *)
Definition in_kinds (kind : yaml) : outcome bool :=
  match kind with
  | YStr s => Ok (existsb (String.eqb s) CILIUM_KINDS)
  | YSeq _ | YMap _ => Raise TypeError
  | _ => Ok false
  end.

Record report : Type := mkReport {
  r_path : string;
  r_errors : list string;
  r_warnings : list string;
  r_kind : yaml;
  r_metadata : list (string * yaml);
  r_summary : list (string * bool)
}.

(** The inner loop of [_has_l7_ports]. *)
Fixpoint any_populated (tps : list yaml) : outcome bool :=
  match tps with
  | [] => Ok false
  | tp :: rest =>
      (ports <- Py.get tp "ports" ;;
       if Py.truthy ports then Ok true
       else
         rules <- Py.get tp "rules" ;;
         if Py.truthy rules then Ok true else any_populated rest)%out
  end.

Fixpoint has_l7_rules (rules : list yaml) : outcome bool :=
  match rules with
  | [] => Ok false
  | rule :: rest =>
      (tpv <- Py.get_or rule "toPorts" (YSeq []) ;;
       tps <- Py.iter tpv ;;
       found <- any_populated tps ;;
       if found then Ok true else has_l7_rules rest)%out
  end.

Definition _has_l7_ports (rules : yaml) : outcome bool :=
  (l <- Py.iter (Py.or_ rules (YSeq [])) ;; has_l7_rules l)%out.

Definition direction_warning (present : bool) (rules : yaml) (msg : string)
  : outcome (list string) :=
  if present then
    (found <- _has_l7_ports rules ;; Ok (if found then [] else [msg]))%out
  else Ok [].

(** The body of [validate_cilium_policy] after the file has been loaded. *)
Definition validate_document (path : string) (data : yaml) : outcome report :=
  match data with
  | YMap _ =>
      (kind <- Py.get data "kind" ;;
       known <- in_kinds kind ;;
       if negb known then
         Ok (mkReport path ["Not a Cilium {CNP|CCNP} kind"] [] kind [] [])
       else
         m0 <- Py.get_or data "metadata" (YMap []) ;;
         let meta := Py.or_ m0 (YMap []) in
         named <- Py.str_in "name" meta ;;
         let errors := if named then [] else ["metadata.name is required"] in
         name <- Py.get meta "name" ;;
         namespace <- Py.get meta "namespace" ;;
         labels <- Py.get meta "labels" ;;
         let metadata := [("name", name); ("namespace", namespace); ("labels", labels)] in
         s0 <- Py.get data "spec" ;;
         let spec := Py.or_ s0 (YMap []) in
         if negb (Py.truthy spec) then
           Ok (mkReport path (errors ++ ["spec is required"]) [] kind metadata [])
         else
           ingress <- Py.get spec "ingress" ;;
           egress <- Py.get spec "egress" ;;
           let have_ingress := Py.truthy ingress in
           let have_egress := Py.truthy egress in
           let summary := [("has_ingress", have_ingress); ("has_egress", have_egress)] in
           let w0 :=
             if negb have_ingress && negb have_egress
             then ["No ingress/egress rules present (might not enforce anything)"]
             else [] in
           w1 <- direction_warning have_ingress ingress
                   "Ingress has no L4/L7 ports (coarse allow?)" ;;
           w2 <- direction_warning have_egress egress
                   "Egress has no L4/L7 ports (coarse allow?)" ;;
           let w3 :=
             if have_egress then
               let text := safe_dump egress in
               if negb (PyStr.contains "53" text) && negb (PyStr.contains "toFQDNs" text)
               then ["No explicit DNS egress (add kube-dns:53 or toFQDNs)"]
               else []
             else [] in
           Ok (mkReport path errors (w0 ++ w1 ++ w2 ++ w3) kind metadata summary))%out
  | _ => Ok (mkReport path ["YAML root must be a mapping"] [] YNull [] [])
  end.

Definition validate_cilium_policy (w : World) (path : string) : io report :=
  (let fp := resolve w (Posix.joinpath (DEFAULT_DATA_DIR w) path) in
   _ <- io_lift (_enforce_under fp (DEFAULT_DATA_DIR w)) ;;
   text <- fp_read_text w fp ;;
   data <- io_lift (yaml_safe_load w text) ;;
   io_lift (validate_document path data))%io.

(** [port_obj]: [p.split("/")] is unpacked into exactly two names. *)
Definition port_obj (p : string) : outcome yaml :=
  let mk port proto :=
    YMap [("ports", YSeq [YMap [("port", YStr port); ("protocol", YStr proto)]])] in
  if PyStr.has_char "/" p then
    match PyStr.split "/" p with
    | [port; proto] => Ok (mk port proto)
    | _ => Raise (ValueError "too many values to unpack (expected 2)")
    end
  else Ok (mk p "TCP").

Fixpoint port_objs (ps : list string) : outcome (list yaml) :=
  match ps with
  | [] => Ok []
  | p :: rest =>
      (o <- port_obj p ;; os <- port_objs rest ;; Ok (o :: os))%out
  end.

(** [xs or default] for an optional list *)
Definition list_or (xs : option (list string)) (default : list string) : list string :=
  match xs with
  | Some (x :: l) => x :: l
  | _ => default
  end.

Definition dns_egress_rule : yaml :=
  YMap [("toEndpoints",
         YSeq [YMap [("matchLabels",
                      YMap [("k8s:io.kubernetes.pod.namespace", YStr "kube-system");
                            ("k8s-app", YStr "kube-dns")])]]);
        ("toPorts",
         YSeq [YMap [("ports",
                      YSeq [YMap [("port", YStr "53"); ("protocol", YStr "UDP")]])]])].

(** The [doc] dictionary of [generate_policy_template]. *)
Definition policy_document (app namespace : string)
    (ingress_ports egress_fqdns : option (list string)) : outcome yaml :=
  let ingress_ports := list_or ingress_ports ["80/TCP"; "443/TCP"] in
  let egress_fqdns := list_or egress_fqdns ["*.amazonaws.com"] in
  (to_ports <- port_objs ingress_ports ;;
   Ok (YMap
     [("apiVersion", YStr "cilium.io/v2");
      ("kind", YStr "CiliumNetworkPolicy");
      ("metadata", YMap [("name", YStr (app ++ "-ztp")); ("namespace", YStr namespace)]);
      ("spec",
       YMap
         [("endpointSelector",
           YMap [("matchLabels",
                  YMap [("k8s:io.kubernetes.pod.namespace", YStr namespace);
                        ("app", YStr app)])]);
          ("ingress",
           YSeq [YMap [("fromEndpoints",
                        YSeq [YMap [("matchLabels", YMap [("app", YStr app)])]]);
                       ("toPorts", YSeq to_ports)]]);
          ("egress",
           YSeq [YMap [("toFQDNs",
                        YSeq (map (fun fqdn => YMap [("matchName", YStr fqdn)])
                                egress_fqdns))];
                 dns_egress_rule])])]))%out.

Definition generate_policy_template (app namespace : string)
    (ingress_ports egress_fqdns : option (list string)) : outcome string :=
  (doc <- policy_document app namespace ingress_ports egress_fqdns ;;
   Ok (Emitter.dump false doc))%out.

(** ** The posture checklist *)

Record stats : Type := mkStats {
  total : Z; cnp : Z; ccnp : Z; with_l7 : Z; dns_ok : Z
}.

Record detail : Type := mkDetail {
  d_path : string; d_kind : string; d_l7 : bool; d_dns_handled : bool
}.

(** [for tp in ...: if tp.get("ports") or tp.get("rules"): l7 = True] *)
Fixpoint scan_to_ports (tps : list yaml) (l7 : bool) : outcome bool :=
  match tps with
  | [] => Ok l7
  | tp :: rest =>
      (ports <- Py.get tp "ports" ;;
       if Py.truthy ports then scan_to_ports rest true
       else
         rules <- Py.get tp "rules" ;;
         scan_to_ports rest (if Py.truthy rules then true else l7))%out
  end.

(** The loop over the ingress and egress sections of one document. *)
Fixpoint scan_sections (sections : list yaml) (l7 dns : bool) : outcome (bool * bool) :=
  match sections with
  | [] => Ok (l7, dns)
  | section :: rest =>
      (tpv <- Py.get_or section "toPorts" (YSeq []) ;;
       tps <- Py.iter (Py.or_ tpv (YSeq [])) ;;
       l7' <- scan_to_ports tps l7 ;;
       fqdns <- Py.get section "toFQDNs" ;;
       let dns1 := if Py.truthy fqdns then true else dns in
       let txt := safe_dump section in
       let dns2 :=
         if PyStr.contains "port: '53'" txt || PyStr.contains "port: 53" txt
         then true else dns1 in
       scan_sections rest l7' dns2)%out
  end.

(** The two flags of one recognised document. *)
Definition inspect_document (doc : yaml) : outcome (bool * bool) :=
  (s0 <- Py.get doc "spec" ;;
   let spec := Py.or_ s0 (YMap []) in
   ingress <- Py.get spec "ingress" ;;
   egress <- Py.get spec "egress" ;;
   both <- Py.add (Py.or_ ingress (YSeq [])) (Py.or_ egress (YSeq [])) ;;
   sections <- Py.iter both ;;
   scan_sections sections false false)%out.

Definition bump (b : bool) (n : Z) : Z := if b then (n + 1)%Z else n.

Definition count (st : stats) (kind : string) (l7 dns : bool) : stats :=
  let is_cnp := String.eqb kind "CiliumNetworkPolicy" in
  mkStats (total st + 1)
          (bump is_cnp (cnp st))
          (bump (negb is_cnp) (ccnp st))
          (bump l7 (with_l7 st))
          (bump dns (dns_ok st)).

Definition relative_posix (w : World) (p : Posix.PurePosixPath) : outcome string :=
  match Posix.relative_to p (DEFAULT_DATA_DIR w) with
  | Some rest => Ok (Posix.as_posix (Posix.mkPath "" rest))
  | None => Raise (ValueError "not in the subpath")
  end.

(** [path_glob and not _matches(rel, path_glob)] negated: is the file kept? *)
Definition selected (rel path_glob : string) : outcome bool :=
  if PyStr.is_empty path_glob then Ok true else _matches rel path_glob.

Definition yaml_suffix (p : Posix.PurePosixPath) : bool :=
  existsb (String.eqb (PyStr.lower (Posix.suffix p))) [".yaml"; ".yml"].

(** One turn of the loop of [zero_trust_checklist]. *)
Definition scan_file (w : World) (path_glob : string)
    (acc : stats * list detail) (p : Posix.PurePosixPath) : io (stats * list detail) :=
  (rel <- io_lift (relative_posix w p) ;;
   keep <- io_lift (selected rel path_glob) ;;
   if negb keep then io_ret acc
   else if negb (yaml_suffix p) then io_ret acc
   else
     loaded <- io_try (text <- fp_read_text w p ;; io_lift (yaml_safe_load w text)) ;;
     match loaded with
     | None => io_ret acc
     | Some doc =>
         match doc with
         | YMap _ =>
             kind <- io_lift (Py.get doc "kind") ;;
             known <- io_lift (in_kinds kind) ;;
             match kind with
             | YStr k =>
                 if negb known then io_ret acc
                 else
                   flags <- io_lift (inspect_document doc) ;;
                   let '(l7, dns) := flags in
                   io_ret (count (fst acc) k l7 dns,
                           snd acc ++ [mkDetail rel k l7 dns])
             | _ => io_ret acc
             end
         | _ => io_ret acc
         end
     end)%io.

Fixpoint scan_files (w : World) (path_glob : string)
    (acc : stats * list detail) (ps : list Posix.PurePosixPath) : io (stats * list detail) :=
  match ps with
  | [] => io_ret acc
  | p :: rest => (acc' <- scan_file w path_glob acc p ;; scan_files w path_glob acc' rest)%io
  end.

Definition zero_trust_checklist (w : World) (path_glob : string) : io (stats * list detail) :=
  scan_files w path_glob (mkStats 0 0 0 0 0, []) (_iter_files w).

(** ** Matching, stated on the parts of the path *)

Module Matching.

Import Posix.

Definition part_matches (part pat : string) : Prop :=
  Fnmatch.fnmatchcase part pat = true.

(** [match] rejects a pattern that has no part at all. *)
Definition empty_pattern (pat : string) : Prop := parts (parse pat) = [].

(** A relative pattern is compared, part by part, with the last parts of
    the candidate; an anchored pattern with all its parts. *)
Definition parts_match (candidate pat : string) : Prop :=
  let pp := parse pat in
  let xp := parse candidate in
  (root pp = "" /\ tail pp <> [] /\
   exists before last_parts,
     parts xp = before ++ last_parts /\ Forall2 part_matches last_parts (tail pp))
  \/
  (root pp <> "" /\ root xp = root pp /\ Forall2 part_matches (tail xp) (tail pp)).

(** [**] occurs in the pattern only as its leading segment [**/]. *)
Definition deep_prefix_only (pat : string) : bool :=
  negb (PyStr.contains "**" (if PyStr.startswith "**/" pat then PyStr.drop 3 pat else pat)).

End Matching.

(** ** A file system without symbolic links *)

Module Lexical.

Import Posix.

(** Without symbolic links [Path.resolve] only removes the [..] parts,
    which cannot climb above the root. *)
Fixpoint collapse (seen_rev parts : list string) : list string :=
  match parts with
  | [] => rev seen_rev
  | p :: rest =>
      if String.eqb p ".." then collapse (List.tl seen_rev) rest
      else collapse (p :: seen_rev) rest
  end.

Definition resolve (p : PurePosixPath) : PurePosixPath :=
  mkPath "/" (collapse [] (tail p)).

End Lexical.

(** ** Patterns with one brace group *)

Module Braces.

Definition brace_free (s : string) : bool :=
  negb (PyStr.has_char "{" s) && negb (PyStr.has_char "}" s).

(** An alternative of a single-level group: no brace, no comma. *)
Definition alternative (s : string) : bool :=
  brace_free s && negb (PyStr.has_char "," s).

(** The pattern [pre{a,b,c}post]. *)
Definition group (pre : string) (alts : list string) (post : string) : string :=
  pre ++ "{" ++ PyStr.join "," alts ++ "}" ++ post.

(** The pattern with the group replaced by one alternative. *)
Definition substituted (pre alt post : string) : string := pre ++ alt ++ post.

(** No closing brace after the first opening brace (or no opening brace). *)
Definition unclosed (pattern : string) : bool :=
  let '(_, found, rest) := PyStr.partition "{" pattern in
  negb found || negb (PyStr.has_char "}" rest).

End Braces.

(** ** Containment in the data directory *)

Module Sandbox.

(** [p] is the directory [base] itself or lies under it: the parts of
    [base] (drive, root, components) are the first parts of [p]. *)
Definition under (base p : Posix.PurePosixPath) : Prop :=
  exists rest, Posix.abs_parts p = Posix.abs_parts base ++ rest.

End Sandbox.

(** ** A sample data directory *)

Module Sample.

Import Posix.

Definition data_dir : PurePosixPath := mkPath "/" ["data"].

Definition fqdn_text (host : string) : string :=
  "{kind: CiliumNetworkPolicy, spec: {egress: [{toFQDNs: [{matchName: "
  ++ host ++ "}]}]}}".

Definition fqdn_doc (host : string) : yaml :=
  YMap [("kind", YStr "CiliumNetworkPolicy");
        ("spec",
         YMap [("egress",
                YSeq [YMap [("toFQDNs", YSeq [YMap [("matchName", YStr host)]])]])])].

Definition ports_text : string :=
  "{kind: CiliumNetworkPolicy, spec: {ingress: [{toPorts: [{ports: [{port: '80', protocol: TCP}]}]}]}}".

Definition ports_doc : yaml :=
  YMap [("kind", YStr "CiliumNetworkPolicy");
        ("spec",
         YMap [("ingress",
                YSeq [YMap [("toPorts",
                             YSeq [YMap [("ports",
                                          YSeq [YMap [("port", YStr "80");
                                                      ("protocol", YStr "TCP")]])]])]])])].

Definition broken_text : string := "{kind: CiliumNetworkPolicy".

Definition documents : list (string * yaml) :=
  [(fqdn_text "api.example.com", fqdn_doc "api.example.com");
   (fqdn_text "db.example.com", fqdn_doc "db.example.com");
   (ports_text, ports_doc)].

Definition contents : list (list string * string) :=
  [(["data"; "fqdn-a.yaml"], fqdn_text "api.example.com");
   (["data"; "team"; "fqdn-b.yml"], fqdn_text "db.example.com");
   (["data"; "ports.yaml"], ports_text);
   (["data"; "broken.yaml"], broken_text);
   (["data"; "notes.txt"], "port: 53")].

Fixpoint file_text (p : list string) (l : list (list string * string)) : option string :=
  match l with
  | [] => None
  | (q, text) :: l' => if list_eqb p q then Some text else file_text p l'
  end.

Fixpoint parsed (text : string) (l : list (string * yaml)) : option yaml :=
  match l with
  | [] => None
  | (t, doc) :: l' => if String.eqb text t then Some doc else parsed text l'
  end.

(** Five files under [/data], no symbolic link; one of them does not parse. *)
Definition world : World :=
  mkWorld data_dir
          Lexical.resolve
          (fun p => match file_text (tail p) contents with
                    | Some text => inr text
                    | None => inl NotFound
                    end)
          (fun text => parsed text documents)
          (map (fun f => mkPath "/" (fst f)) contents).

End Sample.

(** ** Classes of exceptions *)

(** The exceptions of duck typing: an operation applied to a value of the
    wrong type. *)
Definition dynamic_error (e : exn) : Prop := e = TypeError \/ e = AttributeError.

Definition raises_only {A : Type} (P : exn -> Prop) (o : outcome A) : Prop :=
  forall e, o = Raise e -> P e.

(** ** Reading a document by keys *)

Module Doc.

(** [doc[k1][k2]...] on nested mappings *)
Fixpoint at_path (keys : list string) (doc : yaml) : option yaml :=
  match keys with
  | [] => Some doc
  | k :: keys' =>
      match doc with
      | YMap m =>
          match Py.lookup k m with
          | Some v => at_path keys' v
          | None => None
          end
      | _ => None
      end
  end.

(** [{ports: [{port: p, protocol: proto}]}] *)
Definition port_entry (p proto : string) : yaml :=
  YMap [("ports", YSeq [YMap [("port", YStr p); ("protocol", YStr proto)]])].

(** A port as the caller of the template generator writes it: the port
    alone, or the port and the protocol with ['/'] between them. *)
Definition port_string (p : string * option string) : string :=
  match snd p with
  | Some proto => fst p ++ "/" ++ proto
  | None => fst p
  end.

(** The [toPorts] entry expected for it. *)
Definition port_of (p : string * option string) : yaml :=
  port_entry (fst p) (match snd p with Some proto => proto | None => "TCP" end).

Definition slash_free (p : string * option string) : bool :=
  negb (PyStr.has_char "/" (fst p))
  && match snd p with
     | Some proto => negb (PyStr.has_char "/" proto)
     | None => true
     end.

(** [{kind: CiliumNetworkPolicy, metadata: {name: x},
      spec: {ingress: [{}], egress: [{}]}}] *)
Definition with_empty_rules (x : yaml) : yaml :=
  YMap [("kind", YStr "CiliumNetworkPolicy");
        ("metadata", YMap [("name", x)]);
        ("spec", YMap [("ingress", YSeq [YMap []]); ("egress", YSeq [YMap []])])].

(** [{kind: CiliumNetworkPolicy, metadata: {}, spec: {}}] *)
Definition without_name_and_spec : yaml :=
  YMap [("kind", YStr "CiliumNetworkPolicy"); ("metadata", YMap []); ("spec", YMap [])].

(** [{kind: CiliumNetworkPolicy, metadata: {}, spec: {ingress: [{}]}}] *)
Definition without_name : yaml :=
  YMap [("kind", YStr "CiliumNetworkPolicy"); ("metadata", YMap []);
        ("spec", YMap [("ingress", YSeq [YMap []])])].

End Doc.

(** ** The signals the checklist counts *)

Module Signals.

Definition is_map (v : yaml) : bool :=
  match v with YMap _ => true | _ => false end.

Definition list_or_falsy (v : yaml) : bool :=
  match v with YSeq _ => true | _ => negb (Py.truthy v) end.

Definition map_or_falsy (v : yaml) : bool :=
  match v with YMap _ => true | _ => negb (Py.truthy v) end.

Definition field (k : string) (v : yaml) : yaml :=
  match Doc.at_path [k] v with Some x => x | None => YNull end.

(** The rules of one direction, when the document has a list there. *)
Definition rules (doc : yaml) (direction : string) : list yaml :=
  match field direction (field "spec" doc) with YSeq l => l | _ => [] end.

Definition sections (doc : yaml) : list yaml := rules doc "ingress" ++ rules doc "egress".

Definition to_ports (section : yaml) : list yaml :=
  match field "toPorts" section with YSeq l => l | _ => [] end.

(** A [toPorts] entry whose [ports] or [rules] is populated. *)
Definition populated (tp : yaml) : bool :=
  Py.truthy (field "ports" tp) || Py.truthy (field "rules" tp).


Definition declares_fqdns (section : yaml) : bool := Py.truthy (field "toFQDNs" section).

(** The rendered section contains a literal DNS port. *)
Definition dns_token (section : yaml) : bool :=
  PyStr.contains "port: '53'" (safe_dump section)
  || PyStr.contains "port: 53" (safe_dump section).

Definition l7_signal (doc : yaml) : bool :=
  existsb (fun s => existsb populated (to_ports s)) (sections doc).

Definition dns_signal (doc : yaml) : bool :=
  existsb (fun s => declares_fqdns s || dns_token s) (sections doc).



(** The shape on which the checklist runs without a type error: the
    spec is a mapping, each direction a list of mappings, each [toPorts]
    a list of mappings; any of them may be absent or empty. *)
Definition section_ok (section : yaml) : bool :=
  is_map section
  && list_or_falsy (field "toPorts" section)
  && forallb is_map (to_ports section).

Definition well_shaped (doc : yaml) : bool :=
  is_map doc
  && map_or_falsy (field "spec" doc)
  && list_or_falsy (field "ingress" (field "spec" doc))
  && list_or_falsy (field "egress" (field "spec" doc))
  && forallb section_ok (sections doc).

End Signals.

(** ** Corpora *)

Definition with_files (w : World) (files : list Posix.PurePosixPath) : World :=
  mkWorld (DEFAULT_DATA_DIR w) (resolve w) (read_text_file w) (safe_load w) files.


(** [kept] lists some elements of [all], in the order of [all]. *)
Inductive subsequence {A : Type} : list A -> list A -> Prop :=
| sub_nil : subsequence [] []
| sub_skip (x : A) (kept all : list A) : subsequence kept all -> subsequence kept (x :: all)
| sub_keep (x : A) (kept all : list A) : subsequence kept all -> subsequence (x :: kept) (x :: all).



(** What the loop of the checklist maintains. *)
Definition consistent (acc : stats * list detail) : Prop :=
  let st := fst acc in
  (total st = cnp st + ccnp st
   /\ Z.of_nat (List.length (snd acc)) = total st
   /\ 0 <= cnp st /\ 0 <= ccnp st
   /\ 0 <= with_l7 st <= total st
   /\ 0 <= dns_ok st <= total st)%Z.

(** The rows name files of the corpus, in the order of the corpus. *)
Definition rows_follow (w : World) (rows : list detail) (files : list Posix.PurePosixPath)
  : Prop :=
  exists kept,
    subsequence kept files
    /\ Forall2 (fun d p => relative_posix w p = Ok (d_path d)) rows kept.

(** * The other tools of the server *)

(** ** More of Python's [str] *)

(** Characters are the code points below 256. *)
Module PyText.

(** [s.endswith(suffix)] *)
Fixpoint endswith (suffix s : string) : bool :=
  String.eqb s suffix ||
  match s with
  | EmptyString => false
  | String _ s' => endswith suffix s'
  end.

(** [str.lower()]: the ASCII capitals and the Latin-1 capitals (192..222
    without the multiplication sign) have a lower-case form, 32 further. *)
Definition lower_char (c : ascii) : ascii :=
  let n := nat_of_ascii c in
  if (((65 <=? n) && (n <=? 90))
      || ((192 <=? n) && (n <=? 222) && negb (n =? 215)))%nat
  then ascii_of_nat (n + 32) else c.

Fixpoint lower (s : string) : string :=
  match s with
  | EmptyString => EmptyString
  | String c s' => String (lower_char c) (lower s')
  end.

(** The line boundaries of [str.splitlines()]: LF, VT, FF, CR, FS, GS, RS
    and NEL. *)
Definition line_boundary (c : ascii) : bool :=
  let n := nat_of_ascii c in
  (((10 <=? n) && (n <=? 13)) || ((28 <=? n) && (n <=? 30)) || (n =? 133))%nat.

(** [s.splitlines()]: CR LF is one boundary; a boundary at the very end
    does not open a last, empty line. *)
Fixpoint splitlines (s : string) : list string :=
  match s with
  | EmptyString => []
  | String c s' =>
      if line_boundary c then
        EmptyString ::
        match s' with
        | String d s'' =>
            if Ascii.eqb c (ascii_of_nat 13) && Ascii.eqb d (ascii_of_nat 10)
            then splitlines s'' else splitlines s'
        | EmptyString => []
        end
      else
        match splitlines s' with
        | [] => [String c EmptyString]
        | l :: ls => String c l :: ls
        end
  end.

End PyText.

(** ** Resources *)

(** [{...}.get(k)] on a dictionary from strings to strings *)
Fixpoint dict_get (k : string) (d : list (string * string)) : option string :=
  match d with
  | [] => None
  | (k', v) :: d' => if String.eqb k k' then Some v else dict_get k d'
  end.

Definition _guess_mime (ext : string) : option string :=
  let ext := PyText.lower ext in
  dict_get ext
    [(".txt", "text/plain");
     (".md", "text/markdown");
     (".json", "application/json");
     (".csv", "text/csv");
     (".yaml", "application/yaml");
     (".yml", "application/yaml")].

Record TextContent : Type := mkTextContent { tc_type : string; tc_text : string }.

(** [read_resource]: the file named after the scheme is read as it is
    named, without [resolve] and without [_enforce_under]. *)
Definition read_resource (w : World) (uri : string) : io (list TextContent) :=
  if negb (PyStr.startswith "file://" uri)
  then io_lift (Raise (ValueError "Only file:// URIs are supported"))
  else
    (let file_path := Posix.parse (PyStr.drop (String.length "file://") uri) in
     data <- fp_read_text w file_path ;;
     io_ret [mkTextContent "text" data])%io.

(** ** Listing and searching *)

(** [[p.relative_to(DEFAULT_DATA_DIR).as_posix() for p in ...]] *)
Fixpoint relative_paths (w : World) (ps : list Posix.PurePosixPath) : outcome (list string) :=
  match ps with
  | [] => Ok []
  | p :: rest =>
      (rel <- relative_posix w p ;;
       rels <- relative_paths w rest ;;
       Ok (rel :: rels))%out
  end.

(** [[f for f in files if _matches(f, pattern)]] *)
Fixpoint keep_matching (pattern : string) (files : list string) : outcome (list string) :=
  match files with
  | [] => Ok []
  | f :: rest =>
      (m <- _matches f pattern ;;
       kept <- keep_matching pattern rest ;;
       Ok (if m then f :: kept else kept))%out
  end.

(** [list_files(pattern)]: [None] and the empty pattern do not filter. *)
Definition list_files (w : World) (pattern : option string) : outcome (list string) :=
  (files <- relative_paths w (_iter_files w) ;;
   match pattern with
   | Some pat => if PyStr.is_empty pat then Ok files else keep_matching pat files
   | None => Ok files
   end)%out.

Record hit : Type := mkHit { h_path : string; h_line_no : nat; h_line : string }.

(** [for i, line in enumerate(lines, start=i): if q in line.lower(): ...] *)
Fixpoint matching_lines (q rel : string) (i : nat) (lines : list string) : list hit :=
  match lines with
  | [] => []
  | line :: rest =>
      (if PyStr.contains q (PyText.lower line) then [mkHit rel i line] else [])
      ++ matching_lines q rel (S i) rest
  end.

(** One turn of the loop of [search_text]; [q] is the lowered query. *)
Definition search_file (w : World) (q path_glob : string)
    (results : list hit) (p : Posix.PurePosixPath) : io (list hit) :=
  (rel <- io_lift (relative_posix w p) ;;
   keep <- io_lift (selected rel path_glob) ;;
   if negb keep then io_ret results
   else
     read <- io_try (text <- fp_read_text w p ;; io_ret (PyText.splitlines text)) ;;
     match read with
     | None => io_ret results
     | Some lines => io_ret (results ++ matching_lines q rel 1 lines)
     end)%io.

Fixpoint search_files (w : World) (q path_glob : string)
    (results : list hit) (ps : list Posix.PurePosixPath) : io (list hit) :=
  match ps with
  | [] => io_ret results
  | p :: rest =>
      (results' <- search_file w q path_glob results p ;;
       search_files w q path_glob results' rest)%io
  end.

Definition search_text (w : World) (query path_glob : string) : io (list hit) :=
  search_files w (PyText.lower query) path_glob [] (_iter_files w).

(** What one file contributes to the search. *)
Definition found_in (w : World) (q path_glob : string) (p : Posix.PurePosixPath) (h : hit)
  : Prop :=
  exists text,
    relative_posix w p = Ok (h_path h)
    /\ selected (h_path h) path_glob = Ok true
    /\ read_text_file w p = inr text
    /\ 1 <= h_line_no h
    /\ nth_error (PyText.splitlines text) (h_line_no h - 1) = Some (h_line h)
    /\ PyStr.contains q (PyText.lower (h_line h)) = true.

(** ** Listing the policies *)

(** One turn of the loop of [list_cilium_policies]. *)
Definition list_policy_file (w : World) (path_glob : string)
    (hits : list string) (p : Posix.PurePosixPath) : io (list string) :=
  (rel <- io_lift (relative_posix w p) ;;
   keep <- io_lift (selected rel path_glob) ;;
   if negb keep then io_ret hits
   else if negb (yaml_suffix p) then io_ret hits
   else
     loaded <- io_try (text <- fp_read_text w p ;; io_lift (yaml_safe_load w text)) ;;
     match loaded with
     | None => io_ret hits
     | Some doc =>
         match doc with
         | YMap _ =>
             kind <- io_lift (Py.get doc "kind") ;;
             known <- io_lift (in_kinds kind) ;;
             io_ret (if known then hits ++ [rel] else hits)
         | _ => io_ret hits
         end
     end)%io.

Fixpoint list_policy_files (w : World) (path_glob : string)
    (hits : list string) (ps : list Posix.PurePosixPath) : io (list string) :=
  match ps with
  | [] => io_ret hits
  | p :: rest =>
      (hits' <- list_policy_file w path_glob hits p ;;
       list_policy_files w path_glob hits' rest)%io
  end.

Definition list_cilium_policies (w : World) (path_glob : string) : io (list string) :=
  list_policy_files w path_glob [] (_iter_files w).

(** ** Hubble *)

Record hubble : Type := mkHubble {
  hf_cli : string;
  hf_from : option string;
  hf_to : option string;
  hf_verdict : option string
}.

(** [if value: args += [name, value]] *)
Definition flag (name value : string) : list string :=
  if PyStr.is_empty value then [] else [name; value].

(** [value or None] *)
Definition or_none (value : string) : option string :=
  if PyStr.is_empty value then None else Some value.

Definition hubble_args (src dst verdict : string) : list string :=
  flag "--from" src ++ flag "--to" dst ++ flag "--verdict" verdict.

Definition hubble_filters (src dst verdict : string) : hubble :=
  mkHubble ("hubble observe " ++ PyStr.join " " (hubble_args src dst verdict))
           (or_none src) (or_none dst) (or_none verdict).

(** ** Paths as the parser leaves them *)

Module Normal.

(** A component the parser keeps: not empty, not ["."], no separator. *)
Definition component (c : string) : bool :=
  Posix.keep_component c && negb (PyStr.has_char "/" c).

Definition known_root (r : string) : bool :=
  existsb (String.eqb r) [""; "/"; "//"].

Definition path (p : Posix.PurePosixPath) : bool :=
  known_root (Posix.root p) && forallb component (Posix.tail p).

End Normal.

(** The file system of [w], served from the directory [dir]. *)
Definition served_from (w : World) (dir : Posix.PurePosixPath) : World :=
  mkWorld dir (resolve w) (read_text_file w) (safe_load w)
          (filter (fun p => match Posix.relative_to p dir with
                            | Some _ => true
                            | None => false
                            end)
                  (_iter_files w)).

(** ** Documents the validator reads without a type error *)

Module Shape.

Definition scalar (v : yaml) : bool :=
  match v with YSeq _ | YMap _ => false | _ => true end.

(** [rule.get("toPorts", [])] is a list of mappings: the key is absent or
    holds such a list. *)
Definition ports_listed (rule : yaml) : bool :=
  match Doc.at_path ["toPorts"] rule with
  | None => true
  | Some (YSeq l) => forallb Signals.is_map l
  | Some _ => false
  end.

Definition rule_ok (rule : yaml) : bool := Signals.is_map rule && ports_listed rule.

Definition validator_shaped (doc : yaml) : bool :=
  Signals.is_map doc
  && scalar (Signals.field "kind" doc)
  && Signals.map_or_falsy (Signals.field "metadata" doc)
  && Signals.map_or_falsy (Signals.field "spec" doc)
  && Signals.list_or_falsy (Signals.field "ingress" (Signals.field "spec" doc))
  && Signals.list_or_falsy (Signals.field "egress" (Signals.field "spec" doc))
  && forallb rule_ok (Signals.sections doc).

(** Some [toPorts] entry of some rule has [ports] or [rules] populated. *)
Definition has_ports (rules : list yaml) : bool :=
  existsb (fun rule => existsb Signals.populated (Signals.to_ports rule)) rules.

Definition nonempty {A : Type} (l : list A) : bool :=
  match l with [] => false | _ => true end.

Definition when (b : bool) (msg : string) : list string := if b then [msg] else [].

(** The warnings a document with these ingress and egress rules calls for. *)
Definition warnings_for (ingress egress : list yaml) : list string :=
  when (negb (nonempty ingress) && negb (nonempty egress))
       "No ingress/egress rules present (might not enforce anything)"
  ++ when (nonempty ingress && negb (has_ports ingress))
          "Ingress has no L4/L7 ports (coarse allow?)"
  ++ when (nonempty egress && negb (has_ports egress))
          "Egress has no L4/L7 ports (coarse allow?)"
  ++ when (nonempty egress
           && negb (PyStr.contains "53" (safe_dump (YSeq egress)))
           && negb (PyStr.contains "toFQDNs" (safe_dump (YSeq egress))))
          "No explicit DNS egress (add kube-dns:53 or toFQDNs)".

End Shape.

(** The last part of a candidate path, empty when it has no part. *)
Definition final_part (candidate : string) : string :=
  last (Posix.parts (Posix.parse candidate)) "".

(** [accepted pattern f]: [_matches(f, pattern)] returned true. *)
Definition accepted (pattern f : string) : bool :=
  match _matches f pattern with
  | Ok true => true
  | _ => false
  end.

(** * Properties *)

(** ** Strings and lists *)

Lemma is_empty_true (s : string) : PyStr.is_empty s = true <-> s = "".
Proof. destruct s; simpl; split; congruence. Qed.

Lemma is_empty_false (s : string) : PyStr.is_empty s = false <-> s <> "".
Proof. destruct s; simpl; split; congruence. Qed.

Lemma outcome_ok_inj {A : Type} (a b : A) : Ok a = Ok b -> a = b.
Proof. congruence. Qed.

(** ** [PurePosixPath.match] on parts *)

Section ZipAll.

Import PathMatch.

Lemma zip_all_prefix (a c ps : list string) :
  Forall2 Matching.part_matches a ps -> zip_all (a ++ c) ps = true.
Proof.
  intros H. induction H as [|x p a ps Hxp _ IH]; simpl.
  - destruct c; reflexivity.
  - rewrite Hxp. exact IH.
Qed.

Lemma zip_all_split (xs ps : list string) :
  zip_all xs ps = true -> List.length ps <= List.length xs ->
  exists a c, xs = a ++ c /\ Forall2 Matching.part_matches a ps.
Proof.
  revert ps. induction xs as [|x xs IH]; intros [|p ps] Hz Hlen; simpl in *.
  - exists [], []. split; [reflexivity | constructor].
  - lia.
  - exists [], (x :: xs). split; [reflexivity | constructor].
  - apply andb_true_iff in Hz. destruct Hz as [Hxp Hz].
    destruct (IH ps Hz ltac:(lia)) as (a & c & -> & Hf).
    exists (x :: a), c. split; [reflexivity | constructor; assumption].
Qed.

End ZipAll.

Lemma Forall2_rev_parts (R : string -> string -> Prop) (a b : list string) :
  Forall2 R a b -> Forall2 R (rev a) (rev b).
Proof.
  induction 1 as [|x y a b Hxy _ IH]; simpl.
  - constructor.
  - apply Forall2_app; [exact IH | constructor; [exact Hxy | constructor]].
Qed.

Lemma Forall2_same_length (R : string -> string -> Prop) (a b : list string) :
  Forall2 R a b -> List.length a = List.length b.
Proof. induction 1; simpl; congruence. Qed.

Lemma app_same_length_head (a b c d : list string) :
  a ++ c = b ++ d -> List.length a = List.length b -> a = b.
Proof.
  revert b. induction a as [|x a IH]; intros [|y b] H Hlen; simpl in *;
    try discriminate; try reflexivity.
  injection H as -> H. f_equal. apply IH; [exact H | lia].
Qed.

Lemma rev_zip_relative (xs ps : list string) :
  (List.length ps <= List.length xs /\ PathMatch.zip_all (rev xs) (rev ps) = true)
  <-> exists before last_parts,
        xs = before ++ last_parts /\ Forall2 Matching.part_matches last_parts ps.
Proof.
  split.
  - intros [Hlen Hz].
    destruct (zip_all_split (rev xs) (rev ps) Hz) as (a & c & Hrev & Hf).
    { rewrite !length_rev. exact Hlen. }
    exists (rev c), (rev a). split.
    + rewrite <- rev_app_distr, <- Hrev, rev_involutive. reflexivity.
    + apply Forall2_rev_parts in Hf. rewrite rev_involutive in Hf. exact Hf.
  - intros (before & last_parts & -> & Hf). split.
    + rewrite length_app, (Forall2_same_length _ _ _ Hf). lia.
    + rewrite rev_app_distr. apply zip_all_prefix, Forall2_rev_parts, Hf.
Qed.

Lemma rev_zip_anchored (rx : string) (tx tp : list string) :
  List.length tp = List.length tx ->
  (PathMatch.zip_all (rev (rx :: tx)) (rev tp) = true
   <-> Forall2 Matching.part_matches tx tp).
Proof.
  intros Hlen. split.
  - intros Hz. simpl in Hz.
    destruct (zip_all_split _ _ Hz) as (a & c & Hrev & Hf).
    { rewrite length_app, !length_rev. simpl. lia. }
    assert (Ha : rev tx = a).
    { apply (app_same_length_head _ _ _ _ Hrev).
      rewrite (Forall2_same_length _ _ _ Hf), !length_rev. lia. }
    subst a. apply Forall2_rev_parts in Hf. rewrite !rev_involutive in Hf. exact Hf.
  - intros Hf. simpl. apply zip_all_prefix, Forall2_rev_parts, Hf.
Qed.

Lemma match_raises_iff (x pat : string) :
  (exists e, PathMatch.match_ x pat = Raise e) <-> Matching.empty_pattern pat.
Proof.
  unfold PathMatch.match_, Matching.empty_pattern.
  destruct (Posix.parts (Posix.parse pat)) as [|p0 pt] eqn:Hp.
  - split; [reflexivity | intros _; eexists; reflexivity].
  - split; [| discriminate].
    intros [e He].
    repeat match type of He with
           | (if ?b then _ else _) = _ => destruct b
           end; discriminate.
Qed.

Lemma match_true_iff (x pat : string) :
  PathMatch.match_ x pat = Ok true <-> Matching.parts_match x pat.
Proof.
  unfold PathMatch.match_, Matching.parts_match, Posix.parts.
  set (pp := Posix.parse pat). set (xp := Posix.parse x).
  destruct (PyStr.is_empty (Posix.root pp)) eqn:Hroot.
  - (* relative pattern *)
    apply is_empty_true in Hroot.
    destruct (Posix.tail pp) as [|p0 pt] eqn:Htail.
    + split; [discriminate |].
      intros [(_ & Hne & _) | (Hr & _)]; [now elim Hne | now elim Hr].
    + simpl negb. cbv iota. simpl andb.
      fold (Posix.parts xp).
      destruct (Nat.ltb_spec (List.length (Posix.parts xp)) (List.length (p0 :: pt)))
        as [Hlt | Hge].
      * split; [discriminate |].
        intros [(_ & _ & before & lp & Hx & Hf) | (Hr & _)]; [| now elim Hr].
        apply Forall2_same_length in Hf. rewrite Hx, length_app in Hlt. lia.
      * split.
        -- intros H. apply outcome_ok_inj in H. left.
           split; [exact Hroot |]. split; [discriminate |].
           apply rev_zip_relative. split; assumption.
        -- intros [(_ & _ & Hex) | (Hr & _)]; [| now elim Hr].
           apply rev_zip_relative in Hex. destruct Hex as [_ Hz]. now rewrite Hz.
  - (* anchored pattern *)
    apply is_empty_false in Hroot. simpl negb. rewrite andb_true_l.
    destruct (String.eqb_spec (Posix.root pp) (Posix.root xp)) as [Heq | Hneq]; simpl.
    + assert (Hx : PyStr.is_empty (Posix.root xp) = false).
      { apply is_empty_false. now rewrite <- Heq. }
      rewrite Hx.
      simpl.
      destruct (Nat.eqb_spec (List.length (Posix.tail pp))
                             (List.length (Posix.tail xp))) as [Hl | Hl]; simpl.
      * split.
        -- intros H. apply outcome_ok_inj in H. right.
           split; [exact Hroot |]. split; [now symmetry |].
           apply (rev_zip_anchored (Posix.root xp)); [lia | exact H].
        -- intros [(Hr & _) | (_ & _ & Hf)]; [now elim Hroot |].
           f_equal. apply (rev_zip_anchored (Posix.root xp)); [lia | exact Hf].
      * split; [discriminate |].
        intros [(Hr & _) | (_ & _ & Hf)]; [now elim Hroot |].
        apply Forall2_same_length in Hf. lia.
    + split; [discriminate |].
      intros [(Hr & _) | (_ & Hr & _)]; [now elim Hroot | now elim Hneq].
Qed.

(** ** The glob matcher *)

Lemma star_matches_any (s : string) :
  Fnmatch.match_items [Fnmatch.Star] s = true.
Proof.
  induction s as [|c s IH]; simpl; [reflexivity | exact IH].
Qed.

Lemma fnmatch_star (s : string) : Fnmatch.fnmatchcase s "*" = true.
Proof. apply star_matches_any. Qed.

Lemma fnmatch_double_star (s : string) : Fnmatch.fnmatchcase s "**" = true.
Proof. apply star_matches_any. Qed.

Lemma first_match_true_iff (x : string) (pats : list string) :
  first_match x pats = Ok true
  <-> exists l1 pat l2,
        pats = l1 ++ pat :: l2
        /\ Forall (fun q => ~ Matching.empty_pattern q) l1
        /\ Matching.parts_match x pat.
Proof.
  induction pats as [|p pats IH]; simpl.
  - split; [discriminate |]. intros (l1 & pat & l2 & H & _). now destruct l1.
  - destruct (PathMatch.match_ x p) as [[|]|e] eqn:Hm.
    + split; [| reflexivity]. intros _.
      exists [], p, pats. repeat split; [constructor | now apply match_true_iff].
    + rewrite IH. split.
      * intros (l1 & pat & l2 & -> & Hne & Hpm).
        exists (p :: l1), pat, l2. repeat split; [| exact Hpm].
        constructor; [| exact Hne].
        intros Hemp. apply match_raises_iff with (x := x) in Hemp.
        destruct Hemp as [e He]. congruence.
      * intros (l1 & pat & l2 & Heq & Hne & Hpm).
        destruct l1 as [|q l1]; simpl in Heq; injection Heq as -> ->.
        -- apply match_true_iff in Hpm. congruence.
        -- exists l1, pat, l2. inversion Hne; subst. repeat split; assumption.
    + split; [discriminate |].
      intros (l1 & pat & l2 & Heq & Hne & Hpm).
      destruct l1 as [|q l1]; simpl in Heq; injection Heq as -> ->.
      * apply match_true_iff in Hpm. congruence.
      * inversion Hne as [|? ? Hq _]; subst. exfalso. apply Hq.
        apply match_raises_iff with (x := x). now exists e.
Qed.

(** C2, as the specification words it, fails in both directions.  With the
    glob semantics of the specification (the candidate matched as a whole,
    [*] stopping at ['/'], [**] crossing it) the candidate ["a/b.txt"] does
    not match ["*.txt"], yet [_matches] accepts it; and ["a/x/y/b"] matches
    ["a/**/b"], yet [_matches] rejects it. *)
Lemma C2_spec_glob_differs :
  ~ (_matches "a/b.txt" "*.txt" = Ok true
     <-> SpecGlob.matches "a/b.txt" "*.txt" = true)
  /\ ~ (_matches "a/x/y/b" "a/**/b" = Ok true
        <-> SpecGlob.matches "a/x/y/b" "a/**/b" = true).
Proof.
  split.
  - intros [H _]. specialize (H eq_refl). vm_compute in H. discriminate.
  - intros [_ H]. specialize (H eq_refl). vm_compute in H. discriminate.
Qed.

(** Without an empty pattern in the list the loop of [_matches] returns. *)
Lemma first_match_returns (x : string) (pats : list string) :
  Forall (fun q => ~ Matching.empty_pattern q) pats ->
  exists b, first_match x pats = Ok b.
Proof.
  induction pats as [|p pats IH]; intros H; simpl; [now exists false |].
  inversion H as [|? ? Hp Hps]; subst.
  destruct (PathMatch.match_ x p) as [[|]|e] eqn:Hm.
  - now exists true.
  - now apply IH.
  - exfalso. apply Hp. apply (match_raises_iff x p). now exists e.
Qed.

Lemma first_match_some (x : string) (pats : list string) :
  Forall (fun q => ~ Matching.empty_pattern q) pats ->
  first_match x pats = Ok true
  <-> exists pat, In pat pats /\ Matching.parts_match x pat.
Proof.
  intros Hne. rewrite first_match_true_iff. split.
  - intros (l1 & pat & l2 & -> & _ & Hpm). exists pat. split; [apply in_elt | exact Hpm].
  - intros (pat & Hin & Hpm). destruct (in_split _ _ Hin) as (l1 & l2 & ->).
    exists l1, pat, l2. repeat split; [| exact Hpm].
    apply Forall_app in Hne. tauto.
Qed.

(** C2, amended: for a pattern whose set holds no empty pattern and whose
    expansions contain [**] only as their leading segment [**/],
    [_matches] returns a boolean, and it returns true exactly when some
    expansion [e] of the pattern, or the rest of an expansion [**/rest],
    matches the candidate part by part - a relative pattern against the
    last parts of the candidate, an anchored pattern against all of them,
    each part compared by [fnmatchcase]. *)
Theorem C2_matches_some_pattern_by_parts :
  forall x P : string,
    Forall (fun q => ~ Matching.empty_pattern q) (_normalize_patterns P) ->
    forallb Matching.deep_prefix_only (_expand_brace_patterns P) = true ->
    (exists b, _matches x P = Ok b)
    /\ (_matches x P = Ok true
        <-> exists e,
              In e (_expand_brace_patterns P)
              /\ (Matching.parts_match x e
                  \/ (PyStr.startswith "**/" e = true
                      /\ Matching.parts_match x (PyStr.drop 3 e)))).
Proof.
  intros x P Hne _. split; [now apply first_match_returns |].
  unfold _matches. rewrite (first_match_some _ _ Hne). unfold _normalize_patterns.
  split.
  - intros (pat & Hin & Hpm). apply in_flat_map in Hin. destruct Hin as (e & He & Hpat).
    exists e. split; [exact He |].
    destruct (PyStr.startswith "**/" e) eqn:Hs.
    + destruct Hpat as [<- | [<- | []]]; [left | right]; auto.
    + destruct Hpat as [<- | []]. now left.
  - intros (e & He & [Hpm | [Hs Hpm]]).
    + exists e. split; [| exact Hpm]. apply in_flat_map. exists e. split; [exact He |].
      destruct (PyStr.startswith "**/" e); simpl; auto.
    + exists (PyStr.drop 3 e). split; [| exact Hpm].
      apply in_flat_map. exists e. split; [exact He |]. rewrite Hs. simpl. auto.
Qed.

Lemma C2_matches_some_pattern_by_parts_witness :
  (exists b, _matches "team/web.yaml" "**/*.{yml,yaml}" = Ok b)
  /\ (_matches "team/web.yaml" "**/*.{yml,yaml}" = Ok true
      <-> exists e,
            In e (_expand_brace_patterns "**/*.{yml,yaml}")
            /\ (Matching.parts_match "team/web.yaml" e
                \/ (PyStr.startswith "**/" e = true
                    /\ Matching.parts_match "team/web.yaml" (PyStr.drop 3 e)))).
Proof.
  apply (C2_matches_some_pattern_by_parts "team/web.yaml" "**/*.{yml,yaml}").
  - change (_normalize_patterns "**/*.{yml,yaml}")
      with ["**/*.yml"; "*.yml"; "**/*.yaml"; "*.yaml"].
    repeat constructor; intros H; vm_compute in H; discriminate.
  - reflexivity.
Defined.

(** ** Brace expansion *)

Lemma has_char_app (c : ascii) (a b : string) :
  PyStr.has_char c (a ++ b) = PyStr.has_char c a || PyStr.has_char c b.
Proof.
  induction a as [|d a IH]; simpl; [reflexivity |].
  rewrite IH. apply orb_assoc.
Qed.

Lemma partition_at_first (c : ascii) (a b : string) :
  PyStr.has_char c a = false ->
  PyStr.partition c (a ++ String c b) = (a, true, b).
Proof.
  induction a as [|d a IH]; simpl; intros H.
  - now rewrite Ascii.eqb_refl.
  - apply orb_false_iff in H. destruct H as [Hd Ha].
    rewrite Ascii.eqb_sym, Hd, (IH Ha). reflexivity.
Qed.

Lemma partition_absent (c : ascii) (s : string) :
  PyStr.has_char c s = false -> PyStr.partition c s = (s, false, "").
Proof.
  induction s as [|d s IH]; simpl; intros H; [reflexivity |].
  apply orb_false_iff in H. destruct H as [Hd Hs].
  rewrite Ascii.eqb_sym, Hd, (IH Hs). reflexivity.
Qed.

Lemma partition_found (c : ascii) (s : string) :
  PyStr.has_char c s = true ->
  exists a b, s = (a ++ String c b)%string /\ PyStr.has_char c a = false.
Proof.
  induction s as [|d s IH]; simpl; intros H; [discriminate |].
  destruct (Ascii.eqb c d) eqn:Hd.
  - apply Ascii.eqb_eq in Hd. subst d. exists "", s. split; reflexivity.
  - destruct (IH H) as (a & b & -> & Ha).
    exists (String d a), b. split; [reflexivity |]. simpl. now rewrite Hd.
Qed.

Lemma split_absent (c : ascii) (s : string) :
  PyStr.has_char c s = false -> PyStr.split c s = [s].
Proof.
  induction s as [|d s IH]; simpl; intros H; [reflexivity |].
  apply orb_false_iff in H. destruct H as [Hd Hs].
  rewrite Ascii.eqb_sym, Hd, (IH Hs). reflexivity.
Qed.

Lemma split_app_sep (c : ascii) (a b : string) :
  PyStr.has_char c a = false ->
  PyStr.split c (a ++ String c b) = a :: PyStr.split c b.
Proof.
  induction a as [|d a IH]; simpl; intros H.
  - now rewrite Ascii.eqb_refl.
  - apply orb_false_iff in H. destruct H as [Hd Ha].
    rewrite Ascii.eqb_sym, Hd, (IH Ha). reflexivity.
Qed.

Lemma split_join (c : ascii) (ws : list string) :
  ws <> [] ->
  forallb (fun w => negb (PyStr.has_char c w)) ws = true ->
  PyStr.split c (PyStr.join (String c "") ws) = ws.
Proof.
  induction ws as [|w ws IH]; intros Hne Hall; [now elim Hne |].
  simpl in Hall. apply andb_true_iff in Hall. destruct Hall as [Hw Hws].
  apply negb_true_iff in Hw.
  destruct ws as [|w' ws].
  - simpl. now apply split_absent.
  - change (PyStr.join (String c "") (w :: w' :: ws))
      with (w ++ String c (PyStr.join (String c "") (w' :: ws)))%string.
    rewrite (split_app_sep _ _ _ Hw). f_equal. apply IH; [discriminate | exact Hws].
Qed.

Lemma has_char_join (c : ascii) (sep : string) (ws : list string) :
  PyStr.has_char c sep = false ->
  forallb (fun w => negb (PyStr.has_char c w)) ws = true ->
  PyStr.has_char c (PyStr.join sep ws) = false.
Proof.
  intros Hsep. induction ws as [|w ws IH]; intros Hall; [reflexivity |].
  simpl in Hall. apply andb_true_iff in Hall. destruct Hall as [Hw Hws].
  apply negb_true_iff in Hw.
  destruct ws as [|w' ws]; [exact Hw |].
  change (PyStr.join sep (w :: w' :: ws))
    with (w ++ sep ++ PyStr.join sep (w' :: ws))%string.
  rewrite !has_char_app, Hw, Hsep, (IH Hws). reflexivity.
Qed.

Lemma brace_free_spec (s : string) :
  Braces.brace_free s = true
  <-> PyStr.has_char "{" s = false /\ PyStr.has_char "}" s = false.
Proof.
  unfold Braces.brace_free. rewrite andb_true_iff, !negb_true_iff. reflexivity.
Qed.

Lemma alternatives_spec (c : ascii) (alts : list string) :
  (c = "{" \/ c = "}" \/ c = ",")%char ->
  forallb Braces.alternative alts = true ->
  forallb (fun w => negb (PyStr.has_char c w)) alts = true.
Proof.
  intros Hc Hall. rewrite forallb_forall in *. intros a Ha.
  specialize (Hall a Ha). unfold Braces.alternative in Hall.
  apply andb_true_iff in Hall. destruct Hall as [Hb Hcomma].
  apply brace_free_spec in Hb. destruct Hb as [Ho Hcl].
  destruct Hc as [-> | [-> | ->]]; [now rewrite Ho | now rewrite Hcl | exact Hcomma].
Qed.

Lemma expand_group (pre : string) (alts : list string) (post : string) :
  Braces.brace_free pre = true ->
  forallb Braces.alternative alts = true ->
  alts <> [] ->
  _expand_brace_patterns (Braces.group pre alts post)
  = map (fun alt => Braces.substituted pre alt post) alts.
Proof.
  intros Hpre Halts Hne.
  apply brace_free_spec in Hpre. destruct Hpre as [Hpre _].
  assert (Hinner : PyStr.has_char "}" (PyStr.join "," alts) = false).
  { apply has_char_join; [reflexivity | now apply alternatives_spec; auto]. }
  unfold _expand_brace_patterns, Braces.group.
  rewrite !has_char_app. simpl (PyStr.has_char "{" "{").
  replace (PyStr.has_char "}" (PyStr.join "," alts ++ "}" ++ post)) with true
    by (rewrite !has_char_app; simpl; now rewrite orb_true_r).
  rewrite !orb_true_r. simpl negb. simpl orb. cbv iota.
  change (pre ++ "{" ++ PyStr.join "," alts ++ "}" ++ post)%string
    with (pre ++ String "{" (PyStr.join "," alts ++ "}" ++ post))%string.
  rewrite (partition_at_first _ _ _ Hpre).
  change (PyStr.join "," alts ++ "}" ++ post)%string
    with (PyStr.join "," alts ++ String "}" post)%string.
  rewrite (partition_at_first _ _ _ Hinner). simpl negb. cbv iota.
  rewrite split_join; [reflexivity | exact Hne | now apply alternatives_spec; auto].
Qed.

Lemma expand_without_open (pattern : string) :
  PyStr.has_char "{" pattern = false -> _expand_brace_patterns pattern = [pattern].
Proof. intros H. unfold _expand_brace_patterns. now rewrite H. Qed.

Lemma expand_unclosed (pattern : string) :
  Braces.unclosed pattern = true -> _expand_brace_patterns pattern = [pattern].
Proof.
  unfold Braces.unclosed, _expand_brace_patterns. intros H.
  destruct (PyStr.has_char "{" pattern) eqn:Ho; [| reflexivity].
  destruct (PyStr.has_char "}" pattern) eqn:Hc; [| reflexivity]. simpl.
  destruct (partition_found _ _ Ho) as (a & b & -> & Ha).
  rewrite (partition_at_first _ _ _ Ha) in *. simpl in H.
  apply negb_true_iff in H. rewrite (partition_absent _ _ H). reflexivity.
Qed.

Lemma substituted_brace_free (pre alt post : string) :
  Braces.brace_free pre = true -> Braces.alternative alt = true ->
  Braces.brace_free post = true ->
  PyStr.has_char "{" (Braces.substituted pre alt post) = false.
Proof.
  intros Hpre Halt Hpost. unfold Braces.alternative in Halt.
  apply andb_true_iff in Halt. destruct Halt as [Halt _].
  apply brace_free_spec in Hpre, Halt, Hpost.
  unfold Braces.substituted. rewrite !has_char_app.
  destruct Hpre as [-> _], Halt as [-> _], Hpost as [-> _]. reflexivity.
Qed.

(** The loop of [_matches] over two lists of patterns in a row. *)
Lemma first_match_app (x : string) (l l' : list string) :
  first_match x (l ++ l')
  = match first_match x l with
    | Ok false => first_match x l'
    | r => r
    end.
Proof.
  induction l as [|p l IH]; simpl; [reflexivity |].
  destruct (PathMatch.match_ x p) as [[|]|e]; [reflexivity | exact IH | reflexivity].
Qed.

Lemma first_match_flat_map {A : Type} (x : string) (g : A -> list string) (l : list A) :
  first_match x (flat_map g l) = Ok true
  <-> exists l1 a l2,
        l = l1 ++ a :: l2
        /\ Forall (fun b => first_match x (g b) = Ok false) l1
        /\ first_match x (g a) = Ok true.
Proof.
  induction l as [|b l IH]; simpl.
  - split; [discriminate |]. intros (l1 & a & l2 & H & _). now destruct l1.
  - rewrite first_match_app.
    destruct (first_match x (g b)) as [[|]|e] eqn:Hb.
    + split; [| reflexivity]. intros _.
      exists [], b, l. repeat split; [constructor | exact Hb].
    + rewrite IH. split.
      * intros (l1 & a & l2 & -> & Hall & Ha).
        exists (b :: l1), a, l2. repeat split; [now constructor | exact Ha].
      * intros (l1 & a & l2 & Heq & Hall & Ha).
        destruct l1 as [|b' l1]; simpl in Heq; injection Heq as -> ->.
        -- congruence.
        -- exists l1, a, l2. inversion Hall; subst. repeat split; assumption.
    + split; [discriminate |].
      intros (l1 & a & l2 & Heq & Hall & Ha).
      destruct l1 as [|b' l1]; simpl in Heq; injection Heq as -> ->.
      * congruence.
      * inversion Hall; subst. congruence.
Qed.

Lemma matches_single_expansion (x pattern : string) :
  _expand_brace_patterns pattern = [pattern] ->
  _matches x pattern
  = first_match x (if PyStr.startswith "**/" pattern
                   then [pattern; PyStr.drop 3 pattern] else [pattern]).
Proof.
  intros H. unfold _matches, _normalize_patterns. rewrite H. simpl.
  now rewrite app_nil_r.
Qed.

Lemma first_match_single (x pat : string) :
  first_match x [pat] = PathMatch.match_ x pat.
Proof. simpl. now destruct (PathMatch.match_ x pat) as [[|]|e]. Qed.

(** X18: Where no pattern of the set is empty, a pattern [pre{a,b,c}post]
    with one single-level brace group matches a candidate exactly when the
    pattern with the group replaced by one of the alternatives does. *)
Theorem brace_group_without_empty_pattern (x pre : string) (alts : list string) (post : string) :
  Braces.brace_free pre = true ->
  forallb Braces.alternative alts = true ->
  alts <> [] ->
  Braces.brace_free post = true ->
  Forall (fun q => ~ Matching.empty_pattern q)
         (_normalize_patterns (Braces.group pre alts post)) ->
  _matches x (Braces.group pre alts post) = Ok true
  <-> exists alt, In alt alts /\ _matches x (Braces.substituted pre alt post) = Ok true.
Proof.
  intros Hpre Halts Hne Hpost Hfull.
  set (f := fun pat : string =>
              if PyStr.startswith "**/" pat then [pat; PyStr.drop 3 pat] else [pat]).
  assert (Hsub : forall a, In a alts ->
            _matches x (Braces.substituted pre a post)
            = first_match x (f (Braces.substituted pre a post))).
  { intros a Ha. apply matches_single_expansion, expand_without_open.
    apply substituted_brace_free; try assumption.
    rewrite forallb_forall in Halts. now apply Halts. }
  assert (Hset : _normalize_patterns (Braces.group pre alts post)
                 = flat_map (fun a => f (Braces.substituted pre a post)) alts).
  { unfold _normalize_patterns.
    rewrite (expand_group pre alts post Hpre Halts Hne). fold f.
    clear. induction alts as [|a alts IH]; simpl; [reflexivity | now rewrite IH]. }
  assert (Hpart : forall a, In a alts ->
            Forall (fun q => ~ Matching.empty_pattern q) (f (Braces.substituted pre a post))).
  { intros a Ha. rewrite Hset in Hfull. rewrite Forall_forall in *.
    intros q Hq. apply Hfull. apply in_flat_map. now exists a. }
  unfold _matches at 1. rewrite (first_match_some _ _ Hfull), Hset. split.
  - intros (pat & Hin & Hpm). apply in_flat_map in Hin. destruct Hin as (a & Ha & Hpat).
    exists a. split; [exact Ha |]. rewrite (Hsub a Ha).
    apply (first_match_some _ _ (Hpart a Ha)). now exists pat.
  - intros (a & Ha & Hm). rewrite (Hsub a Ha) in Hm.
    apply (first_match_some _ _ (Hpart a Ha)) in Hm. destruct Hm as (pat & Hin & Hpm).
    exists pat. split; [| exact Hpm]. apply in_flat_map. now exists a.
Qed.

Lemma brace_group_without_empty_pattern_witness :
  _matches "policy.yaml" (Braces.group "*." ["yml"; "yaml"] "") = Ok true
  <-> exists alt,
        In alt ["yml"; "yaml"]
        /\ _matches "policy.yaml" (Braces.substituted "*." alt "") = Ok true.
Proof.
  apply (brace_group_without_empty_pattern "policy.yaml" "*." ["yml"; "yaml"] "");
    [reflexivity | reflexivity | discriminate | reflexivity |].
  change (_normalize_patterns (Braces.group "*." ["yml"; "yaml"] ""))
    with ["*.yml"; "*.yaml"].
  repeat constructor; intros H; vm_compute in H; discriminate.
Defined.

(** C3: the claim fails where an alternative is empty.  The candidate ["a"]
    matches the pattern ["{,a}"] with the group replaced by its second
    alternative, and [_matches] accepts the same group written ["{a,}"];
    on ["{,a}"] the empty first alternative reaches [match] as an empty
    pattern and [_matches] raises [ValueError] instead of returning. *)
Theorem C3_empty_alternative_raises :
  Braces.group "" [""; "a"] "" = "{,a}"
  /\ _expand_brace_patterns "{,a}" = [""; "a"]
  /\ _matches "a" (Braces.substituted "" "a" "") = Ok true
  /\ _matches "a" "{,a}" = Raise (ValueError "empty pattern")
  /\ _matches "a" "{a,}" = Ok true.
Proof. repeat split; vm_compute; reflexivity. Qed.

(** ** Patterns that begin with [**/] *)

Lemma startswith_app (p s : string) :
  PyStr.startswith p s = true -> s = (p ++ PyStr.drop (String.length p) s)%string.
Proof.
  revert s. induction p as [|a p IH]; intros [|b s] H; simpl in *;
    try reflexivity; try discriminate.
  apply andb_true_iff in H. destruct H as [Hab Hp].
  apply Ascii.eqb_eq in Hab. subst b. f_equal. now apply IH.
Qed.

Lemma splitroot_relative (c : ascii) (s : string) :
  c <> "/"%char -> Posix.splitroot (String c s) = ("", String c s).
Proof.
  intros Hc. unfold Posix.splitroot.
  destruct c as [[] [] [] [] [] [] [] []]; try reflexivity.
  exfalso. apply Hc. reflexivity.
Qed.

Lemma parse_relative (s : string) :
  PyStr.startswith "/" s = false ->
  Posix.parse s = Posix.mkPath "" (filter Posix.keep_component (PyStr.split "/" s)).
Proof.
  intros H. unfold Posix.parse.
  destruct s as [|c s]; [reflexivity |].
  cbn [PyStr.startswith] in H.
  destruct (Ascii.eqb_spec "/" c) as [<- | Hc]; [discriminate |].
  rewrite splitroot_relative by congruence. reflexivity.
Qed.

Lemma parse_absolute_parts (s : string) :
  PyStr.startswith "/" s = true -> Posix.parts (Posix.parse s) <> [].
Proof.
  intros H. destruct s as [|c s]; [discriminate |].
  cbn [PyStr.startswith] in H. apply andb_true_iff in H. destruct H as [Hc _].
  apply Ascii.eqb_eq in Hc. subst c.
  unfold Posix.parse, Posix.splitroot, Posix.parts.
  destruct (Nat.eqb _ 2); simpl; discriminate.
Qed.

(** A pattern ["**/" ++ s] has ["**"] as its first part. *)
Lemma parse_star_prefix (s : string) :
  Posix.parse ("**/" ++ s)
  = Posix.mkPath "" ("**" :: filter Posix.keep_component (PyStr.split "/" s)).
Proof.
  rewrite parse_relative by reflexivity.
  change ("**/" ++ s)%string with ("**" ++ String "/" s)%string.
  rewrite split_app_sep by reflexivity. reflexivity.
Qed.

Lemma star_prefix_not_empty (s : string) : ~ Matching.empty_pattern ("**/" ++ s).
Proof. unfold Matching.empty_pattern. rewrite parse_star_prefix. discriminate. Qed.

Lemma empty_pattern_relative (s : string) :
  Matching.empty_pattern s ->
  filter Posix.keep_component (PyStr.split "/" s) = [].
Proof.
  unfold Matching.empty_pattern. intros H.
  destruct (PyStr.startswith "/" s) eqn:Hs.
  - now apply parse_absolute_parts in Hs.
  - rewrite (parse_relative _ Hs) in H. exact H.
Qed.

Lemma matched_has_parts (x pat : string) :
  PathMatch.match_ x pat = Ok true -> Posix.parts (Posix.parse x) <> [].
Proof.
  intros H. apply match_true_iff in H.
  destruct H as [(_ & Hne & before & lp & Hx & Hf) | (Hr & Hx & _)].
  - rewrite Hx. intros Happ. apply app_eq_nil in Happ. destruct Happ as [_ ->].
    apply Forall2_same_length in Hf. simpl in Hf. symmetry in Hf.
    now apply length_zero_iff_nil in Hf.
  - unfold Posix.parts. rewrite Hx in *.
    apply is_empty_false in Hr. rewrite Hr. discriminate.
Qed.

(** The pattern [**/] alone matches every candidate that has a part. *)
Lemma lone_star_prefix_matches (x s : string) :
  Matching.empty_pattern s ->
  Posix.parts (Posix.parse x) <> [] ->
  PathMatch.match_ x ("**/" ++ s) = Ok true.
Proof.
  intros Hs Hx. apply match_true_iff. left. rewrite parse_star_prefix. simpl.
  rewrite (empty_pattern_relative _ Hs).
  split; [reflexivity |]. split; [discriminate |].
  destruct (exists_last Hx) as (before & y & Hy).
  exists before, [y]. split; [exact Hy |].
  constructor; [apply fnmatch_double_star | constructor].
Qed.

Lemma first_match_stripped (x : string) (l : list string) (e : string) :
  Forall (fun p => PyStr.startswith "**/" p = true) l ->
  In e l ->
  PathMatch.match_ x (PyStr.drop 3 e) = Ok true ->
  first_match x
    (flat_map (fun pat => if PyStr.startswith "**/" pat
                          then [pat; PyStr.drop 3 pat] else [pat]) l)
  = Ok true.
Proof.
  intros Hall Hin He.
  pose proof (matched_has_parts _ _ He) as Hx.
  induction l as [|p l IH]; [contradiction |].
  inversion Hall as [|? ? Hp Hl]; subst.
  pose proof (startswith_app _ _ Hp) as Hsplit. simpl String.length in Hsplit.
  cbn [flat_map]. rewrite Hp. cbn [app first_match].
  destruct (PathMatch.match_ x p) as [[|]|err] eqn:Hm; [reflexivity | |].
  - destruct (PathMatch.match_ x (PyStr.drop 3 p)) as [[|]|err] eqn:Hs; [reflexivity | |].
    + destruct Hin as [-> | Hin]; [congruence | now apply IH].
    + exfalso.
      assert (Hemp : Matching.empty_pattern (PyStr.drop 3 p)).
      { apply match_raises_iff with (x := x). now exists err. }
      pose proof (lone_star_prefix_matches x _ Hemp Hx) as Hlone.
      rewrite <- Hsplit in Hlone. congruence.
  - exfalso. apply (star_prefix_not_empty (PyStr.drop 3 p)).
    rewrite <- Hsplit. apply match_raises_iff with (x := x). now exists err.
Qed.

(** C9: when every pattern that brace expansion produces from [P] begins
    with [**/], a top-level candidate (no ['/'] in it) that matches the
    prefix-stripped variant of one of them is accepted by [_matches]. *)
Theorem C9_top_level_file_matches_stripped_variant :
  forall (x P e : string),
    Forall (fun p => PyStr.startswith "**/" p = true) (_expand_brace_patterns P) ->
    In e (_expand_brace_patterns P) ->
    PyStr.has_char "/" x = false ->
    PathMatch.match_ x (PyStr.drop 3 e) = Ok true ->
    _matches x P = Ok true.
Proof.
  intros x P e Hall Hin _ He. unfold _matches, _normalize_patterns.
  now apply first_match_stripped with (e := e).
Qed.

Lemma C9_top_level_file_matches_stripped_variant_witness :
  _matches "web.yaml" "**/*.{yml,yaml}" = Ok true.
Proof.
  apply (C9_top_level_file_matches_stripped_variant "web.yaml" "**/*.{yml,yaml}" "**/*.yaml").
  - repeat constructor.
  - right. left. reflexivity.
  - reflexivity.
  - reflexivity.
Defined.

(** ** The path sandbox *)

Lemma list_eqb_eq (a b : list string) : Posix.list_eqb a b = true <-> a = b.
Proof.
  revert b. induction a as [|x a IH]; intros [|y b]; simpl;
    try (split; [discriminate | discriminate]); [tauto |].
  rewrite andb_true_iff, String.eqb_eq, IH. split.
  - intros [-> ->]. reflexivity.
  - intros H. injection H as -> ->. split; reflexivity.
Qed.

Lemma firstn_is_prefix (b l : list string) :
  firstn (List.length b) l = b <-> exists rest, l = b ++ rest.
Proof.
  split.
  - intros H. exists (skipn (List.length b) l).
    rewrite <- H at 1. symmetry. apply firstn_skipn.
  - intros [rest ->]. rewrite firstn_app, Nat.sub_diag, firstn_all. simpl.
    apply app_nil_r.
Qed.

(** [relative_to] succeeds exactly on the paths under an absolute base. *)
Lemma relative_to_under (p base : Posix.PurePosixPath) :
  Posix.root base <> "" ->
  (Posix.relative_to p base <> None <-> Sandbox.under base p).
Proof.
  intros Habs. unfold Posix.relative_to, Sandbox.under.
  assert (Hn : List.length (Posix.abs_parts base) <> 0).
  { unfold Posix.abs_parts. apply is_empty_false in Habs. rewrite Habs. discriminate. }
  destruct (Nat.eqb_spec (List.length (Posix.abs_parts base)) 0) as [H0 | _];
    [contradiction |].
  destruct (Posix.list_eqb _ _) eqn:Heq; simpl.
  - apply list_eqb_eq, firstn_is_prefix in Heq. split; [now intros _ | discriminate].
  - split; [now intros H; elim H |].
    intros Hex. apply firstn_is_prefix, list_eqb_eq in Hex. congruence.
Qed.

Lemma enforce_under_spec (p base : Posix.PurePosixPath) :
  Posix.root base <> "" ->
  (Sandbox.under base p /\ _enforce_under p base = Ok tt)
  \/ (~ Sandbox.under base p /\ _enforce_under p base = Raise (AccessDenied p)).
Proof.
  intros Habs. pose proof (relative_to_under p base Habs) as H.
  unfold _enforce_under. destruct (Posix.relative_to p base) as [rest|].
  - left. split; [apply H; discriminate | reflexivity].
  - right. split; [| reflexivity]. intros Hu. apply H in Hu. now apply Hu.
Qed.

(** ** Which exceptions the validator can raise *)

Lemma raises_only_ok {A : Type} (P : exn -> Prop) (a : A) : raises_only P (Ok a).
Proof. intros e H. discriminate. Qed.

Lemma raises_only_bind {A B : Type} (P : exn -> Prop) (m : outcome A) (k : A -> outcome B) :
  raises_only P m -> (forall a, raises_only P (k a)) -> raises_only P (obind m k).
Proof.
  intros Hm Hk e. destruct m as [a|e']; simpl.
  - apply Hk.
  - intros H. apply Hm. congruence.
Qed.

Lemma get_or_dynamic (v : yaml) (k : string) (d : yaml) :
  raises_only dynamic_error (Py.get_or v k d).
Proof. intros e. destruct v; simpl; intros H; inversion H; now right. Qed.

Lemma get_dynamic (v : yaml) (k : string) : raises_only dynamic_error (Py.get v k).
Proof. apply get_or_dynamic. Qed.

Lemma iter_dynamic (v : yaml) : raises_only dynamic_error (Py.iter v).
Proof. intros e. destruct v; simpl; intros H; inversion H; now left. Qed.

Lemma str_in_dynamic (k : string) (v : yaml) : raises_only dynamic_error (Py.str_in k v).
Proof. intros e. destruct v; simpl; intros H; inversion H; now left. Qed.

Lemma in_kinds_dynamic (v : yaml) : raises_only dynamic_error (in_kinds v).
Proof. intros e. destruct v; simpl; intros H; inversion H; now left. Qed.

Lemma add_dynamic (a b : yaml) : raises_only dynamic_error (Py.add a b).
Proof.
  intros e. unfold Py.add.
  destruct a, b; simpl; try destruct b0; try destruct b; intros H; inversion H; now left.
Qed.

Ltac dynamic_step :=
  first
    [ apply raises_only_ok
    | apply get_dynamic | apply get_or_dynamic | apply iter_dynamic
    | apply str_in_dynamic | apply in_kinds_dynamic | apply add_dynamic
    | apply raises_only_bind; [| intro]
    | match goal with
      | |- raises_only _ (if ?b then _ else _) => destruct b
      end ].

Lemma any_populated_dynamic (tps : list yaml) : raises_only dynamic_error (any_populated tps).
Proof. induction tps as [|tp tps IH]; simpl; repeat dynamic_step; exact IH. Qed.

Lemma has_l7_rules_dynamic (rules : list yaml) :
  raises_only dynamic_error (has_l7_rules rules).
Proof.
  induction rules as [|r rules IH]; simpl; repeat dynamic_step;
    try exact IH; apply any_populated_dynamic.
Qed.

Lemma direction_warning_dynamic (present : bool) (rules : yaml) (msg : string) :
  raises_only dynamic_error (direction_warning present rules msg).
Proof.
  unfold direction_warning, _has_l7_ports. repeat dynamic_step.
  apply has_l7_rules_dynamic.
Qed.

Lemma validate_document_dynamic (path : string) (data : yaml) :
  raises_only dynamic_error (validate_document path data).
Proof.
  unfold validate_document.
  destruct data; try apply raises_only_ok.
  repeat first [ apply direction_warning_dynamic | dynamic_step ].
Qed.

(** C1: with an absolute data directory, [read_text] and
    [validate_cilium_policy] fail with [AccessDenied] exactly when the
    resolved path is neither the data directory nor under it; in that case
    no file has been read, and otherwise the operation goes on to read the
    resolved file. *)
Theorem C1_access_denied_iff_outside :
  forall (w : World) (path : string) (log : list Posix.PurePosixPath),
    Posix.root (DEFAULT_DATA_DIR w) <> "" ->
    let base := DEFAULT_DATA_DIR w in
    let fp := resolve w (Posix.joinpath base path) in
    ((exists q, fst (read_text w path log) = Raise (AccessDenied q))
     <-> ~ Sandbox.under base fp)
    /\ ((exists q, fst (validate_cilium_policy w path log) = Raise (AccessDenied q))
        <-> ~ Sandbox.under base fp)
    /\ (~ Sandbox.under base fp ->
        read_text w path log = (Raise (AccessDenied fp), log)
        /\ validate_cilium_policy w path log = (Raise (AccessDenied fp), log))
    /\ (Sandbox.under base fp ->
        read_text w path log = fp_read_text w fp log
        /\ snd (validate_cilium_policy w path log) = log ++ [fp]).
Proof.
  intros w path log Habs base fp.
  assert (Hout : ~ Sandbox.under base fp ->
                 read_text w path log = (Raise (AccessDenied fp), log)
                 /\ validate_cilium_policy w path log = (Raise (AccessDenied fp), log)).
  { intros Hn. unfold read_text, validate_cilium_policy, io_bind, io_lift.
    fold base. fold fp.
    destruct (enforce_under_spec fp base Habs) as [[Hu _] | [_ ->]];
      [contradiction | split; reflexivity]. }
  assert (Hin : Sandbox.under base fp ->
                read_text w path log = fp_read_text w fp log
                /\ snd (validate_cilium_policy w path log) = log ++ [fp]
                /\ forall q, fst (read_text w path log) <> Raise (AccessDenied q)
                /\ fst (validate_cilium_policy w path log) <> Raise (AccessDenied q)).
  { intros Hu. unfold read_text, validate_cilium_policy, io_bind, io_lift.
    fold base. fold fp.
    destruct (enforce_under_spec fp base Habs) as [[_ ->] | [Hn _]];
      [| contradiction].
    unfold fp_read_text, yaml_safe_load.
    destruct (read_text_file w fp) as [err | text]; simpl.
    - repeat split; discriminate.
    - destruct (safe_load w text) as [data |]; simpl.
      + pose proof (validate_document_dynamic path data) as Hd.
        destruct (validate_document path data) as [r | e]; simpl.
        * repeat split; discriminate.
        * repeat split; try discriminate.
          intros Heq. destruct (Hd e eq_refl); congruence.
      + repeat split; discriminate. }
  repeat split.
  - intros [q Hq] Hu. destruct (Hin Hu) as (_ & _ & Hno). now apply (proj1 (Hno q)).
  - intros Hn. exists fp. destruct (Hout Hn) as [-> _]. reflexivity.
  - intros [q Hq] Hu. destruct (Hin Hu) as (_ & _ & Hno). now apply (proj2 (Hno q)).
  - intros Hn. exists fp. destruct (Hout Hn) as [_ ->]. reflexivity.
  - now apply Hout.
  - now apply Hout.
  - now apply Hin.
  - now apply Hin.
Qed.

Lemma outside_sample_dir : ~ Sandbox.under Sample.data_dir (Posix.mkPath "/" ["etc"; "passwd"]).
Proof. intros [rest H]. simpl in H. discriminate. Qed.

Lemma C1_access_denied_iff_outside_witness :
  read_text Sample.world "../etc/passwd" []
  = (Raise (AccessDenied (Posix.mkPath "/" ["etc"; "passwd"])), [])
  /\ read_text Sample.world "a/b.yaml" []
     = (Raise (ReadFailed NotFound), [Posix.mkPath "/" ["data"; "a"; "b.yaml"]]).
Proof.
  split.
  - apply (C1_access_denied_iff_outside Sample.world "../etc/passwd" []);
      [discriminate | exact outside_sample_dir].
  - destruct (C1_access_denied_iff_outside Sample.world "a/b.yaml" [])
      as (_ & _ & _ & Hin); [discriminate |].
    destruct Hin as [-> _]; [exists ["a"; "b.yaml"]; reflexivity | reflexivity].
Defined.

(** ** The validator on the documents of the specification *)

(** C4, as stated, fails: the document with one empty ingress rule and one
    empty egress rule does not get exactly two warnings. *)
Lemma C4_not_two_warnings :
  ~ (exists r, validate_document "web.yaml" (Doc.with_empty_rules (YStr "x")) = Ok r
               /\ r_errors r = [] /\ List.length (r_warnings r) = 2).
Proof.
  intros (r & Hr & _ & Hlen). vm_compute in Hr.
  injection Hr as <-. simpl in Hlen. discriminate.
Qed.

(** C4, amended: that document, whatever its name, gets exactly three
    warnings - ingress without L4/L7 ports, egress without L4/L7 ports, no
    explicit DNS egress - in that order, and no error. *)
Theorem C4_three_warnings_no_error :
  forall (path : string) (x : yaml),
    exists r,
      validate_document path (Doc.with_empty_rules x) = Ok r
      /\ r_errors r = []
      /\ r_warnings r = ["Ingress has no L4/L7 ports (coarse allow?)";
                         "Egress has no L4/L7 ports (coarse allow?)";
                         "No explicit DNS egress (add kube-dns:53 or toFQDNs)"].
Proof.
  intros path x. eexists. split; [reflexivity | split; reflexivity].
Qed.

(** Once the spec is found missing, nothing else is checked. *)
Lemma spec_required_ends_validation (path : string) (data : yaml) (r : report) :
  validate_document path data = Ok r ->
  In "spec is required" (r_errors r) ->
  r_warnings r = [] /\ r_summary r = []
  /\ exists before, r_errors r = before ++ ["spec is required"].
Proof.
  unfold validate_document. intros H Hin.
  destruct data; try (injection H as <-; simpl in Hin; intuition congruence).
  repeat match type of H with
         | obind ?m _ = _ => destruct m; simpl in H; try discriminate
         | context [if ?b then _ else _] => destruct b; simpl in H
         end;
    injection H as <-; simpl in *;
    try (repeat split; try reflexivity;
         first [ now exists [] | now exists ["metadata.name is required"] ]);
    exfalso; intuition congruence.
Qed.

(** C5: the document without name and without spec gets exactly the two
    errors "metadata.name is required" and "spec is required", in that
    order, and no warning; the missing name does not end validation (a
    document that lacks only the name still gets its warnings), the
    missing spec does: whenever "spec is required" is reported it is the
    last error and no warning and no summary are recorded. *)
Theorem C5_missing_name_then_missing_spec :
  (forall path : string,
     exists r,
       validate_document path Doc.without_name_and_spec = Ok r
       /\ r_errors r = ["metadata.name is required"; "spec is required"]
       /\ r_warnings r = [])
  /\ (forall path : string,
        exists r,
          validate_document path Doc.without_name = Ok r
          /\ r_errors r = ["metadata.name is required"]
          /\ r_warnings r = ["Ingress has no L4/L7 ports (coarse allow?)"])
  /\ (forall (path : string) (data : yaml) (r : report),
        validate_document path data = Ok r ->
        In "spec is required" (r_errors r) ->
        r_warnings r = [] /\ r_summary r = []
        /\ exists before, r_errors r = before ++ ["spec is required"]).
Proof.
  split; [| split].
  - intros path. eexists. split; [reflexivity | split; reflexivity].
  - intros path. eexists. split; [reflexivity | split; reflexivity].
  - apply spec_required_ends_validation.
Qed.

Lemma C5_missing_name_then_missing_spec_witness :
  exists r,
    validate_document "p.yaml" Doc.without_name_and_spec = Ok r
    /\ In "spec is required" (r_errors r)
    /\ (r_warnings r = [] /\ r_summary r = []
        /\ exists before, r_errors r = before ++ ["spec is required"]).
Proof.
  eexists. split; [reflexivity |].
  split; [right; left; reflexivity |].
  apply (proj2 (proj2 C5_missing_name_then_missing_spec) "p.yaml"
               Doc.without_name_and_spec _ eq_refl).
  right. left. reflexivity.
Defined.

(** ** The template generator *)

Lemma port_obj_without_slash (p : string) :
  PyStr.has_char "/" p = false -> port_obj p = Ok (Doc.port_entry p "TCP").
Proof. intros H. unfold port_obj. now rewrite H. Qed.

Lemma port_obj_with_slash (port proto : string) :
  PyStr.has_char "/" port = false -> PyStr.has_char "/" proto = false ->
  port_obj (port ++ "/" ++ proto) = Ok (Doc.port_entry port proto).
Proof.
  intros Hport Hproto. unfold port_obj.
  rewrite has_char_app. simpl (PyStr.has_char "/" ("/" ++ proto)). rewrite orb_true_r.
  change (port ++ "/" ++ proto)%string with (port ++ String "/" proto)%string.
  rewrite (split_app_sep _ _ _ Hport), (split_absent _ _ Hproto). reflexivity.
Qed.

Lemma policy_document_egress (app namespace : string)
    (ingress_ports egress_fqdns : option (list string)) (doc : yaml) :
  policy_document app namespace ingress_ports egress_fqdns = Ok doc ->
  exists fqdn_rule,
    Doc.at_path ["spec"; "egress"] doc = Some (YSeq [fqdn_rule; dns_egress_rule]).
Proof.
  unfold policy_document. intros H.
  destruct (port_objs _) as [to_ports | e]; simpl in H; [| discriminate].
  injection H as <-. eexists. reflexivity.
Qed.

(** The entries built for ports written as [port] or [port/protocol]. *)
Lemma port_objs_of_ports (ports : list (string * option string)) :
  forallb Doc.slash_free ports = true ->
  port_objs (map Doc.port_string ports) = Ok (map Doc.port_of ports).
Proof.
  induction ports as [|[port [proto |]] ports IH]; simpl; intros H; [reflexivity | |];
    apply andb_true_iff in H; destruct H as [Hp Hps];
    unfold Doc.slash_free in Hp; simpl in Hp;
    apply andb_true_iff in Hp; destruct Hp as [Hport Hproto];
    apply negb_true_iff in Hport.
  - apply negb_true_iff in Hproto.
    unfold Doc.port_string at 1. cbn [fst snd].
    rewrite (port_obj_with_slash port proto Hport Hproto). cbn [obind].
    rewrite (IH Hps). reflexivity.
  - unfold Doc.port_string at 1. cbn [fst snd].
    rewrite (port_obj_without_slash port Hport). cbn [obind].
    rewrite (IH Hps). reflexivity.
Qed.

(** A port string with more than one ['/'] cannot be unpacked into port
    and protocol: the generator raises. *)
Lemma port_obj_two_slashes (a b c : string) :
  PyStr.has_char "/" a = false -> PyStr.has_char "/" b = false ->
  port_obj (a ++ "/" ++ b ++ "/" ++ c)
  = Raise (ValueError "too many values to unpack (expected 2)").
Proof.
  intros Ha Hb. unfold port_obj.
  rewrite has_char_app. simpl (PyStr.has_char "/" ("/" ++ b ++ "/" ++ c)).
  rewrite orb_true_r.
  change (a ++ "/" ++ b ++ "/" ++ c)%string with (a ++ String "/" (b ++ String "/" c))%string.
  rewrite (split_app_sep _ _ _ Ha), (split_app_sep _ _ _ Hb).
  destruct (PyStr.split "/" c) as [|w ws] eqn:Hc; [| reflexivity].
  destruct c as [|ch c]; simpl in Hc; [discriminate |].
  destruct (Ascii.eqb ch "/"); [discriminate |].
  destruct (PyStr.split "/" c); discriminate.
Qed.

(** C8: for every app and namespace the generator returns the dump of a
    CiliumNetworkPolicy named [<app>-ztp] in the namespace, selecting the
    pods of the app, with a single ingress rule and two egress rules.  The
    [toPorts] of the ingress rule are the supplied ports, in order - each
    written [port] (protocol TCP) or [port/protocol] - and 80/TCP and
    443/TCP when the list is absent or empty; the first egress rule grants
    the supplied FQDNs, and [*.amazonaws.com] when the list is absent or
    empty; whatever is supplied, the second egress rule allows UDP port 53
    to the kube-system/kube-dns endpoints. *)
Theorem C8_template_defaults_and_dns_rule :
  forall (app namespace : string) (ports : option (list (string * option string)))
         (egress_fqdns : option (list string)),
    (forall l, ports = Some l -> forallb Doc.slash_free l = true) ->
    exists doc,
      generate_policy_template app namespace
        (option_map (map Doc.port_string) ports) egress_fqdns
      = Ok (Emitter.dump false doc)
      /\ Doc.at_path ["kind"] doc = Some (YStr "CiliumNetworkPolicy")
      /\ Doc.at_path ["metadata"; "name"] doc = Some (YStr (app ++ "-ztp"))
      /\ Doc.at_path ["metadata"; "namespace"] doc = Some (YStr namespace)
      /\ Doc.at_path ["spec"; "endpointSelector"; "matchLabels"] doc
         = Some (YMap [("k8s:io.kubernetes.pod.namespace", YStr namespace);
                       ("app", YStr app)])
      /\ Doc.at_path ["spec"; "ingress"] doc
         = Some (YSeq
             [YMap [("fromEndpoints", YSeq [YMap [("matchLabels", YMap [("app", YStr app)])]]);
                    ("toPorts",
                     YSeq match ports with
                          | Some (p :: l) => map Doc.port_of (p :: l)
                          | _ => [Doc.port_entry "80" "TCP"; Doc.port_entry "443" "TCP"]
                          end)]])
      /\ Doc.at_path ["spec"; "egress"] doc
         = Some (YSeq
             [YMap [("toFQDNs",
                     YSeq (map (fun fqdn => YMap [("matchName", YStr fqdn)])
                             match egress_fqdns with
                             | Some (f :: l) => f :: l
                             | _ => ["*.amazonaws.com"]
                             end))];
              YMap [("toEndpoints",
                     YSeq [YMap [("matchLabels",
                                  YMap [("k8s:io.kubernetes.pod.namespace", YStr "kube-system");
                                        ("k8s-app", YStr "kube-dns")])]]);
                    ("toPorts", YSeq [Doc.port_entry "53" "UDP"])]]).
Proof.
  intros app namespace ports fqdns Hports.
  assert (Hobjs : port_objs (list_or (option_map (map Doc.port_string) ports)
                                     ["80/TCP"; "443/TCP"])
                  = Ok match ports with
                       | Some (p :: l) => map Doc.port_of (p :: l)
                       | _ => [Doc.port_entry "80" "TCP"; Doc.port_entry "443" "TCP"]
                       end).
  { destruct ports as [[|p l] |]; try reflexivity.
    apply (port_objs_of_ports (p :: l)). now apply Hports. }
  assert (Hfq : list_or fqdns ["*.amazonaws.com"]
                = match fqdns with
                  | Some (f :: l) => f :: l
                  | _ => ["*.amazonaws.com"]
                  end).
  { now destruct fqdns as [[|f l] |]. }
  unfold generate_policy_template, policy_document.
  rewrite Hobjs, Hfq. cbn [obind].
  eexists. repeat split; reflexivity.
Qed.

Lemma C8_template_defaults_and_dns_rule_witness :
  exists doc,
    generate_policy_template "web" "prod" (Some ["8080"; "53/UDP"]) (Some ["example.com"])
    = Ok (Emitter.dump false doc)
    /\ Doc.at_path ["kind"] doc = Some (YStr "CiliumNetworkPolicy")
    /\ Doc.at_path ["metadata"; "name"] doc = Some (YStr "web-ztp")
    /\ Doc.at_path ["metadata"; "namespace"] doc = Some (YStr "prod")
    /\ Doc.at_path ["spec"; "endpointSelector"; "matchLabels"] doc
       = Some (YMap [("k8s:io.kubernetes.pod.namespace", YStr "prod"); ("app", YStr "web")])
    /\ Doc.at_path ["spec"; "ingress"] doc
       = Some (YSeq
           [YMap [("fromEndpoints", YSeq [YMap [("matchLabels", YMap [("app", YStr "web")])]]);
                  ("toPorts", YSeq [Doc.port_entry "8080" "TCP"; Doc.port_entry "53" "UDP"])]])
    /\ Doc.at_path ["spec"; "egress"] doc
       = Some (YSeq
           [YMap [("toFQDNs", YSeq [YMap [("matchName", YStr "example.com")]])];
            YMap [("toEndpoints",
                   YSeq [YMap [("matchLabels",
                                YMap [("k8s:io.kubernetes.pod.namespace", YStr "kube-system");
                                      ("k8s-app", YStr "kube-dns")])]]);
                  ("toPorts", YSeq [Doc.port_entry "53" "UDP"])]]).
Proof.
  apply (C8_template_defaults_and_dns_rule "web" "prod"
           (Some [("8080", None); ("53", Some "UDP")]) (Some ["example.com"])).
  intros l H. injection H as <-. reflexivity.
Defined.

(** ** The posture checklist *)

Ltac split_scan H :=
  repeat match type of H with
         | context [match ?x with _ => _ end] => destruct x eqn:?; simpl in H
         end.

(** One turn of the loop leaves the accumulator as it is or counts the file. *)
Lemma scan_file_step (w : World) (g : string) (acc acc' : stats * list detail)
    (p : Posix.PurePosixPath) (log log' : list Posix.PurePosixPath) :
  scan_file w g acc p log = (Ok acc', log') ->
  acc' = acc
  \/ exists rel k l7 dns,
       relative_posix w p = Ok rel
       /\ acc' = (count (fst acc) k l7 dns, snd acc ++ [mkDetail rel k l7 dns]).
Proof.
  unfold scan_file, io_bind, io_lift, io_ret, io_try, fp_read_text, yaml_safe_load.
  intros H. split_scan H; try discriminate;
    injection H as <- <-; try (now left);
    right; do 4 eexists; split; reflexivity.
Qed.

Lemma count_consistent (acc : stats * list detail) (rel k : string) (l7 dns : bool) :
  consistent acc ->
  consistent (count (fst acc) k l7 dns, snd acc ++ [mkDetail rel k l7 dns]).
Proof.
  unfold consistent, count, bump. destruct acc as [st ds]. simpl.
  rewrite length_app, Nat2Z.inj_add. simpl.
  destruct (String.eqb k "CiliumNetworkPolicy"), l7, dns; simpl; lia.
Qed.

Lemma subsequence_snoc_skip {A : Type} (kept all : list A) (x : A) :
  subsequence kept all -> subsequence kept (all ++ [x]).
Proof.
  induction 1; simpl; [apply sub_skip, sub_nil | now apply sub_skip | now apply sub_keep].
Qed.

Lemma subsequence_snoc_keep {A : Type} (kept all : list A) (x : A) :
  subsequence kept all -> subsequence (kept ++ [x]) (all ++ [x]).
Proof.
  induction 1; simpl; [apply sub_keep, sub_nil | now apply sub_skip | now apply sub_keep].
Qed.

Lemma scan_files_invariant (w : World) (g : string) (rest : list Posix.PurePosixPath) :
  forall (done : list Posix.PurePosixPath) (acc r : stats * list detail)
         (log log' : list Posix.PurePosixPath),
    scan_files w g acc rest log = (Ok r, log') ->
    consistent acc -> rows_follow w (snd acc) done ->
    consistent r /\ rows_follow w (snd r) (done ++ rest).
Proof.
  induction rest as [|p rest IH]; intros done acc r log log' H Hc Hr.
  - simpl in H. injection H as <- <-. rewrite app_nil_r. split; assumption.
  - simpl in H. unfold io_bind in H.
    destruct (scan_file w g acc p log) as [[acc' | e] log1] eqn:Hs; [| discriminate].
    change (done ++ p :: rest) with (done ++ [p] ++ rest). rewrite app_assoc.
    destruct Hr as (kept & Hsub & Hrows).
    apply (IH (done ++ [p]) acc' r log1 log' H);
      destruct (scan_file_step w g acc acc' p log log1 Hs)
        as [-> | (rel & k & l7 & dns & Hrel & ->)].
    + exact Hc.
    + now apply count_consistent.
    + exists kept. split; [now apply subsequence_snoc_skip | exact Hrows].
    + exists (kept ++ [p]). split; [now apply subsequence_snoc_keep |].
      simpl. apply Forall2_app; [exact Hrows |].
      constructor; [exact Hrel | constructor].
Qed.

(** C10: whenever the scan returns, the total is the number of CNP plus
    the number of CCNP documents, there is one detail row per counted
    document, naming files of the corpus in iteration order, and the L7
    and DNS counters lie between 0 and the total. *)
Theorem C10_checklist_counters_consistent :
  forall (w : World) (path_glob : string) (log log' : list Posix.PurePosixPath)
         (st : stats) (details : list detail),
    zero_trust_checklist w path_glob log = (Ok (st, details), log') ->
    (total st = cnp st + ccnp st
     /\ Z.of_nat (List.length details) = total st
     /\ 0 <= with_l7 st <= total st
     /\ 0 <= dns_ok st <= total st)%Z
    /\ rows_follow w details (_iter_files w).
Proof.
  intros w g log log' st details H. unfold zero_trust_checklist in H.
  destruct (scan_files_invariant w g (_iter_files w) [] _ _ _ _ H) as [Hc Hr].
  - unfold consistent. simpl. lia.
  - exists []. split; constructor.
  - unfold consistent in Hc. simpl in *. split; [lia | exact Hr].
Qed.

Lemma C10_checklist_counters_consistent_witness :
  exists st details log',
    zero_trust_checklist Sample.world "**/*.{yml,yaml}" [] = (Ok (st, details), log')
    /\ ((total st = cnp st + ccnp st
         /\ Z.of_nat (List.length details) = total st
         /\ 0 <= with_l7 st <= total st
         /\ 0 <= dns_ok st <= total st)%Z
        /\ rows_follow Sample.world details (_iter_files Sample.world)).
Proof.
  do 3 eexists. split; [vm_compute; reflexivity |].
  eapply (C10_checklist_counters_consistent Sample.world "**/*.{yml,yaml}" []).
  vm_compute. reflexivity.
Defined.

(** ** Files that do not load *)

Lemma scan_file_log_independent (w : World) (g : string) (acc : stats * list detail)
    (p : Posix.PurePosixPath) (log1 log2 : list Posix.PurePosixPath) :
  fst (scan_file w g acc p log1) = fst (scan_file w g acc p log2).
Proof.
  unfold scan_file, io_bind, io_lift, io_ret, io_try, fp_read_text, yaml_safe_load.
  destruct (relative_posix w p) as [rel | e]; simpl; [| reflexivity].
  destruct (selected rel g) as [[|] | e]; simpl; try reflexivity.
  destruct (yaml_suffix p); simpl; try reflexivity.
  destruct (read_text_file w p) as [e | text]; simpl; try reflexivity.
  destruct (safe_load w text) as [doc |]; simpl; try reflexivity.
  destruct doc; simpl; try reflexivity.
  destruct (Py.lookup "kind" entries) as [kind |]; simpl; try reflexivity.
  destruct kind; simpl; try reflexivity.
  destruct (negb _); [reflexivity |].
  destruct (inspect_document (YMap entries)) as [[l7 dns] | e]; reflexivity.
Qed.

Lemma scan_files_log_independent (w : World) (g : string) (ps : list Posix.PurePosixPath) :
  forall (acc : stats * list detail) (log1 log2 : list Posix.PurePosixPath),
    fst (scan_files w g acc ps log1) = fst (scan_files w g acc ps log2).
Proof.
  induction ps as [|p ps IH]; intros acc log1 log2; simpl; [reflexivity |].
  unfold io_bind.
  pose proof (scan_file_log_independent w g acc p log1 log2) as Hp.
  destruct (scan_file w g acc p log1) as [[a1 | e1] l1],
           (scan_file w g acc p log2) as [[a2 | e2] l2]; simpl in Hp;
    try discriminate.
  - injection Hp as ->. apply IH.
  - exact Hp.
Qed.

Lemma scan_files_app (w : World) (g : string) (l1 l2 : list Posix.PurePosixPath) :
  forall (acc : stats * list detail) (log : list Posix.PurePosixPath),
    scan_files w g acc (l1 ++ l2) log
    = match scan_files w g acc l1 log with
      | (Ok acc', log') => scan_files w g acc' l2 log'
      | (Raise e, log') => (Raise e, log')
      end.
Proof.
  induction l1 as [|p l1 IH]; intros acc log; simpl; [reflexivity |].
  unfold io_bind. destruct (scan_file w g acc p log) as [[acc' | e] log']; [apply IH | reflexivity].
Qed.

(** The loop looks at the files it is given, not at the listing of the world. *)
Lemma scan_files_with_files (w : World) (g : string) (files ps : list Posix.PurePosixPath) :
  forall (acc : stats * list detail) (log : list Posix.PurePosixPath),
    scan_files (with_files w files) g acc ps log = scan_files w g acc ps log.
Proof.
  induction ps as [|p ps IH]; intros acc log; simpl; [reflexivity |].
  unfold io_bind.
  change (scan_file (with_files w files) g acc p log) with (scan_file w g acc p log).
  destruct (scan_file w g acc p log) as [[acc' | e] log']; [apply IH | reflexivity].
Qed.

(** A file that does not load leaves the accumulator untouched. *)
Lemma scan_file_skips_unloaded (w : World) (g : string) (acc : stats * list detail)
    (p : Posix.PurePosixPath) (log : list Posix.PurePosixPath)
    (rel text : string) (b : bool) :
  relative_posix w p = Ok rel ->
  selected rel g = Ok b ->
  read_text_file w p = inr text ->
  safe_load w text = None ->
  exists log', scan_file w g acc p log = (Ok acc, log').
Proof.
  intros Hrel Hsel Hread Hload.
  unfold scan_file, io_bind, io_lift, io_ret, io_try, fp_read_text, yaml_safe_load.
  rewrite Hrel, Hsel. destruct b; simpl; [| eexists; reflexivity].
  destruct (yaml_suffix p); simpl; [| eexists; reflexivity].
  rewrite Hread, Hload. eexists. reflexivity.
Qed.

Lemma relative_posix_inside (w : World) (p : Posix.PurePosixPath) (rel : string) :
  relative_posix w p = Ok rel -> _enforce_under p (DEFAULT_DATA_DIR w) = Ok tt.
Proof.
  unfold relative_posix, _enforce_under.
  destruct (Posix.relative_to p (DEFAULT_DATA_DIR w)); [reflexivity | discriminate].
Qed.

(** C7: a file of the corpus whose content does not parse is skipped by
    the scan - the result is the one the scan gives on the corpus without
    that file, so it adds no error, no count and no row - whereas
    validating that file by its relative path raises the parse error to
    the caller, after the file has been read. *)
Theorem C7_parse_error_skipped_by_scan_raised_by_validate :
  forall (w : World) (path_glob : string) (p : Posix.PurePosixPath) (text rel : string),
    read_text_file w p = inr text ->
    safe_load w text = None ->
    relative_posix w p = Ok rel ->
    (forall (before after log : list Posix.PurePosixPath),
       _iter_files w = before ++ p :: after ->
       (exists b, selected rel path_glob = Ok b) ->
       fst (zero_trust_checklist w path_glob log)
       = fst (zero_trust_checklist (with_files w (before ++ after)) path_glob log))
    /\ (forall log : list Posix.PurePosixPath,
          resolve w (Posix.joinpath (DEFAULT_DATA_DIR w) rel) = p ->
          validate_cilium_policy w rel log = (Raise ParseError, log ++ [p])).
Proof.
  intros w g p text rel Hread Hload Hrel. split.
  - intros before after log Hfiles [b Hsel].
    unfold zero_trust_checklist. rewrite Hfiles.
    change (_iter_files (with_files w (before ++ after))) with (before ++ after).
    rewrite scan_files_with_files, !scan_files_app.
    destruct (scan_files w g _ before log) as [[acc | e] log1]; [| reflexivity].
    simpl. unfold io_bind.
    destruct (scan_file_skips_unloaded w g acc p log1 rel text b Hrel Hsel Hread Hload)
      as [log2 ->].
    apply scan_files_log_independent.
  - intros log Hfp.
    unfold validate_cilium_policy, io_bind, io_lift. rewrite Hfp.
    rewrite (relative_posix_inside w p rel Hrel).
    unfold fp_read_text, yaml_safe_load. rewrite Hread, Hload. reflexivity.
Qed.

Lemma C7_parse_error_skipped_by_scan_raised_by_validate_witness :
  fst (zero_trust_checklist Sample.world "**/*.{yml,yaml}" [])
  = fst (zero_trust_checklist
           (with_files Sample.world
              (firstn 3 (_iter_files Sample.world) ++ skipn 4 (_iter_files Sample.world)))
           "**/*.{yml,yaml}" [])
  /\ validate_cilium_policy Sample.world "broken.yaml" []
     = (Raise ParseError, [Posix.mkPath "/" ["data"; "broken.yaml"]]).
Proof.
  destruct (C7_parse_error_skipped_by_scan_raised_by_validate
              Sample.world "**/*.{yml,yaml}" (Posix.mkPath "/" ["data"; "broken.yaml"])
              Sample.broken_text "broken.yaml" eq_refl eq_refl eq_refl) as [Hscan Hval].
  split.
  - apply (Hscan (firstn 3 (_iter_files Sample.world)) (skipn 4 (_iter_files Sample.world)) []).
    + reflexivity.
    + exists true. reflexivity.
  - apply (Hval []). reflexivity.
Defined.

(** ** What the checklist counts *)

Lemma get_of_map (v : yaml) (k : string) :
  Signals.is_map v = true -> Py.get v k = Ok (Signals.field k v).
Proof.
  destruct v; try discriminate. intros _.
  unfold Py.get, Py.get_or, Signals.field. simpl.
  now destruct (Py.lookup k entries).
Qed.

Lemma scan_to_ports_counts (tps : list yaml) :
  forallb Signals.is_map tps = true ->
  forall l7, scan_to_ports tps l7 = Ok (l7 || existsb Signals.populated tps).
Proof.
  induction tps as [|tp tps IH]; intros Hall l7; simpl.
  - now rewrite orb_false_r.
  - simpl in Hall. apply andb_true_iff in Hall. destruct Hall as [Htp Hall].
    rewrite (get_of_map tp "ports" Htp). cbn [obind]. unfold Signals.populated.
    destruct (Py.truthy (Signals.field "ports" tp)); cbn [orb].
    + rewrite (IH Hall). now rewrite orb_true_r.
    + rewrite (get_of_map tp "rules" Htp). cbn [obind]. rewrite (IH Hall).
      destruct (Py.truthy (Signals.field "rules" tp)); cbn [orb];
        [now rewrite orb_true_r | reflexivity].
Qed.

(** The list the loop over [toPorts] visits. *)
Lemma to_ports_iterated (section : yaml) :
  Signals.is_map section = true ->
  Signals.list_or_falsy (Signals.field "toPorts" section) = true ->
  (tpv <- Py.get_or section "toPorts" (YSeq []) ;; Py.iter (Py.or_ tpv (YSeq [])))%out
  = Ok (Signals.to_ports section).
Proof.
  destruct section; try discriminate. intros _.
  unfold Signals.to_ports, Signals.field, Py.get_or. simpl.
  destruct (Py.lookup "toPorts" entries) as [x |]; simpl; [| reflexivity].
  unfold Py.or_. destruct x as [| b | z | s | l | m]; simpl; intros H;
    try reflexivity; try (apply negb_true_iff in H; rewrite H; reflexivity).
  destruct l; reflexivity.
Qed.

Lemma scan_sections_counts (secs : list yaml) :
  forallb Signals.section_ok secs = true ->
  forall l7 dns,
    scan_sections secs l7 dns
    = Ok (l7 || existsb (fun s => existsb Signals.populated (Signals.to_ports s)) secs,
          dns || existsb (fun s => Signals.declares_fqdns s || Signals.dns_token s) secs).
Proof.
  induction secs as [|s secs IH]; intros Hall l7 dns; simpl.
  - now rewrite !orb_false_r.
  - simpl in Hall. apply andb_true_iff in Hall. destruct Hall as [Hs Hall].
    unfold Signals.section_ok in Hs.
    apply andb_true_iff in Hs. destruct Hs as [Hs Hmaps].
    apply andb_true_iff in Hs. destruct Hs as [Hmap Hlist].
    pose proof (to_ports_iterated s Hmap Hlist) as Hit.
    destruct (Py.get_or s "toPorts" (YSeq [])) as [tpv | e]; simpl in Hit; [| discriminate].
    simpl. rewrite Hit. simpl.
    rewrite (scan_to_ports_counts _ Hmaps). simpl.
    rewrite (get_of_map s _ Hmap). simpl.
    rewrite (IH Hall). unfold Signals.declares_fqdns, Signals.dns_token.
    f_equal. f_equal.
    + now rewrite orb_assoc.
    + destruct (Py.truthy (Signals.field "toFQDNs" s)),
        (PyStr.contains "port: '53'" (safe_dump s) || PyStr.contains "port: 53" (safe_dump s)),
        dns; reflexivity.
Qed.

Lemma field_of_falsy_spec (spec : yaml) (k : string) :
  Signals.map_or_falsy spec = true ->
  Py.get (Py.or_ spec (YMap [])) k = Ok (Signals.field k spec).
Proof.
  intros H. unfold Py.or_. destruct (Signals.is_map spec) eqn:Hm.
  - destruct spec as [| | | | | m]; try discriminate.
    destruct m as [| kv m]; [reflexivity |].
    cbn [Py.truthy]. now apply get_of_map.
  - assert (Hf : Py.truthy spec = false).
    { destruct spec; try discriminate; now apply negb_true_iff in H. }
    rewrite Hf. destruct spec; try discriminate; reflexivity.
Qed.

Lemma rules_or_empty (v : yaml) :
  Signals.list_or_falsy v = true ->
  Py.or_ v (YSeq []) = YSeq (match v with YSeq l => l | _ => [] end).
Proof.
  intros H. unfold Py.or_. destruct v as [| b | z | s | l | m];
    try (apply negb_true_iff in H; rewrite H; reflexivity).
  destruct l; reflexivity.
Qed.

(** On a well-shaped document the loop computes the two signals, the L7
    one over the ingress and the egress rules together. *)
Lemma inspect_document_signals (doc : yaml) :
  Signals.well_shaped doc = true ->
  inspect_document doc = Ok (Signals.l7_signal doc, Signals.dns_signal doc).
Proof.
  unfold Signals.well_shaped. intros H.
  apply andb_true_iff in H. destruct H as [H Hsecs].
  apply andb_true_iff in H. destruct H as [H Heg].
  apply andb_true_iff in H. destruct H as [H Hin].
  apply andb_true_iff in H. destruct H as [Hmap Hspec].
  unfold inspect_document.
  rewrite (get_of_map doc "spec" Hmap). cbn [obind].
  rewrite !(field_of_falsy_spec _ _ Hspec). cbn [obind].
  rewrite (rules_or_empty _ Hin), (rules_or_empty _ Heg). cbn [Py.add Py.iter obind].
  fold (Signals.rules doc "ingress"). fold (Signals.rules doc "egress").
  fold (Signals.sections doc).
  rewrite (scan_sections_counts _ Hsecs). reflexivity.
Qed.






(** * Properties of the other tools *)

(** ** The default globs *)

Lemma match_literal (t s : string) :
  Fnmatch.match_items (map Fnmatch.Lit (PyStr.chars t)) s = String.eqb s t.
Proof.
  revert s. induction t as [|c t IH]; intros [|d s]; simpl; try reflexivity.
  rewrite IH, Ascii.eqb_sym. reflexivity.
Qed.

Lemma match_star_literal (t s : string) :
  Fnmatch.match_items (Fnmatch.Star :: map Fnmatch.Lit (PyStr.chars t)) s
  = PyText.endswith t s.
Proof.
  induction s as [|d s IH].
  - simpl. rewrite match_literal. reflexivity.
  - simpl in *. rewrite IH. rewrite match_literal. reflexivity.
Qed.

Lemma last_is_hd_rev {A : Type} (l : list A) (d : A) : last l d = hd d (rev l).
Proof.
  induction l as [|x l IH]; [reflexivity |].
  destruct l as [|y l]; [reflexivity |].
  change (last (x :: y :: l) d) with (last (y :: l) d). rewrite IH.
  simpl. destruct (rev l ++ [y]) eqn:H; [| reflexivity].
  destruct (rev l); discriminate.
Qed.

Lemma zip_all_nil_r (xs : list string) : PathMatch.zip_all xs [] = true.
Proof. destruct xs; reflexivity. Qed.

Lemma nonempty_rev {A : Type} (l : list A) : Shape.nonempty l = Shape.nonempty (rev l).
Proof.
  destruct l as [|x l]; [reflexivity |]. simpl.
  destruct (rev l ++ [x]) eqn:H; [| reflexivity].
  destruct (rev l); discriminate.
Qed.

Lemma relative_match (x : string) (p0 : string) (pt : list string) (pat : string) :
  Posix.parse pat = Posix.mkPath "" (p0 :: pt) ->
  PathMatch.match_ x pat
  = Ok (if (List.length (rev (Posix.parts (Posix.parse x))) <? S (List.length pt))%nat
        then false
        else PathMatch.zip_all (rev (Posix.parts (Posix.parse x))) (rev (p0 :: pt))).
Proof.
  intros H. unfold PathMatch.match_. rewrite H. rewrite length_rev.
  cbn [Posix.parts Posix.root Posix.tail PyStr.is_empty negb andb List.length].
  destruct (_ <? _)%nat; reflexivity.
Qed.

(** X1: The default glob of the policy tools selects the paths whose last part
    ends in [.yml] or [.yaml], in this spelling. *)
Theorem default_policy_glob_selects_by_ending :
  forall x : string,
    _matches x "**/*.{yml,yaml}"
    = Ok (PyText.endswith ".yml" (final_part x) || PyText.endswith ".yaml" (final_part x)).
Proof.
  intros x. unfold _matches.
  change (_normalize_patterns "**/*.{yml,yaml}")
    with ["**/*.yml"; "*.yml"; "**/*.yaml"; "*.yaml"].
  unfold final_part. rewrite last_is_hd_rev.
  cbn [first_match].
  rewrite (relative_match x "**" ["*.yml"] "**/*.yml" eq_refl).
  rewrite (relative_match x "*.yml" [] "*.yml" eq_refl).
  rewrite (relative_match x "**" ["*.yaml"] "**/*.yaml" eq_refl).
  rewrite (relative_match x "*.yaml" [] "*.yaml" eq_refl).
  destruct (rev (Posix.parts (Posix.parse x))) as [|a [|b r]];
    cbn [List.length Nat.ltb Nat.leb rev app PathMatch.zip_all hd];
    unfold Fnmatch.fnmatchcase;
    change (Fnmatch.translate "*.yml")
      with (Fnmatch.Star :: map Fnmatch.Lit (PyStr.chars ".yml"));
    change (Fnmatch.translate "*.yaml")
      with (Fnmatch.Star :: map Fnmatch.Lit (PyStr.chars ".yaml"));
    change (Fnmatch.translate "**") with [Fnmatch.Star];
    rewrite ?match_star_literal, ?star_matches_any, ?zip_all_nil_r, ?andb_true_r.
  - reflexivity.
  - destruct (PyText.endswith ".yml" a); [reflexivity |].
    destruct (PyText.endswith ".yaml" a); reflexivity.
  - destruct (PyText.endswith ".yml" a); [reflexivity |].
    destruct (PyText.endswith ".yaml" a); reflexivity.
Qed.

(** X2: The default glob of the search selects every path that has a part. *)
Theorem default_search_glob_selects_all :
  forall x : string,
    _matches x "**/*" = Ok (Shape.nonempty (Posix.parts (Posix.parse x))).
Proof.
  intros x. unfold _matches.
  change (_normalize_patterns "**/*") with ["**/*"; "*"].
  cbn [first_match].
  rewrite (relative_match x "**" ["*"] "**/*" eq_refl).
  rewrite (relative_match x "*" [] "*" eq_refl).
  rewrite (nonempty_rev (Posix.parts (Posix.parse x))).
  destruct (rev (Posix.parts (Posix.parse x))) as [|a [|b r]];
    cbn [List.length Nat.ltb Nat.leb rev app PathMatch.zip_all hd];
    unfold Fnmatch.fnmatchcase;
    change (Fnmatch.translate "*") with [Fnmatch.Star];
    change (Fnmatch.translate "**") with [Fnmatch.Star];
    rewrite ?star_matches_any, ?zip_all_nil_r; reflexivity.
Qed.

(** ** Hubble command lines *)

Lemma flag_nonempty (name value : string) :
  value <> "" -> flag name value = [name; value].
Proof. intros H. unfold flag. apply is_empty_false in H. now rewrite H. Qed.

(** X3: The command line is the bare ["hubble observe "], with its trailing
    space, exactly when no filter is given; a filter is reported as absent
    exactly when its argument is empty. *)
Theorem hubble_bare_command_iff_no_filter :
  forall src dst verdict : string,
    (hf_cli (hubble_filters src dst verdict) = "hubble observe "
     <-> src = "" /\ dst = "" /\ verdict = "")
    /\ (hf_from (hubble_filters src dst verdict) = None <-> src = "")
    /\ (hf_to (hubble_filters src dst verdict) = None <-> dst = "")
    /\ (hf_verdict (hubble_filters src dst verdict) = None <-> verdict = "").
Proof.
  intros src dst verdict. split; [| split; [| split]].
  - split.
    + destruct src, dst, verdict; simpl; intros H;
        try discriminate; repeat split; reflexivity.
    + intros (-> & -> & ->). reflexivity.
  - unfold hubble_filters, or_none. destruct src; simpl; split; congruence.
  - unfold hubble_filters, or_none. destruct dst; simpl; split; congruence.
  - unfold hubble_filters, or_none. destruct verdict; simpl; split; congruence.
Qed.

(** X4: The arguments are pasted into the command line as they are: a source
    that contains the text of a verdict flag gives the very command line
    of the call that passes that verdict, while the reported filters
    differ. *)
Theorem hubble_arguments_are_not_quoted :
  forall src verdict : string,
    src <> "" -> verdict <> "" ->
    hf_cli (hubble_filters (src ++ " --verdict " ++ verdict) "" "")
    = hf_cli (hubble_filters src "" verdict)
    /\ hf_verdict (hubble_filters (src ++ " --verdict " ++ verdict) "" "") = None
    /\ hf_verdict (hubble_filters src "" verdict) = Some verdict.
Proof.
  intros src verdict Hs Hv. unfold hubble_filters, hubble_args.
  rewrite (flag_nonempty "--from" src Hs), (flag_nonempty "--verdict" verdict Hv).
  assert (Hlong : (src ++ " --verdict " ++ verdict)%string <> "").
  { destruct src; [now elim Hs | discriminate]. }
  rewrite (flag_nonempty "--from" _ Hlong).
  split; [| split].
  - simpl. reflexivity.
  - simpl. unfold or_none. reflexivity.
  - simpl. unfold or_none. apply is_empty_false in Hv. now rewrite Hv.
Qed.

Lemma hubble_arguments_are_not_quoted_witness :
  hf_cli (hubble_filters "10.0.0.1 --verdict DROPPED" "" "")
  = hf_cli (hubble_filters "10.0.0.1" "" "DROPPED")
  /\ hf_verdict (hubble_filters "10.0.0.1 --verdict DROPPED" "" "") = None
  /\ hf_verdict (hubble_filters "10.0.0.1" "" "DROPPED") = Some "DROPPED".
Proof.
  apply (hubble_arguments_are_not_quoted "10.0.0.1" "DROPPED"); discriminate.
Defined.

(** ** MIME types *)

(** A code point below 128 has its last bit clear. *)
Lemma ascii_low (d : ascii) :
  nat_of_ascii d < 128 ->
  exists b0 b1 b2 b3 b4 b5 b6, d = Ascii b0 b1 b2 b3 b4 b5 b6 false.
Proof.
  destruct d as [b0 b1 b2 b3 b4 b5 b6 [|]]; intros H.
  - exfalso. destruct b0, b1, b2, b3, b4, b5, b6; vm_compute in H; lia.
  - now exists b0, b1, b2, b3, b4, b5, b6.
Qed.

(** Against a character below 128 the two ways of lowering agree: the
    Latin-1 capitals and their lower-case forms are all above. *)
Lemma lower_char_agrees (c d : ascii) :
  nat_of_ascii d < 128 ->
  Ascii.eqb (PyText.lower_char c) d = Ascii.eqb (PyStr.lower_char c) d.
Proof.
  intros H. destruct (ascii_low d H) as (b0 & b1 & b2 & b3 & b4 & b5 & b6 & ->).
  destruct c as [[|] [|] [|] [|] [|] [|] [|] [|]];
    match goal with
    | |- Ascii.eqb (PyText.lower_char ?c) _ = _ =>
        let x := eval vm_compute in (PyText.lower_char c) in
        let y := eval vm_compute in (PyStr.lower_char c) in
        change (PyText.lower_char c) with x;
        change (PyStr.lower_char c) with y
    end;
    try reflexivity;
    unfold Ascii.eqb; cbn [Bool.eqb];
    match goal with
    | |- (if ?x then false else false) = (if ?y then false else false) =>
        destruct x, y; reflexivity
    end.
Qed.

Lemma lower_agrees (s t : string) :
  Yaml.all_chars (fun d => (nat_of_ascii d <? 128)%nat) t = true ->
  String.eqb (PyText.lower s) t = String.eqb (PyStr.lower s) t.
Proof.
  revert t. induction s as [|c s IH]; intros [|d t] H; try reflexivity.
  simpl in H. apply andb_true_iff in H. destruct H as [Hd Ht].
  apply Nat.ltb_lt in Hd. simpl.
  now rewrite (lower_char_agrees c d Hd), (IH t Ht).
Qed.

Lemma lower_char_idempotent (c : ascii) :
  PyText.lower_char (PyText.lower_char c) = PyText.lower_char c.
Proof. destruct c as [[|] [|] [|] [|] [|] [|] [|] [|]]; vm_compute; reflexivity. Qed.

Lemma lower_idempotent (s : string) : PyText.lower (PyText.lower s) = PyText.lower s.
Proof.
  induction s as [|c s IH]; [reflexivity |]. simpl.
  now rewrite lower_char_idempotent, IH.
Qed.

(** X5: The MIME type is [application/yaml] exactly for the files whose suffix
    the policy tools accept as YAML, and the guess does not depend on the
    case of the extension. *)
Theorem guess_mime_yaml_iff_policy_suffix :
  (forall p : Posix.PurePosixPath,
     _guess_mime (Posix.suffix p) = Some "application/yaml" <-> yaml_suffix p = true)
  /\ (forall ext : string, _guess_mime (PyText.lower ext) = _guess_mime ext).
Proof.
  split.
  - intros p. unfold _guess_mime, yaml_suffix. cbn [dict_get existsb].
    rewrite !lower_agrees by reflexivity.
    set (e := PyStr.lower (Posix.suffix p)).
    destruct (String.eqb_spec e ".txt") as [-> | _]; [split; discriminate |].
    destruct (String.eqb_spec e ".md") as [-> | _]; [split; discriminate |].
    destruct (String.eqb_spec e ".json") as [-> | _]; [split; discriminate |].
    destruct (String.eqb_spec e ".csv") as [-> | _]; [split; discriminate |].
    destruct (String.eqb e ".yaml"); [split; reflexivity |].
    destruct (String.eqb e ".yml"); [split; reflexivity |].
    split; discriminate.
  - intros ext. unfold _guess_mime. now rewrite lower_idempotent.
Qed.

(** ** Patterns with more than one brace group *)

Lemma split_not_nil (c : ascii) (s : string) : PyStr.split c s <> [].
Proof.
  induction s as [|d s IH]; simpl; [discriminate |].
  destruct (Ascii.eqb d c); [discriminate |].
  destruct (PyStr.split c s); discriminate.
Qed.

(** X6: Only the first brace group is expanded: whatever follows its closing
    brace, further groups included, is copied into every expansion, and
    the alternatives are the comma-separated pieces of the text between
    the first opening brace and the first closing brace after it. *)
Theorem expand_first_group_only :
  forall pre inner post : string,
    PyStr.has_char "{" pre = false ->
    PyStr.has_char "}" inner = false ->
    _expand_brace_patterns (pre ++ "{" ++ inner ++ "}" ++ post)
    = map (fun opt => (pre ++ opt ++ post)%string) (PyStr.split "," inner)
    /\ _expand_brace_patterns (pre ++ "{" ++ inner ++ "}" ++ post) <> []
    /\ (PyStr.has_char "{" post = true ->
        Forall (fun e => PyStr.has_char "{" e = true)
               (_normalize_patterns (pre ++ "{" ++ inner ++ "}" ++ post))).
Proof.
  intros pre inner post Hpre Hinner.
  assert (Heq : _expand_brace_patterns (pre ++ "{" ++ inner ++ "}" ++ post)
                = map (fun opt => (pre ++ opt ++ post)%string) (PyStr.split "," inner)).
  { unfold _expand_brace_patterns.
    rewrite !has_char_app. simpl (PyStr.has_char "{" "{").
    replace (PyStr.has_char "}" (inner ++ "}" ++ post)) with true
      by (rewrite !has_char_app; simpl; now rewrite orb_true_r).
    rewrite !orb_true_r. simpl negb. simpl orb. cbv iota.
    change (pre ++ "{" ++ inner ++ "}" ++ post)%string
      with (pre ++ String "{" (inner ++ "}" ++ post))%string.
    rewrite (partition_at_first _ _ _ Hpre).
    change (inner ++ "}" ++ post)%string with (inner ++ String "}" post)%string.
    rewrite (partition_at_first _ _ _ Hinner). reflexivity. }
  split; [exact Heq |]. split.
  - rewrite Heq. intros H. apply map_eq_nil in H. now apply split_not_nil in H.
  - intros Hpost. unfold _normalize_patterns. rewrite Heq.
    apply Forall_forall. intros e He.
    apply in_flat_map in He. destruct He as (pat & Hpat & He).
    apply in_map_iff in Hpat. destruct Hpat as (opt & <- & _).
    assert (Hfull : PyStr.has_char "{" (pre ++ opt ++ post) = true).
    { rewrite !has_char_app, Hpost. now rewrite !orb_true_r. }
    destruct (PyStr.startswith "**/" (pre ++ opt ++ post)) eqn:Hs.
    + destruct He as [<- | [<- | []]]; [exact Hfull |].
      apply startswith_app in Hs. simpl String.length in Hs.
      rewrite Hs in Hfull. exact Hfull.
    + destruct He as [<- | []]. exact Hfull.
Qed.

Lemma expand_first_group_only_witness :
  _expand_brace_patterns "{a,b}/{c,d}" = ["a/{c,d}"; "b/{c,d}"]
  /\ _expand_brace_patterns "{a,b}/{c,d}" <> []
  /\ (PyStr.has_char "{" "/{c,d}" = true ->
      Forall (fun e => PyStr.has_char "{" e = true) (_normalize_patterns "{a,b}/{c,d}")).
Proof.
  apply (expand_first_group_only "" "a,b" "/{c,d}"); reflexivity.
Defined.

(** ** Listing files *)

Lemma relative_paths_spec (w : World) (ps : list Posix.PurePosixPath) (rels : list string) :
  relative_paths w ps = Ok rels
  <-> Forall2 (fun p rel => relative_posix w p = Ok rel) ps rels.
Proof.
  revert rels. induction ps as [|p ps IH]; intros rels; simpl.
  - split.
    + intros H. injection H as <-. constructor.
    + intros H. inversion H. reflexivity.
  - destruct (relative_posix w p) as [rel | e] eqn:Hp; simpl.
    + destruct (relative_paths w ps) as [rs | e] eqn:Hps; simpl.
      * split.
        -- intros H. injection H as <-. constructor; [exact Hp | now apply IH].
        -- intros H. inversion H as [|? r ? rs' Hr Hrs]; subst.
           apply IH in Hrs. congruence.
      * split; [discriminate |].
        intros H. inversion H as [|? r ? rs' Hr Hrs]; subst.
        apply IH in Hrs. discriminate.
    + split; [discriminate |].
      intros H. inversion H; subst. congruence.
Qed.

Lemma keep_matching_filter (pat : string) (files kept : list string) :
  keep_matching pat files = Ok kept -> kept = filter (accepted pat) files.
Proof.
  revert kept. induction files as [|f files IH]; intros kept; simpl.
  - intros H. now injection H as <-.
  - unfold accepted at 1.
    destruct (_matches f pat) as [m | e]; simpl; [| discriminate].
    destruct (keep_matching pat files) as [k | e]; simpl; [| discriminate].
    intros H. injection H as <-. rewrite (IH k eq_refl). now destruct m.
Qed.

Lemma filter_subsequence {A : Type} (f : A -> bool) (l : list A) :
  subsequence (filter f l) l.
Proof.
  induction l as [|x l IH]; simpl; [constructor |].
  destruct (f x); now constructor.
Qed.

(** X7: Without a pattern, or with the empty pattern, [list_files] returns the
    relative path of every file, in the order of the listing; with a
    pattern it returns, in the same order, exactly those of them that
    [_matches] accepts. *)
Theorem list_files_keeps_the_accepted_paths :
  forall w : World,
    (forall all : list string,
       list_files w None = Ok all
       <-> Forall2 (fun p rel => relative_posix w p = Ok rel) (_iter_files w) all)
    /\ list_files w (Some "") = list_files w None
    /\ (forall (pattern : string) (kept : list string),
          pattern <> "" ->
          list_files w (Some pattern) = Ok kept ->
          exists all,
            list_files w None = Ok all
            /\ kept = filter (accepted pattern) all
            /\ subsequence kept all).
Proof.
  intros w. split; [| split].
  - intros all. unfold list_files. rewrite <- relative_paths_spec.
    destruct (relative_paths w (_iter_files w)); simpl; reflexivity.
  - reflexivity.
  - intros pattern kept Hne H. unfold list_files in *.
    apply is_empty_false in Hne. rewrite Hne in H.
    destruct (relative_paths w (_iter_files w)) as [all | e]; simpl in *; [| discriminate].
    exists all. split; [reflexivity |].
    apply keep_matching_filter in H. subst kept.
    split; [reflexivity | apply filter_subsequence].
Qed.

Lemma list_files_keeps_the_accepted_paths_witness :
  exists all,
    list_files Sample.world None = Ok all
    /\ ["fqdn-a.yaml"; "ports.yaml"; "broken.yaml"] = filter (accepted "*.yaml") all
    /\ subsequence ["fqdn-a.yaml"; "ports.yaml"; "broken.yaml"] all.
Proof.
  apply (proj2 (proj2 (list_files_keeps_the_accepted_paths Sample.world)) "*.yaml").
  - discriminate.
  - vm_compute. reflexivity.
Defined.

(** ** The policies listed and the policies counted *)

(** A turn of the checklist that returns is a turn of the listing that
    returns, with the same reads and the paths of the same rows. *)
Lemma list_policy_file_follows_scan (w : World) (g : string) (acc acc' : stats * list detail)
    (p : Posix.PurePosixPath) (log log' : list Posix.PurePosixPath) :
  scan_file w g acc p log = (Ok acc', log') ->
  list_policy_file w g (map d_path (snd acc)) p log = (Ok (map d_path (snd acc')), log').
Proof.
  unfold scan_file, list_policy_file, io_bind, io_lift, io_ret, io_try,
    fp_read_text, yaml_safe_load.
  destruct (relative_posix w p) as [rel | e]; simpl; [| discriminate].
  destruct (selected rel g) as [[|] | e]; simpl; try discriminate;
    [| intros H; now injection H as <- <-].
  destruct (yaml_suffix p); simpl; [| intros H; now injection H as <- <-].
  destruct (read_text_file w p) as [e | text]; simpl;
    [intros H; now injection H as <- <- |].
  destruct (safe_load w text) as [doc |]; simpl; [| intros H; now injection H as <- <-].
  destruct doc; simpl; try (intros H; now injection H as <- <-).
  destruct (Py.lookup "kind" entries) as [kind |]; simpl;
    [| intros H; now injection H as <- <-].
  destruct kind; simpl; try discriminate; try (intros H; now injection H as <- <-).
  match goal with |- context [negb ?b] => destruct b end; simpl;
    [| intros H; now injection H as <- <-].
  destruct (inspect_document (YMap entries)) as [[l7 dns] | e]; simpl; [| discriminate].
  intros H. injection H as <- <-. simpl. now rewrite map_app.
Qed.

Lemma list_policy_files_follow_scan (w : World) (g : string) (ps : list Posix.PurePosixPath) :
  forall (acc r : stats * list detail) (log log' : list Posix.PurePosixPath),
    scan_files w g acc ps log = (Ok r, log') ->
    list_policy_files w g (map d_path (snd acc)) ps log = (Ok (map d_path (snd r)), log').
Proof.
  induction ps as [|p ps IH]; intros acc r log log' H; simpl in *.
  - unfold io_ret in *. now injection H as <- <-.
  - unfold io_bind in *.
    destruct (scan_file w g acc p log) as [[acc' | e] log1] eqn:Hs; [| discriminate].
    rewrite (list_policy_file_follows_scan w g acc acc' p log log1 Hs).
    now apply IH.
Qed.

(** X8: Whenever the checklist returns, [list_cilium_policies] with the same
    glob returns the paths of its detail rows, in the same order and after
    the same reads, and their number is the checklist's total. *)
Theorem listed_policies_are_the_counted_ones :
  forall (w : World) (path_glob : string) (log log' : list Posix.PurePosixPath)
         (st : stats) (details : list detail),
    zero_trust_checklist w path_glob log = (Ok (st, details), log') ->
    list_cilium_policies w path_glob log = (Ok (map d_path details), log')
    /\ Z.of_nat (List.length (map d_path details)) = total st.
Proof.
  intros w g log log' st details H. unfold zero_trust_checklist in H. split.
  - apply (list_policy_files_follow_scan w g _ _ _ _ _ H).
  - destruct (scan_files_invariant w g (_iter_files w) [] _ _ _ _ H) as [Hc _].
    + unfold consistent. simpl. lia.
    + exists []. split; constructor.
    + unfold consistent in Hc. simpl in Hc. rewrite length_map. lia.
Qed.

Lemma listed_policies_are_the_counted_ones_witness :
  list_cilium_policies Sample.world "**/*.{yml,yaml}" []
  = (Ok ["fqdn-a.yaml"; "team/fqdn-b.yml"; "ports.yaml"],
     map (fun f => Posix.mkPath "/" (fst f)) (firstn 4 Sample.contents))
  /\ Z.of_nat (List.length ["fqdn-a.yaml"; "team/fqdn-b.yml"; "ports.yaml"]) = 3%Z.
Proof.
  apply (listed_policies_are_the_counted_ones Sample.world "**/*.{yml,yaml}" [] _
           (mkStats 3 3 0 1 2)
           [mkDetail "fqdn-a.yaml" "CiliumNetworkPolicy" false true;
            mkDetail "team/fqdn-b.yml" "CiliumNetworkPolicy" false true;
            mkDetail "ports.yaml" "CiliumNetworkPolicy" true false]).
  vm_compute. reflexivity.
Defined.

(** One turn of the listing leaves the hits as they are or adds the
    relative path of a file the glob selects. *)
Lemma list_policy_file_step (w : World) (g : string) (hits hits' : list string)
    (p : Posix.PurePosixPath) (log log' : list Posix.PurePosixPath) :
  list_policy_file w g hits p log = (Ok hits', log') ->
  exists rel b,
    relative_posix w p = Ok rel /\ selected rel g = Ok b
    /\ (hits' = hits \/ (b = true /\ hits' = hits ++ [rel])).
Proof.
  unfold list_policy_file, io_bind, io_lift, io_ret, io_try, fp_read_text, yaml_safe_load.
  destruct (relative_posix w p) as [rel | e] eqn:Hrel; simpl; [| discriminate].
  destruct (selected rel g) as [b | e] eqn:Hsel; simpl; [| discriminate].
  intros H. exists rel, b. split; [reflexivity |]. split; [exact Hsel |].
  destruct b; simpl in H; [| injection H as <- <-; now left].
  split_scan H; try discriminate; injection H as <- <-; auto.
Qed.

Lemma listed_within_selected (w : World) (g : string) (ps : list Posix.PurePosixPath) :
  forall (hits0 hits : list string) (log log' : list Posix.PurePosixPath),
    list_policy_files w g hits0 ps log = (Ok hits, log') ->
    exists rels kept new,
      relative_paths w ps = Ok rels
      /\ (if PyStr.is_empty g then Ok rels else keep_matching g rels) = Ok kept
      /\ hits = hits0 ++ new
      /\ subsequence new kept.
Proof.
  induction ps as [|p ps IH]; intros hits0 hits log log' H; simpl in H.
  - unfold io_ret in H. injection H as <- <-.
    exists [], [], []. simpl. rewrite app_nil_r.
    repeat split; [now destruct (PyStr.is_empty g) | constructor].
  - unfold io_bind in H.
    destruct (list_policy_file w g hits0 p log) as [[hits1 | e] log1] eqn:Hp; [| discriminate].
    destruct (list_policy_file_step _ _ _ _ _ _ _ Hp) as (rel & b & Hrel & Hsel & Hstep).
    destruct (IH _ _ _ _ H) as (rels & kept & new & Hrels & Hkept & -> & Hsub).
    simpl. rewrite Hrel, Hrels. simpl.
    unfold selected in Hsel.
    destruct (PyStr.is_empty g).
    + injection Hkept as <-.
      exists (rel :: rels), (rel :: rels).
      destruct Hstep as [-> | [_ ->]].
      * exists new. repeat split. now constructor.
      * exists (rel :: new). rewrite <- app_assoc. repeat split. now constructor.
    + assert (Hk : keep_matching g (rel :: rels) = Ok (if b then rel :: kept else kept)).
      { simpl. now rewrite Hsel, Hkept. }
      exists (rel :: rels), (if b then rel :: kept else kept).
      destruct Hstep as [-> | [-> ->]].
      * exists new. repeat split; [exact Hk |].
        destruct b; [now constructor | exact Hsub].
      * exists (rel :: new). rewrite <- app_assoc. repeat split; [exact Hk |].
        now constructor.
Qed.

(** X9: Whenever [list_cilium_policies] returns, [list_files] with the same
    glob returns too, and the policies are some of its paths, in its
    order. *)
Theorem listed_policies_are_listed_files :
  forall (w : World) (path_glob : string) (log log' : list Posix.PurePosixPath)
         (hits : list string),
    list_cilium_policies w path_glob log = (Ok hits, log') ->
    exists files,
      list_files w (Some path_glob) = Ok files /\ subsequence hits files.
Proof.
  intros w g log log' hits H. unfold list_cilium_policies in H.
  destruct (listed_within_selected w g _ _ _ _ _ H)
    as (rels & kept & new & Hrels & Hkept & -> & Hsub).
  exists kept. unfold list_files. rewrite Hrels. simpl. split; assumption.
Qed.

Lemma listed_policies_are_listed_files_witness :
  exists files,
    list_files Sample.world (Some "**/*.{yml,yaml}") = Ok files
    /\ subsequence ["fqdn-a.yaml"; "team/fqdn-b.yml"; "ports.yaml"] files.
Proof.
  apply (listed_policies_are_listed_files Sample.world "**/*.{yml,yaml}" []
           (map (fun f => Posix.mkPath "/" (fst f)) (firstn 4 Sample.contents))).
  vm_compute. reflexivity.
Defined.

(** ** Searching *)

Lemma contains_empty (s : string) : PyStr.contains "" s = true.
Proof. destruct s; reflexivity. Qed.

(** The hits of one file: its lines that contain the query, numbered from
    the first number on. *)
Lemma matching_lines_spec (q rel : string) (lines : list string) :
  forall (i : nat) (h : hit),
    In h (matching_lines q rel i lines)
    <-> h_path h = rel
        /\ i <= h_line_no h
        /\ nth_error lines (h_line_no h - i) = Some (h_line h)
        /\ PyStr.contains q (PyText.lower (h_line h)) = true.
Proof.
  induction lines as [|line rest IH]; intros i h; simpl.
  - split; [contradiction |]. intros (_ & _ & H & _). now destruct (h_line_no h - i).
  - rewrite in_app_iff, IH. split.
    + intros [Hhere | (Hp & Hi & Hn & Hc)].
      * destruct (PyStr.contains q (PyText.lower line)) eqn:Hc; [| contradiction].
        destruct Hhere as [<- | []]. simpl. rewrite Nat.sub_diag. auto.
      * repeat split; [exact Hp | lia | | exact Hc].
        replace (h_line_no h - i) with (S (h_line_no h - S i)) by lia. exact Hn.
    + intros (Hp & Hi & Hn & Hc).
      destruct (Nat.eq_dec (h_line_no h) i) as [Heq | Hneq].
      * left. rewrite Heq, Nat.sub_diag in Hn. simpl in Hn. injection Hn as ->.
        rewrite Hc. left. destruct h as [hp hn hl]. simpl in *. congruence.
      * right. repeat split; [exact Hp | lia | | exact Hc].
        replace (h_line_no h - i) with (S (h_line_no h - S i)) in Hn by lia. exact Hn.
Qed.

Lemma search_file_step (w : World) (q g : string) (res res' : list hit)
    (p : Posix.PurePosixPath) (log log' : list Posix.PurePosixPath) :
  search_file w q g res p log = (Ok res', log') ->
  forall h, In h res' <-> In h res \/ found_in w q g p h.
Proof.
  unfold search_file, io_bind, io_lift, io_ret, io_try, fp_read_text, found_in.
  destruct (relative_posix w p) as [rel | e] eqn:Hrel; simpl; [| discriminate].
  destruct (selected rel g) as [[|] | e] eqn:Hsel; simpl; try discriminate.
  - destruct (read_text_file w p) as [e | text] eqn:Hread; simpl;
      intros H h; injection H as <- <-.
    + split; [now left |]. intros [Hin | (text & _ & _ & Ht & _)]; [exact Hin | discriminate].
    + rewrite in_app_iff, matching_lines_spec. split.
      * intros [Hin | (Hp & Hi & Hn & Hc)]; [now left |]. right.
        exists text. rewrite Hp. auto 10.
      * intros [Hin | (t & Hp & Hs & Ht & Hi & Hn & Hc)]; [now left |]. right.
        injection Ht as <-. injection Hp as <-. auto.
  - intros H h. injection H as <- <-.
    split; [now left |]. intros [Hin | (text & Hp & Hs & _)]; [exact Hin |].
    injection Hp as Hp. rewrite <- Hp in Hs. congruence.
Qed.

Lemma search_files_spec (w : World) (q g : string) (ps : list Posix.PurePosixPath) :
  forall (res hits : list hit) (log log' : list Posix.PurePosixPath),
    search_files w q g res ps log = (Ok hits, log') ->
    forall h, In h hits <-> In h res \/ exists p, In p ps /\ found_in w q g p h.
Proof.
  induction ps as [|p ps IH]; intros res hits log log' H h; simpl in H.
  - unfold io_ret in H. injection H as <- <-.
    split; [now left |]. intros [Hin | (p & [] & _)]. exact Hin.
  - unfold io_bind in H.
    destruct (search_file w q g res p log) as [[res1 | e] log1] eqn:Hp; [| discriminate].
    rewrite (IH _ _ _ _ H h), (search_file_step _ _ _ _ _ _ _ _ Hp h). split.
    + intros [[Hin | Hf] | (p' & Hin & Hf)]; [now left | |].
      * right. exists p. split; [now left | exact Hf].
      * right. exists p'. split; [now right | exact Hf].
    + intros [Hin | (p' & [<- | Hin] & Hf)]; [now left; left | now left; right |].
      right. now exists p'.
Qed.

(** X10: Whenever the search returns, its hits are exactly the lines, numbered
    from 1, of the files that the glob selects and that can be read, whose
    lower-case form contains the lower-case query; a file that cannot be
    read contributes nothing, and the empty query is contained in every
    line. *)
Theorem search_hits_are_the_matching_lines :
  (forall (w : World) (query path_glob : string) (log log' : list Posix.PurePosixPath)
          (hits : list hit),
     search_text w query path_glob log = (Ok hits, log') ->
     forall h : hit,
       In h hits
       <-> exists p, In p (_iter_files w) /\ found_in w (PyText.lower query) path_glob p h)
  /\ (forall line : string, PyStr.contains (PyText.lower "") (PyText.lower line) = true).
Proof.
  split.
  - intros w query g log log' hits H h. unfold search_text in H.
    rewrite (search_files_spec _ _ _ _ _ _ _ _ H h). split.
    + intros [[] | Hex]. exact Hex.
    + intros Hex. now right.
  - intros line. apply contains_empty.
Qed.

Lemma search_hits_are_the_matching_lines_witness :
  exists hits log',
    search_text Sample.world "PORT" "**/*.txt" [] = (Ok hits, log')
    /\ hits = [mkHit "notes.txt" 1 "port: 53"]
    /\ forall h : hit,
         In h hits
         <-> exists p, In p (_iter_files Sample.world)
                       /\ found_in Sample.world (PyText.lower "PORT") "**/*.txt" p h.
Proof.
  do 2 eexists. split; [vm_compute; reflexivity |]. split; [reflexivity |].
  apply (proj1 search_hits_are_the_matching_lines Sample.world "PORT" "**/*.txt" []
               [Posix.mkPath "/" ["data"; "notes.txt"]]).
  vm_compute. reflexivity.
Defined.

(** ** Paths written out and read back *)

Lemma component_spec (c : string) :
  Normal.component c = true
  <-> Posix.keep_component c = true /\ PyStr.has_char "/" c = false.
Proof.
  unfold Normal.component. rewrite andb_true_iff, negb_true_iff. reflexivity.
Qed.

Lemma filter_keeps_components (l : list string) :
  forallb Normal.component l = true -> filter Posix.keep_component l = l.
Proof.
  induction l as [|c l IH]; simpl; [reflexivity |].
  intros H. apply andb_true_iff in H. destruct H as [Hc Hl].
  apply component_spec in Hc. destruct Hc as [-> _]. now rewrite (IH Hl).
Qed.

Lemma components_without_slash (l : list string) :
  forallb Normal.component l = true ->
  forallb (fun c => negb (PyStr.has_char "/" c)) l = true.
Proof.
  induction l as [|c l IH]; simpl; [reflexivity |].
  intros H. apply andb_true_iff in H. destruct H as [Hc Hl].
  apply component_spec in Hc. destruct Hc as [_ ->]. now rewrite (IH Hl).
Qed.

(** The components joined by ['/'] start with the first character of the
    first component, which is not a separator. *)
Lemma join_components_head (c : string) (l : list string) :
  forallb Normal.component (c :: l) = true ->
  exists a rest, PyStr.join "/" (c :: l) = String a rest /\ a <> "/"%char.
Proof.
  simpl. intros H. apply andb_true_iff in H. destruct H as [Hc _].
  apply component_spec in Hc. destruct Hc as [Hk Hs].
  destruct c as [|a c']; [discriminate |].
  exists a. simpl in Hs. apply orb_false_iff in Hs. destruct Hs as [Ha _].
  destruct l as [|d l].
  - exists c'. split; [reflexivity |]. intros ->. discriminate.
  - eexists. split; [reflexivity |]. intros ->. discriminate.
Qed.

Lemma split_join_components (l : list string) :
  l <> [] -> forallb Normal.component l = true ->
  filter Posix.keep_component (PyStr.split "/" (PyStr.join "/" l)) = l.
Proof.
  intros Hne H.
  rewrite (split_join "/" l Hne (components_without_slash l H)).
  now apply filter_keeps_components.
Qed.

Lemma lstrip_not_slash (a : ascii) (s : string) :
  a <> "/"%char -> Posix.lstrip_slash (String a s) = String a s.
Proof.
  intros Ha. simpl.
  destruct a as [[] [] [] [] [] [] [] []]; try reflexivity. now elim Ha.
Qed.

(** [PurePosixPath(str(p)) == p] for a path as the parser leaves it. *)
Lemma parse_as_posix (p : Posix.PurePosixPath) :
  Normal.path p = true -> Posix.parse (Posix.as_posix p) = p.
Proof.
  destruct p as [r t]. unfold Normal.path, Normal.known_root. simpl.
  intros H. apply andb_true_iff in H. destruct H as [Hr Ht].
  assert (Hroot : r = "" \/ r = "/" \/ r = "//").
  { destruct (String.eqb_spec r "") as [H0 | _]; [now left |].
    destruct (String.eqb_spec r "/") as [H1 | _]; [now right; left |].
    destruct (String.eqb_spec r "//") as [H2 | _]; [now right; right | discriminate]. }
  clear Hr.
  destruct t as [|c l].
  - destruct Hroot as [-> | [-> | ->]]; reflexivity.
  - unfold Posix.as_posix. cbn [Posix.tail Posix.root].
    destruct (join_components_head c l Ht) as (a & rest & Hj & Ha).
    pose proof (split_join_components (c :: l) ltac:(discriminate) Ht) as Hs.
    destruct Hroot as [-> | [-> | ->]].
    + change ("" ++ PyStr.join "/" (c :: l))%string with (PyStr.join "/" (c :: l)).
      rewrite parse_relative; [now rewrite Hs |].
      rewrite Hj. cbn [PyStr.startswith].
      destruct (Ascii.eqb_spec "/" a) as [<- | _]; [now elim Ha | reflexivity].
    + unfold Posix.parse, Posix.splitroot.
      change ("/" ++ PyStr.join "/" (c :: l))%string
        with (String "/" (PyStr.join "/" (c :: l))).
      cbn [Posix.lstrip_slash]. rewrite Hj, (lstrip_not_slash a rest Ha), <- Hj.
      replace (String.length (String "/" (PyStr.join "/" (c :: l)))
               - String.length (PyStr.join "/" (c :: l))) with 1
        by (cbn [String.length]; lia).
      cbn [Nat.eqb]. now rewrite Hs.
    + unfold Posix.parse, Posix.splitroot.
      change ("//" ++ PyStr.join "/" (c :: l))%string
        with (String "/" (String "/" (PyStr.join "/" (c :: l)))).
      cbn [Posix.lstrip_slash]. rewrite Hj, (lstrip_not_slash a rest Ha), <- Hj.
      replace (String.length (String "/" (String "/" (PyStr.join "/" (c :: l))))
               - String.length (PyStr.join "/" (c :: l))) with 2
        by (cbn [String.length]; lia).
      cbn [Nat.eqb]. now rewrite Hs.
Qed.

(** ** Reading a resource *)

Lemma startswith_prefix (p s : string) : PyStr.startswith p (p ++ s) = true.
Proof. induction p as [|a p IH]; simpl; [reflexivity |]. now rewrite Ascii.eqb_refl. Qed.

Lemma drop_prefix (p s : string) : PyStr.drop (String.length p) (p ++ s) = s.
Proof. induction p as [|a p IH]; simpl; [now destruct s | exact IH]. Qed.

Lemma read_resource_of_path (w : World) (p : Posix.PurePosixPath)
    (log : list Posix.PurePosixPath) :
  Normal.path p = true ->
  read_resource w ("file://" ++ Posix.as_posix p) log
  = (match read_text_file w p with
     | inr text => Ok [mkTextContent "text" text]
     | inl e => Raise (ReadFailed e)
     end, log ++ [p]).
Proof.
  intros Hp. unfold read_resource.
  rewrite startswith_prefix, drop_prefix, (parse_as_posix p Hp). cbn [negb].
  unfold io_bind, fp_read_text, io_ret.
  destruct (read_text_file w p); reflexivity.
Qed.

(** X11: [read_resource] is not confined to the data directory: a URI without
    the [file://] scheme is refused before any read, and otherwise the file
    the URI names is read as it is named - so an absolute path outside the
    data directory, which [read_text] refuses with [AccessDenied], is read
    and returned by [read_resource]. *)
Theorem read_resource_is_not_confined :
  (forall (w : World) (uri : string) (log : list Posix.PurePosixPath),
     PyStr.startswith "file://" uri = false ->
     read_resource w uri log
     = (Raise (ValueError "Only file:// URIs are supported"), log))
  /\ (forall (w : World) (p : Posix.PurePosixPath) (text : string)
             (log : list Posix.PurePosixPath),
        Normal.path p = true ->
        Posix.root p <> "" ->
        Posix.root (DEFAULT_DATA_DIR w) <> "" ->
        resolve w p = p ->
        ~ Sandbox.under (DEFAULT_DATA_DIR w) p ->
        read_text_file w p = inr text ->
        read_text w (Posix.as_posix p) log = (Raise (AccessDenied p), log)
        /\ read_resource w ("file://" ++ Posix.as_posix p) log
           = (Ok [mkTextContent "text" text], log ++ [p])).
Proof.
  split.
  - intros w uri log H. unfold read_resource. now rewrite H.
  - intros w p text log Hp Hroot Hbase Hres Hout Hread. split.
    + unfold read_text, io_bind, io_lift, Posix.joinpath.
      rewrite (parse_as_posix p Hp).
      apply is_empty_false in Hroot. rewrite Hroot, Hres.
      destruct (enforce_under_spec p (DEFAULT_DATA_DIR w) Hbase) as [[Hu _] | [_ ->]];
        [contradiction | reflexivity].
    + rewrite (read_resource_of_path w p log Hp), Hread. reflexivity.
Qed.

Lemma read_resource_is_not_confined_witness :
  read_text (served_from Sample.world (Posix.mkPath "/" ["data"; "team"]))
            "/data/notes.txt" []
  = (Raise (AccessDenied (Posix.mkPath "/" ["data"; "notes.txt"])), [])
  /\ read_resource (served_from Sample.world (Posix.mkPath "/" ["data"; "team"]))
                   "file:///data/notes.txt" []
     = (Ok [mkTextContent "text" "port: 53"], [Posix.mkPath "/" ["data"; "notes.txt"]]).
Proof.
  apply (proj2 read_resource_is_not_confined
               (served_from Sample.world (Posix.mkPath "/" ["data"; "team"]))
               (Posix.mkPath "/" ["data"; "notes.txt"]) "port: 53" []).
  - reflexivity.
  - discriminate.
  - discriminate.
  - reflexivity.
  - intros [rest H]. simpl in H. discriminate.
  - reflexivity.
Defined.

(** ** Reading what was listed *)

Lemma forallb_skipn {A : Type} (f : A -> bool) (n : nat) (l : list A) :
  forallb f l = true -> forallb f (skipn n l) = true.
Proof.
  revert l. induction n as [|n IH]; intros [|x l] H; simpl; try reflexivity; try exact H.
  simpl in H. apply andb_true_iff in H. now apply IH.
Qed.

(** The relative path of a file under an absolute data directory, joined
    to the data directory again, is the file. *)
Lemma relative_round_trip (w : World) (p : Posix.PurePosixPath) (rel : string) :
  Posix.root (DEFAULT_DATA_DIR w) <> "" ->
  Normal.path p = true ->
  relative_posix w p = Ok rel ->
  Posix.joinpath (DEFAULT_DATA_DIR w) rel = p.
Proof.
  intros Hbase Hp Hrel. unfold relative_posix, Posix.relative_to in Hrel.
  set (base := DEFAULT_DATA_DIR w) in *.
  assert (Hb : Posix.abs_parts base = "" :: Posix.root base :: Posix.tail base).
  { unfold Posix.abs_parts. apply is_empty_false in Hbase. now rewrite Hbase. }
  rewrite Hb in Hrel. cbn [List.length Nat.eqb] in Hrel.
  destruct (Posix.list_eqb _ _) eqn:Heq; simpl in Hrel; [| discriminate].
  injection Hrel as <-.
  apply list_eqb_eq in Heq.
  unfold Normal.path in Hp. apply andb_true_iff in Hp. destruct Hp as [_ Ht].
  destruct p as [r t]. unfold Posix.abs_parts in *. cbn [Posix.root Posix.tail] in *.
  destruct (PyStr.is_empty r) eqn:Hr.
  - exfalso. destruct t as [|c t]; [discriminate |].
    simpl in Heq. injection Heq as -> _. discriminate.
  - cbn [firstn skipn] in *. injection Heq as Hr0 Heq. subst r.
    assert (Hsplit : t = Posix.tail base ++ skipn (List.length (Posix.tail base)) t).
    { rewrite <- Heq at 1. symmetry. apply firstn_skipn. }
    set (rest := skipn (List.length (Posix.tail base)) t) in *.
    assert (Hrest : Normal.path (Posix.mkPath "" rest) = true).
    { unfold Normal.path. simpl. now apply forallb_skipn. }
    unfold Posix.joinpath. rewrite (parse_as_posix _ Hrest). simpl.
    now rewrite <- Hsplit.
Qed.

Lemma relative_paths_in (w : World) (ps : list Posix.PurePosixPath) (rels : list string) :
  relative_paths w ps = Ok rels ->
  forall f, In f rels -> exists p, In p ps /\ relative_posix w p = Ok f.
Proof.
  intros H. apply relative_paths_spec in H.
  induction H as [|p rel ps rels Hp _ IH]; intros f Hin; [contradiction |].
  destruct Hin as [<- | Hin].
  - exists p. split; [now left | exact Hp].
  - destruct (IH f Hin) as (q & Hq & Hf). exists q. split; [now right | exact Hf].
Qed.

Lemma subsequence_in {A : Type} (kept all : list A) (x : A) :
  subsequence kept all -> In x kept -> In x all.
Proof.
  induction 1 as [| y kept all _ IH | y kept all _ IH]; intros Hin.
  - contradiction.
  - right. now apply IH.
  - destruct Hin as [<- | Hin]; [now left | right; now apply IH].
Qed.

(** X12: In a data directory without symbolic links (every listed file is its
    own resolution), each path that [list_files] returns names a file of
    the listing, and [read_text] on that path is not refused: it reads
    exactly that file. *)
Theorem listed_files_can_be_read :
  forall (w : World) (pattern : option string) (files : list string),
    Posix.root (DEFAULT_DATA_DIR w) <> "" ->
    (forall p, In p (_iter_files w) -> Normal.path p = true /\ resolve w p = p) ->
    list_files w pattern = Ok files ->
    forall f : string,
      In f files ->
      exists p,
        In p (_iter_files w)
        /\ relative_posix w p = Ok f
        /\ forall log, read_text w f log = fp_read_text w p log.
Proof.
  intros w pattern files Hbase Hfiles Hlist f Hin.
  assert (Hall : exists all, relative_paths w (_iter_files w) = Ok all /\ In f all).
  { unfold list_files in Hlist.
    destruct (relative_paths w (_iter_files w)) as [all | e]; simpl in Hlist; [| discriminate].
    exists all. split; [reflexivity |].
    destruct pattern as [pat |]; [| now injection Hlist as <-].
    destruct (PyStr.is_empty pat); [now injection Hlist as <- |].
    apply keep_matching_filter in Hlist. subst files.
    apply filter_In in Hin. tauto. }
  destruct Hall as (all & Hall & Hf).
  destruct (relative_paths_in w _ _ Hall f Hf) as (p & Hp & Hrel).
  exists p. split; [exact Hp |]. split; [exact Hrel |].
  intros log. destruct (Hfiles p Hp) as [Hnorm Hres].
  unfold read_text, io_bind, io_lift.
  rewrite (relative_round_trip w p f Hbase Hnorm Hrel), Hres.
  now rewrite (relative_posix_inside w p f Hrel).
Qed.

Lemma listed_files_can_be_read_witness :
  exists p,
    In p (_iter_files Sample.world)
    /\ relative_posix Sample.world p = Ok "team/fqdn-b.yml"
    /\ forall log, read_text Sample.world "team/fqdn-b.yml" log
                   = fp_read_text Sample.world p log.
Proof.
  apply (listed_files_can_be_read Sample.world (Some "**/*.yml") ["team/fqdn-b.yml"]).
  - discriminate.
  - intros p Hp. simpl in Hp.
    repeat (destruct Hp as [<- | Hp]; [split; reflexivity |]). contradiction.
  - vm_compute. reflexivity.
  - left. reflexivity.
Defined.

(** ** The shapes of a validation report *)

Lemma direction_warning_shape (present : bool) (rules : yaml) (msg : string)
    (ws : list string) :
  direction_warning present rules msg = Ok ws ->
  exists b : bool, ws = Shape.when b msg /\ (b = true -> present = true).
Proof.
  unfold direction_warning. destruct present.
  - destruct (_has_l7_ports rules) as [found | e]; simpl; [| discriminate].
    intros H. injection H as <-. exists (negb found). now destruct found.
  - intros H. injection H as <-. exists false. split; [reflexivity | discriminate].
Qed.

(** X13: A report has one of four shapes: the root is not a mapping (this one
    error and nothing else); the kind is not recognised (this one error
    and nothing else); the spec is missing (the spec error, after the name
    error if the name is missing too, and no warning or summary); or the
    checks ran - then the only possible error is the missing name, the
    summary has both flags, and the warnings are, in this order, the
    no-rules warning (only when both flags are off, and then alone), the
    ingress and the egress warning (only for a direction that is present)
    and the DNS warning (only with egress rules). *)
Theorem report_has_one_of_four_shapes :
  forall (path : string) (data : yaml) (r : report),
    validate_document path data = Ok r ->
    r_path r = path
    /\ ((r_errors r = ["YAML root must be a mapping"]
         /\ r_warnings r = [] /\ r_summary r = [] /\ r_metadata r = []
         /\ r_kind r = YNull /\ Signals.is_map data = false)
        \/ (r_errors r = ["Not a Cilium {CNP|CCNP} kind"]
            /\ r_warnings r = [] /\ r_summary r = [] /\ r_metadata r = []
            /\ in_kinds (r_kind r) = Ok false)
        \/ (in_kinds (r_kind r) = Ok true
            /\ (r_errors r = ["spec is required"]
                \/ r_errors r = ["metadata.name is required"; "spec is required"])
            /\ r_warnings r = [] /\ r_summary r = [])
        \/ (in_kinds (r_kind r) = Ok true
            /\ (r_errors r = [] \/ r_errors r = ["metadata.name is required"])
            /\ exists hi he w1 w2 w3 : bool,
                 r_summary r = [("has_ingress", hi); ("has_egress", he)]
                 /\ r_warnings r
                    = Shape.when (negb hi && negb he)
                        "No ingress/egress rules present (might not enforce anything)"
                      ++ Shape.when w1 "Ingress has no L4/L7 ports (coarse allow?)"
                      ++ Shape.when w2 "Egress has no L4/L7 ports (coarse allow?)"
                      ++ Shape.when w3 "No explicit DNS egress (add kube-dns:53 or toFQDNs)"
                 /\ (w1 = true -> hi = true)
                 /\ (w2 = true -> he = true)
                 /\ (w3 = true -> he = true))).
Proof.
  intros path data r.
  unfold validate_document. intros H.
  destruct data;
    try (injection H as <-; split; [reflexivity | left; repeat split; reflexivity]).
  destruct (Py.get (YMap entries) "kind") as [kind | e]; cbn [obind negb] in H; [| discriminate].
  destruct (in_kinds kind) as [known | e] eqn:Hk; cbn [obind negb] in H; [| discriminate].
  destruct known; cbn [obind negb] in H;
    [| injection H as <-; split; [reflexivity | right; left; repeat split; try reflexivity; exact Hk]].
  destruct (Py.get_or (YMap entries) "metadata" (YMap [])) as [m0 | e];
    cbn [obind negb] in H; [| discriminate].
  destruct (Py.str_in "name" (Py.or_ m0 (YMap []))) as [named | e];
    cbn [obind negb] in H; [| discriminate].
  destruct (Py.get (Py.or_ m0 (YMap [])) "name") as [nm | e];
    cbn [obind negb] in H; [| discriminate].
  destruct (Py.get (Py.or_ m0 (YMap [])) "namespace") as [ns | e];
    cbn [obind negb] in H; [| discriminate].
  destruct (Py.get (Py.or_ m0 (YMap [])) "labels") as [lb | e];
    cbn [obind negb] in H; [| discriminate].
  destruct (Py.get (YMap entries) "spec") as [s0 | e]; cbn [obind negb] in H; [| discriminate].
  destruct (Py.truthy (Py.or_ s0 (YMap []))); cbn [obind negb] in H.
  - destruct (Py.get (Py.or_ s0 (YMap [])) "ingress") as [ing | e];
      cbn [obind negb] in H; [| discriminate].
    destruct (Py.get (Py.or_ s0 (YMap [])) "egress") as [eg | e];
      cbn [obind negb] in H; [| discriminate].
    destruct (direction_warning (Py.truthy ing) ing _) as [w1 | e] eqn:H1;
      cbn [obind negb] in H; [| discriminate].
    destruct (direction_warning (Py.truthy eg) eg _) as [w2 | e] eqn:H2;
      cbn [obind negb] in H; [| discriminate].
    apply direction_warning_shape in H1, H2.
    destruct H1 as (b1 & -> & Hb1), H2 as (b2 & -> & Hb2).
    injection H as <-. split; [reflexivity |]. right. right. right. simpl.
    split; [exact Hk |]. split; [destruct named; auto |].
    exists (Py.truthy ing), (Py.truthy eg), b1, b2.
    exists (Py.truthy eg
            && (negb (PyStr.contains "53" (safe_dump eg))
                && negb (PyStr.contains "toFQDNs" (safe_dump eg)))).
    split; [reflexivity |]. split.
    + f_equal. f_equal. f_equal. destruct (Py.truthy eg); [| reflexivity].
      simpl. now destruct (negb _ && negb _).
    + repeat split; try assumption. intros Hw. now apply andb_true_iff in Hw.
  - injection H as <-. split; [reflexivity |]. right. right. left. simpl.
    split; [exact Hk |]. split; [destruct named; auto | split; reflexivity].
Qed.

Lemma report_has_one_of_four_shapes_witness :
  exists r,
    validate_document "web.yaml" Doc.without_name = Ok r
    /\ r_path r = "web.yaml"
    /\ r_errors r = ["metadata.name is required"]
    /\ r_warnings r = ["Ingress has no L4/L7 ports (coarse allow?)"].
Proof.
  eexists. split; [reflexivity |].
  destruct (report_has_one_of_four_shapes "web.yaml" Doc.without_name _ eq_refl)
    as [Hpath _].
  split; [exact Hpath | split; reflexivity].
Defined.

(** ** The validator on well-typed documents *)

Lemma any_populated_spec (tps : list yaml) :
  forallb Signals.is_map tps = true ->
  any_populated tps = Ok (existsb Signals.populated tps).
Proof.
  induction tps as [|tp tps IH]; intros Hall; simpl; [reflexivity |].
  simpl in Hall. apply andb_true_iff in Hall. destruct Hall as [Htp Hall].
  rewrite (get_of_map tp "ports" Htp). cbn [obind]. unfold Signals.populated.
  destruct (Py.truthy (Signals.field "ports" tp)); cbn [orb]; [reflexivity |].
  rewrite (get_of_map tp "rules" Htp). cbn [obind].
  destruct (Py.truthy (Signals.field "rules" tp)); cbn [orb]; [reflexivity |].
  now apply IH.
Qed.

(** The list the validator's loop over [toPorts] visits. *)
Lemma listed_ports_iterated (rule : yaml) :
  Shape.rule_ok rule = true ->
  (tpv <- Py.get_or rule "toPorts" (YSeq []) ;; Py.iter tpv)%out
  = Ok (Signals.to_ports rule)
  /\ forallb Signals.is_map (Signals.to_ports rule) = true.
Proof.
  unfold Shape.rule_ok, Shape.ports_listed. intros H.
  apply andb_true_iff in H. destruct H as [Hmap Hports].
  destruct rule; try discriminate.
  unfold Signals.to_ports, Signals.field, Py.get_or. simpl in *.
  destruct (Py.lookup "toPorts" entries) as [x |]; simpl; [| split; reflexivity].
  destruct x; try discriminate. split; [reflexivity | exact Hports].
Qed.

Lemma has_l7_rules_spec (rules : list yaml) :
  forallb Shape.rule_ok rules = true ->
  has_l7_rules rules = Ok (Shape.has_ports rules).
Proof.
  induction rules as [|rule rules IH]; intros Hall; [reflexivity |].
  simpl in Hall. apply andb_true_iff in Hall. destruct Hall as [Hrule Hall].
  destruct (listed_ports_iterated rule Hrule) as [Hit Hmaps].
  cbn [has_l7_rules].
  destruct (Py.get_or rule "toPorts" (YSeq [])) as [tpv | e]; simpl in Hit; [| discriminate].
  cbn [obind]. rewrite Hit. cbn [obind].
  rewrite (any_populated_spec _ Hmaps). cbn [obind].
  unfold Shape.has_ports. cbn [existsb].
  destruct (existsb Signals.populated (Signals.to_ports rule)); [reflexivity |].
  now apply IH.
Qed.

Lemma direction_warning_spec (v : yaml) (msg : string) :
  Signals.list_or_falsy v = true ->
  forallb Shape.rule_ok (match v with YSeq l => l | _ => [] end) = true ->
  direction_warning (Py.truthy v) v msg
  = Ok (Shape.when (Shape.nonempty (match v with YSeq l => l | _ => [] end)
                    && negb (Shape.has_ports (match v with YSeq l => l | _ => [] end)))
                   msg).
Proof.
  intros Hl Hrules. unfold direction_warning.
  destruct v as [| b | z | s | l | m]; try reflexivity;
    try (unfold Signals.list_or_falsy in Hl; apply negb_true_iff in Hl;
         rewrite Hl; reflexivity).
  destruct l as [|rule l]; [reflexivity |].
  cbn [Py.truthy]. unfold _has_l7_ports, Py.or_. cbn [Py.truthy Py.iter obind].
  rewrite (has_l7_rules_spec _ Hrules). cbn [obind Shape.nonempty andb].
  now destruct (Shape.has_ports (rule :: l)).
Qed.

Lemma scalar_kind (v : yaml) : Shape.scalar v = true -> exists b, in_kinds v = Ok b.
Proof. destruct v; try discriminate; intros _; eexists; reflexivity. Qed.

(** The metadata the validator reads, and whether it has a name. *)
Lemma metadata_read (doc : yaml) :
  Signals.is_map doc = true ->
  Signals.map_or_falsy (Signals.field "metadata" doc) = true ->
  exists m0 m,
    Py.get_or doc "metadata" (YMap []) = Ok m0
    /\ Py.or_ m0 (YMap []) = YMap m
    /\ Py.lookup "name" m = Doc.at_path ["metadata"; "name"] doc.
Proof.
  destruct doc; try discriminate. intros _.
  unfold Signals.field, Py.get_or. simpl.
  destruct (Py.lookup "metadata" entries) as [x |]; simpl.
  - intros H. exists x. unfold Py.or_.
    destruct x as [| b | z | s | l | m]; simpl in *;
      try (apply negb_true_iff in H; rewrite H; exists []; repeat split; reflexivity).
    + exists []. repeat split; reflexivity.
    + destruct m as [|kv m]; [exists []; repeat split; reflexivity |].
      exists (kv :: m). repeat split. now destruct (Py.lookup "name" (kv :: m)).
  - intros _. exists (YMap []), []. repeat split; reflexivity.
Qed.

Lemma truthy_or_empty (v : yaml) : Py.truthy (Py.or_ v (YMap [])) = Py.truthy v.
Proof. unfold Py.or_. destruct (Py.truthy v) eqn:H; [exact H | reflexivity]. Qed.

Lemma truthy_list (v : yaml) :
  Signals.list_or_falsy v = true ->
  Py.truthy v = Shape.nonempty (match v with YSeq l => l | _ => [] end)
  /\ (Py.truthy v = true -> v = YSeq (match v with YSeq l => l | _ => [] end)).
Proof.
  destruct v as [| b | z | s | l | m]; simpl; intros H;
    try (apply negb_true_iff in H; rewrite H; split; [reflexivity | discriminate]).
  - split; [reflexivity | discriminate].
  - split; [now destruct l | reflexivity].
Qed.

Lemma validator_shaped_parts (doc : yaml) :
  Shape.validator_shaped doc = true ->
  Signals.is_map doc = true
  /\ Shape.scalar (Signals.field "kind" doc) = true
  /\ Signals.map_or_falsy (Signals.field "metadata" doc) = true
  /\ Signals.map_or_falsy (Signals.field "spec" doc) = true
  /\ Signals.list_or_falsy (Signals.field "ingress" (Signals.field "spec" doc)) = true
  /\ Signals.list_or_falsy (Signals.field "egress" (Signals.field "spec" doc)) = true
  /\ forallb Shape.rule_ok (Signals.rules doc "ingress") = true
  /\ forallb Shape.rule_ok (Signals.rules doc "egress") = true.
Proof.
  unfold Shape.validator_shaped, Signals.sections. intros H.
  repeat (apply andb_true_iff in H; destruct H as [H ?]).
  rewrite forallb_app in *.
  match goal with Hs : _ && _ = true |- _ => apply andb_true_iff in Hs; destruct Hs end.
  repeat split; assumption.
Qed.

(** What the validator returns on a document of the expected types. *)
Lemma validate_shaped (path : string) (doc : yaml) :
  Shape.validator_shaped doc = true ->
  exists r,
    validate_document path doc = Ok r
    /\ (in_kinds (Signals.field "kind" doc) = Ok true ->
        Py.truthy (Signals.field "spec" doc) = true ->
        r_errors r
        = Shape.when (match Doc.at_path ["metadata"; "name"] doc with
                      | Some _ => false
                      | None => true
                      end)
                     "metadata.name is required"
        /\ r_summary r
           = [("has_ingress", Shape.nonempty (Signals.rules doc "ingress"));
              ("has_egress", Shape.nonempty (Signals.rules doc "egress"))]
        /\ r_warnings r
           = Shape.warnings_for (Signals.rules doc "ingress") (Signals.rules doc "egress")
        /\ r_kind r = Signals.field "kind" doc).
Proof.
  intros Hshape.
  destruct (validator_shaped_parts doc Hshape)
    as (Hmap & Hkind & Hmeta & Hspec & Hing & Heg & Hri & Hre).
  destruct (scalar_kind _ Hkind) as [known Hknown].
  destruct (metadata_read doc Hmap Hmeta) as (m0 & m & Hm0 & Hm & Hname).
  assert (Hdoc : exists entries, doc = YMap entries)
    by (destruct doc; try discriminate; eexists; reflexivity).
  destruct Hdoc as [entries ->].
  unfold validate_document.
  rewrite (get_of_map _ "kind" Hmap). cbn [obind]. rewrite Hknown. cbn [obind].
  destruct known; cbn [negb];
    [| eexists; split; [reflexivity | discriminate]].
  rewrite Hm0. cbn [obind]. rewrite Hm. cbn [Py.str_in obind].
  repeat (rewrite (get_of_map (YMap m) _ eq_refl); cbn [obind]).
  rewrite (get_of_map _ "spec" Hmap). cbn [obind]. rewrite truthy_or_empty.
  destruct (Py.truthy (Signals.field "spec" (YMap entries))) eqn:Hts; cbn [negb];
    [| eexists; split; [reflexivity | discriminate]].
  rewrite !(field_of_falsy_spec _ _ Hspec). cbn [obind].
  set (ing := Signals.field "ingress" (Signals.field "spec" (YMap entries))) in *.
  set (eg := Signals.field "egress" (Signals.field "spec" (YMap entries))) in *.
  fold ing in Hri. fold eg in Hre.
  unfold Signals.rules in *. fold ing eg in Hri, Hre |- *.
  rewrite (direction_warning_spec ing _ Hing Hri). cbn [obind].
  rewrite (direction_warning_spec eg _ Heg Hre). cbn [obind].
  eexists. split; [reflexivity |]. intros _ _.
  cbn [r_errors r_summary r_warnings r_kind].
  destruct (truthy_list ing Hing) as [Hti _].
  destruct (truthy_list eg Heg) as [Hte Hel].
  split; [| split; [| split; [| reflexivity]]].
  - rewrite <- Hname. now destruct (Py.lookup "name" m).
  - now rewrite Hti, Hte.
  - unfold Shape.warnings_for. rewrite Hti, Hte.
    f_equal. f_equal. f_equal.
    destruct (Shape.nonempty (match eg with YSeq l => l | _ => [] end)) eqn:Hne;
      [| reflexivity].
    rewrite <- (Hel Hte). cbn [andb].
    now destruct (negb (PyStr.contains "53" (safe_dump eg))
                  && negb (PyStr.contains "toFQDNs" (safe_dump eg))).
Qed.



(** ** The validator and the checklist on the same document *)

Lemma rule_ok_section_ok (rule : yaml) :
  Shape.rule_ok rule = true -> Signals.section_ok rule = true.
Proof.
  unfold Shape.rule_ok, Shape.ports_listed, Signals.section_ok.
  intros H. apply andb_true_iff in H. destruct H as [Hmap Hports].
  rewrite Hmap. destruct rule; try discriminate.
  unfold Signals.to_ports, Signals.field. simpl in *.
  destruct (Py.lookup "toPorts" entries) as [x |]; [| reflexivity].
  destruct x; try discriminate. exact Hports.
Qed.

Lemma validator_shaped_well_shaped (doc : yaml) :
  Shape.validator_shaped doc = true -> Signals.well_shaped doc = true.
Proof.
  intros H. destruct (validator_shaped_parts doc H)
    as (Hmap & _ & _ & Hspec & Hing & Heg & Hri & Hre).
  unfold Signals.well_shaped, Signals.sections.
  rewrite Hmap, Hspec, Hing, Heg, forallb_app. cbn [andb].
  apply andb_true_iff. split; apply forallb_forall; intros rule Hin;
    apply rule_ok_section_ok.
  - rewrite forallb_forall in Hri. now apply Hri.
  - rewrite forallb_forall in Hre. now apply Hre.
Qed.




(** ** The generated template, validated and scanned *)

Lemma port_obj_entry (p : string) (tp : yaml) :
  port_obj p = Ok tp -> exists port proto, tp = Doc.port_entry port proto.
Proof.
  unfold port_obj. destruct (PyStr.has_char "/" p).
  - destruct (PyStr.split "/" p) as [|port [|proto [|x l]]]; try discriminate.
    intros H. injection H as <-. now exists port, proto.
  - intros H. injection H as <-. now exists p, "TCP".
Qed.

Lemma port_objs_shape (ps : list string) (l : list yaml) :
  port_objs ps = Ok l ->
  forallb Signals.is_map l = true
  /\ (ps <> [] -> existsb Signals.populated l = true).
Proof.
  revert l. induction ps as [|p ps IH]; intros l; simpl.
  - intros H. injection H as <-. split; [reflexivity | intros H; now elim H].
  - destruct (port_obj p) as [tp | e] eqn:Hp; simpl; [| discriminate].
    destruct (port_objs ps) as [tps | e]; simpl; [| discriminate].
    intros H. injection H as <-.
    destruct (port_obj_entry p tp Hp) as (port & proto & ->).
    destruct (IH tps eq_refl) as [Hmaps _].
    split; [exact Hmaps | reflexivity].
Qed.

Lemma list_or_cons (xs : option (list string)) (d : string) (ds : list string) :
  exists x l, list_or xs (d :: ds) = x :: l.
Proof. destruct xs as [[|x l] |]; simpl; eauto. Qed.

(** *** The dump of some texts *)

(** A sexagesimal number and a date would be read back as numbers and
    dates: as strings they are quoted. *)
Lemma dump_quotes_sexagesimal_and_dates :
  safe_dump (YSeq [YMap [("port", YStr "53:00")]])
  = ("- port: '53:00'" ++ Emitter.line_feed)%string
  /\ safe_dump (YMap [("namespace", YStr "2024-01-01")])
     = ("namespace: '2024-01-01'" ++ Emitter.line_feed)%string
  /\ safe_dump (YSeq [YMap [("port", YStr "53")]; YMap [("port", YInt 53)]])
     = ("- port: '53'" ++ Emitter.line_feed ++ "- port: 53" ++ Emitter.line_feed)%string.
Proof. repeat split; vm_compute; reflexivity. Qed.

(** The next-line character has a short escape. *)
Lemma dump_escapes_next_line :
  safe_dump (YSeq [YMap [("note", YStr (String Yaml.nel_char "3"))]])
  = ("- note: " ++ String Yaml.dquote ("\N3" ++ String Yaml.dquote Emitter.line_feed))%string.
Proof. vm_compute. reflexivity. Qed.

(** A string with a line feed is single-quoted over several lines. *)
Lemma dump_breaks_single_quoted :
  safe_dump (YSeq [YMap [("port", YStr ("53'" ++ Emitter.line_feed ++ "x"))]])
  = ("- port: '53''" ++ Emitter.line_feed ++ Emitter.line_feed ++ "    x'"
     ++ Emitter.line_feed)%string.
Proof. vm_compute. reflexivity. Qed.

(** A line is folded at the first space after column 80, and an empty key
    is written as a complex key. *)
Lemma dump_folds_and_complex_keys :
  safe_dump (YMap [("note",
                    YStr ("allow the pods of the team to reach the resolver of the cluster "
                          ++ "and nothing else at all"))])
  = ("note: allow the pods of the team to reach the resolver of the cluster and nothing"
     ++ Emitter.line_feed ++ "  else at all" ++ Emitter.line_feed)%string
  /\ safe_dump (YMap [("", YInt 1)])
     = ("? ''" ++ Emitter.line_feed ++ ": 1" ++ Emitter.line_feed)%string.
Proof. split; vm_compute; reflexivity. Qed.

(** The checklist's port token on such texts: ['53:00'] is not a DNS port,
    a string that begins with [53'] and a line feed is taken for one. *)
Lemma dns_token_on_quoted_ports :
  Signals.dns_token (YMap [("toPorts", YSeq [Doc.port_entry "53:00" "TCP"])]) = false
  /\ Signals.dns_token
       (YMap [("toPorts",
               YSeq [Doc.port_entry ("53'" ++ Emitter.line_feed ++ "x") "TCP"])]) = true.
Proof. split; vm_compute; reflexivity. Qed.

Lemma string_app_assoc (a b c : string) : ((a ++ b) ++ c = a ++ (b ++ c))%string.
Proof. induction a as [|ch a IH]; simpl; [reflexivity | now rewrite IH]. Qed.

(** The text of a document is the text of its root node, followed by the
    end of the document. *)
Lemma dump_begins_with_root (sort_keys : bool) (v : yaml) :
  exists rest,
    Emitter.dump sort_keys v
    = (fst (Emitter.expect_node sort_keys v None true false Emitter.start) ++ rest)%string.
Proof. eexists. reflexivity. Qed.

(** A block sequence at the root begins with the dash of its first item. *)
Lemma root_sequence_begins (sort_keys : bool) (item : yaml) (items : list yaml) :
  exists rest,
    fst (Emitter.expect_node sort_keys (YSeq (item :: items)) None true false Emitter.start)
    = ("-" ++ fst (Emitter.expect_node sort_keys item (Some 0) false false
                     (Emitter.mkState 1 false true false))
           ++ rest)%string.
Proof. eexists. reflexivity. Qed.

(** A block mapping begins with its first entry; with one entry, that is
    its only one. *)
Lemma single_entry_mapping (key : string) (v : yaml) (indent : nat) (st : Emitter.state) :
  fst (Emitter.expect_node true (YMap [(key, v)]) (Some indent) false false st)
  = (fst (Emitter.expect_block_mapping_entry (indent + 2) key
            (Emitter.expect_node true v (Some (indent + 2)) false true) st) ++ "")%string.
Proof. reflexivity. Qed.

(** The key [toFQDNs] after a dash is a simple key, written plain. *)
Lemma fqdns_entry_after_dash (value : Emitter.writer) :
  fst (Emitter.expect_block_mapping_entry 2 "toFQDNs" value
         (Emitter.mkState 1 false true false))
  = (" toFQDNs:" ++ fst (value (Emitter.mkState 10 false false false)) ++ "")%string.
Proof. reflexivity. Qed.

(** The dump of egress rules that begin with a [toFQDNs] rule begins with
    that key. *)
Lemma dump_starts_with_fqdns (x : yaml) (l rest_rules : list yaml) :
  exists rest,
    safe_dump (YSeq (YMap [("toFQDNs", YSeq (x :: l))] :: rest_rules))
    = ("- toFQDNs:" ++ rest)%string.
Proof.
  unfold safe_dump.
  destruct (dump_begins_with_root true
              (YSeq (YMap [("toFQDNs", YSeq (x :: l))] :: rest_rules))) as [r1 ->].
  destruct (root_sequence_begins true (YMap [("toFQDNs", YSeq (x :: l))]) rest_rules)
    as [r2 ->].
  rewrite (single_entry_mapping "toFQDNs" (YSeq (x :: l)) 0).
  change (0 + 2) with 2. rewrite fqdns_entry_after_dash.
  repeat rewrite string_app_assoc. eexists. cbn [String.append]. reflexivity.
Qed.

Lemma contains_unfold (needle hay : string) :
  PyStr.contains needle hay
  = PyStr.startswith needle hay
    || match hay with
       | EmptyString => false
       | String _ hay' => PyStr.contains needle hay'
       end.
Proof. destruct hay; reflexivity. Qed.

Lemma contains_prefix (needle rest : string) :
  PyStr.contains needle (needle ++ rest) = true.
Proof. rewrite contains_unfold, startswith_prefix. reflexivity. Qed.

Lemma contains_after (a needle rest : string) :
  PyStr.contains needle (a ++ needle ++ rest) = true.
Proof.
  induction a as [|c a IH]; [exact (contains_prefix needle rest) |].
  simpl. rewrite IH. apply orb_true_r.
Qed.

Lemma template_egress_mentions_fqdns (x : yaml) (l rest_rules : list yaml) :
  PyStr.contains "toFQDNs"
    (safe_dump (YSeq (YMap [("toFQDNs", YSeq (x :: l))] :: rest_rules))) = true.
Proof.
  destruct (dump_starts_with_fqdns x l rest_rules) as [rest ->].
  change ("- toFQDNs:" ++ rest)%string with ("- " ++ "toFQDNs" ++ (":" ++ rest))%string.
  apply contains_after.
Qed.

(** X16: A generated template passes the server's own checks: the validator
    reports no error and no warning on the generated document, with both
    directions present, and the checklist flags it as having L7 rules and
    as handling DNS. *)
Theorem generated_template_passes_validator_and_checklist :
  forall (app namespace : string) (ingress_ports egress_fqdns : option (list string))
         (doc : yaml) (path : string),
    policy_document app namespace ingress_ports egress_fqdns = Ok doc ->
    (exists r,
       validate_document path doc = Ok r
       /\ r_errors r = []
       /\ r_warnings r = []
       /\ r_kind r = YStr "CiliumNetworkPolicy"
       /\ r_summary r = [("has_ingress", true); ("has_egress", true)])
    /\ inspect_document doc = Ok (true, true).
Proof.
  intros app ns ports fqdns doc path H. unfold policy_document in H.
  destruct (list_or_cons ports "80/TCP" ["443/TCP"]) as (p & ps & Hp).
  destruct (list_or_cons fqdns "*.amazonaws.com" []) as (f & fs & Hf).
  rewrite Hp, Hf in H.
  destruct (port_objs (p :: ps)) as [tps | e] eqn:Htps; cbn [obind] in H; [| discriminate].
  destruct (port_objs_shape _ _ Htps) as [Hmaps Hpop].
  specialize (Hpop ltac:(discriminate)).
  injection H as <-. cbn [map].
  set (fq := YMap [("matchName", YStr f)]).
  set (fqs := map (fun fqdn : string => YMap [("matchName", YStr fqdn)]) fs).
  match goal with
  | |- (exists r, validate_document _ ?d = _ /\ _) /\ _ => set (doc := d)
  end.
  assert (Hshape : Shape.validator_shaped doc = true).
  { unfold Shape.validator_shaped. simpl.
    unfold Shape.rule_ok, Shape.ports_listed. simpl. now rewrite Hmaps. }
  assert (Hing : Shape.has_ports (Signals.rules doc "ingress") = true).
  { unfold Shape.has_ports, Signals.rules, Signals.field, Signals.to_ports, doc.
    simpl. now rewrite Hpop. }
  assert (Heg : Shape.has_ports (Signals.rules doc "egress") = true) by reflexivity.
  split.
  - destruct (validate_shaped path doc Hshape) as (r & Hr & Hres).
    destruct (Hres eq_refl eq_refl) as (He & Hs & Hw & Hk).
    exists r. split; [exact Hr |]. split; [exact He |].
    split; [| split; [exact Hk | exact Hs]].
    rewrite Hw. unfold Shape.warnings_for. rewrite Hing, Heg.
    change (Signals.rules doc "egress") with [YMap [("toFQDNs", YSeq (fq :: fqs))];
                                              dns_egress_rule].
    rewrite template_egress_mentions_fqdns. cbn [negb]. rewrite !andb_false_r.
    reflexivity.
  - rewrite (inspect_document_signals doc (validator_shaped_well_shaped doc Hshape)).
    f_equal. f_equal.
    + unfold Signals.l7_signal, Signals.sections. rewrite existsb_app.
      fold (Shape.has_ports (Signals.rules doc "ingress")). now rewrite Hing.
    + unfold Signals.dns_signal, Signals.sections. rewrite existsb_app.
      change (Signals.rules doc "egress") with [YMap [("toFQDNs", YSeq (fq :: fqs))];
                                                dns_egress_rule].
      cbn [existsb].
      change (Signals.declares_fqdns (YMap [("toFQDNs", YSeq (fq :: fqs))])) with true.
      cbn [orb]. now rewrite orb_true_r.
Qed.

Lemma generated_template_passes_validator_and_checklist_witness :
  exists doc,
    policy_document "web" "prod" None (Some ["8080"; "53/UDP"]) = Ok doc
    /\ ((exists r,
           validate_document "web-ztp.yaml" doc = Ok r
           /\ r_errors r = []
           /\ r_warnings r = []
           /\ r_kind r = YStr "CiliumNetworkPolicy"
           /\ r_summary r = [("has_ingress", true); ("has_egress", true)])
        /\ inspect_document doc = Ok (true, true)).
Proof.
  eexists. split; [reflexivity |].
  apply (generated_template_passes_validator_and_checklist
           "web" "prod" None (Some ["8080"; "53/UDP"]) _ "web-ztp.yaml").
  reflexivity.
Defined.

(** ** Validating what was listed *)





